(** * systemd-timer-automation-tool: a shallow embedding and its properties

    The tool is a sequence of command handlers dispatched from parsed
    command-line arguments.  Every handler talks to the operating system:
    it prints, reads and writes files, and starts processes.  The embedding
    makes that explicit:

    - a [state] holds the file system as the tool sees it, the text that
      reached standard output, and the processes that were started;
    - what the process finds around it and cannot change (environment
      variables, search path, permissions, its own help text) is an [env];
    - handlers are computations in the monad [M], which threads the state and
      stops at [sys.exit] or at an exception nobody catches;
    - what a started process does (to the file system, to standard output)
      is not the tool's business: it is given by an oracle, a variable of the
      section the handlers live in. *)

From Stdlib Require Import ZArith Ascii String List Sorted Permutation Lia.
From stdpp Require Import base strings gmap list sorting.

Local Open Scope Z_scope.

(** ** Python strings

    Strings are byte strings: a text is the UTF-8 encoding Python reads it
    from and writes it to (what comes from the command line and from the
    environment is taken to be such text).  The only case conversion the
    tool performs is [str.lower] followed by a search for ASCII markers, for
    which lowering the ASCII capitals is all that matters. *)

Module Py.

Definition LF : string := String (ascii_of_nat 10) EmptyString.
Definition DQ : string := String (ascii_of_nat 34) EmptyString.
Definition SEP : string := "/".

Definition lower_ascii (c : ascii) : ascii :=
  let n := N_of_ascii c in
  if ((65 <=? n) && (n <=? 90))%N then ascii_of_N (n + 32) else c.

Fixpoint lower (s : string) : string :=
  match s with
  | EmptyString => EmptyString
  | String c t => String (lower_ascii c) (lower t)
  end.

Definition startswith (s p : string) : bool := String.prefix p s.

(** [contains sub s] is Python's [sub in s]. *)
Fixpoint contains (sub s : string) : bool :=
  String.prefix sub s ||
  match s with
  | EmptyString => false
  | String _ t => contains sub t
  end.

Fixpoint endswith (s p : string) : bool :=
  String.eqb s p ||
  match s with
  | EmptyString => false
  | String _ t => endswith t p
  end.

(** [sep.join(l)] *)
Definition join (sep : string) (l : list string) : string :=
  String.concat sep l.

(** [s.split("\n")]: the pieces between line feeds. *)
Fixpoint lines (s : string) : list string :=
  match s with
  | EmptyString => [EmptyString]
  | String c t =>
      if Ascii.eqb c (ascii_of_nat 10) then EmptyString :: lines t
      else match lines t with
           | [] => [String c EmptyString]
           | l :: ls => String c l :: ls
           end
  end.

(** [x in l] for a list of strings. *)
Definition str_in (x : string) (l : list string) : bool :=
  existsb (String.eqb x) l.

(** [str(x)] inside an f-string, for an optional string. *)
Definition fmt (o : option string) : string :=
  match o with Some s => s | None => "None" end.

(** [o == s] for an optional string [o]. *)
Definition opt_eq (o : option string) (s : string) : bool :=
  match o with Some v => String.eqb v s | None => false end.

(** Truth value of an optional string ([None] and [""] are false). *)
Definition truthy (o : option string) : bool :=
  match o with
  | Some (String _ _) => true
  | _ => false
  end.

(** [sorted(l)] on strings: ascending code-point order. *)
Definition sorted (l : list string) : list string :=
  merge_sort String.le l.

(** [s.rstrip("/")] *)
Fixpoint rstrip_sep (s : string) : string :=
  match s with
  | EmptyString => EmptyString
  | String c t =>
      match rstrip_sep t with
      | EmptyString => if Ascii.eqb c "/" then EmptyString else String c EmptyString
      | r => String c r
      end
  end.

(** Whether a byte string is what [bytes.decode("utf-8")] accepts: sequences
    of one to four bytes in their shortest form, no surrogates, nothing above
    U+10FFFF. *)
Definition byte_in (lo hi : N) (c : ascii) : bool :=
  ((lo <=? N_of_ascii c) && (N_of_ascii c <=? hi))%N.

Definition continuation (c : ascii) : bool := byte_in 128 191 c.

Fixpoint utf8_valid (s : string) : bool :=
  match s with
  | EmptyString => true
  | String c0 t0 =>
      if byte_in 0 127 c0 then utf8_valid t0
      else
        match t0 with
        | EmptyString => false
        | String c1 t1 =>
            if byte_in 194 223 c0 then continuation c1 && utf8_valid t1
            else
              match t1 with
              | EmptyString => false
              | String c2 t2 =>
                  if byte_in 224 239 c0 then
                    (if byte_in 224 224 c0 then byte_in 160 191 c1
                     else if byte_in 237 237 c0 then byte_in 128 159 c1
                     else continuation c1)
                    && continuation c2 && utf8_valid t2
                  else
                    match t2 with
                    | EmptyString => false
                    | String c3 t3 =>
                        byte_in 240 244 c0
                        && (if byte_in 240 240 c0 then byte_in 144 191 c1
                            else if byte_in 244 244 c0 then byte_in 128 143 c1
                            else continuation c1)
                        && continuation c2 && continuation c3 && utf8_valid t3
                    end
              end
        end
  end.

End Py.

(** ** The file system

    A finite map from the path strings the tool hands to the operating system
    to what is found there: a directory with its listing, a regular file with
    its mode and bytes, or something else that exists (a FIFO, a socket, a
    device), which is neither.  Reading such a thing yields [readable], when
    it can be opened at all.

    What makes the operating system refuse an operation on the strength of
    what is found at a path and at its parent is part of the model.  What
    makes it refuse for other reasons is part of the model for reading only
    (the paths the process may not read, see [env] below); permission to
    write, room on the device and the like are taken to be there. *)

Inductive node :=
| Dir (entries : list string)
| File (mode : Z) (content : string)
| Other (readable : option string).

Module os.

Definition S_IXUSR : Z := 64.          (* 0o100 *)
Definition default_mode : Z := 420.    (* 0o644 *)

Module path.
Definition isdir (fs : gmap string node) (p : string) : bool :=
  match fs !! p with Some (Dir _) => true | _ => false end.
Definition isfile (fs : gmap string node) (p : string) : bool :=
  match fs !! p with Some (File _ _) => true | _ => false end.
Definition exists_ (fs : gmap string node) (p : string) : bool :=
  match fs !! p with Some _ => true | None => false end.

(** [os.path.join(a, b)] of posixpath. *)
Definition join (a b : string) : string :=
  if Py.startswith b Py.SEP then b
  else if String.eqb a EmptyString || Py.endswith a Py.SEP then a +:+ b
  else a +:+ Py.SEP +:+ b.

Definition join_all (a : string) (ps : list string) : string :=
  fold_left join ps a.

(** [p[:i], p[i:]] for [i = p.rfind("/") + 1]: the part up to and including
    the last separator, and the part after it. *)
Fixpoint rpartition (p : string) : string * string :=
  match p with
  | EmptyString => (EmptyString, EmptyString)
  | String c t =>
      let (head, tail) := rpartition t in
      if String.eqb head EmptyString then
        if Ascii.eqb c "/" then (String c EmptyString, tail)
        else (EmptyString, String c tail)
      else (String c head, tail)
  end.

(** [os.path.split(p)] of posixpath: the head loses its trailing separators
    unless it consists of separators only. *)
Definition split (p : string) : string * string :=
  let (head, tail) := rpartition p in
  (if negb (String.eqb head EmptyString)
      && negb (String.eqb (Py.rstrip_sep head) EmptyString)
   then Py.rstrip_sep head else head,
   tail).

Definition dirname (p : string) : string := fst (split p).

(** [os.path.expanduser("~")] of posixpath: [$HOME] if it is set, else the
    home directory of the password database, without trailing separators (the
    root directory if nothing is left); the path unchanged when the user has
    no entry in the password database. *)
Definition expanduser_home (environ : gmap string string) (pw_dir : option string)
  : string :=
  let strip userhome :=
    let userhome := Py.rstrip_sep userhome in
    if String.eqb userhome EmptyString then "/" else userhome in
  match environ !! "HOME" with
  | Some userhome => strip userhome
  | None =>
      match pw_dir with
      | Some userhome => strip userhome
      | None => "~"
      end
  end.
End path.

Definition listdir (fs : gmap string node) (p : string) : list string :=
  match fs !! p with Some (Dir names) => names | _ => [] end.

Definition st_mode (fs : gmap string node) (p : string) : Z :=
  match fs !! p with Some (File m _) => m | _ => 0 end.

End os.

(** ** Processes *)

Inductive spawn :=
| Direct (argv : list string)       (* subprocess.run([...]) *)
| Shell (command : string).         (* subprocess.run(cmd, shell=True) *)

(** ** The state monad with exit and exceptions *)

Inductive exn :=
| FileNotFoundError
| IsADirectoryError
| NotADirectoryError
| FileExistsError
| PermissionError
| OSError
| UnicodeDecodeError.

(** [isinstance(e, OSError)]: all of them but [UnicodeDecodeError], which is
    a [ValueError]. *)
Definition is_OSError (e : exn) : bool :=
  match e with UnicodeDecodeError => false | _ => true end.

Definition is_FileExistsError (e : exn) : bool :=
  match e with FileExistsError => true | _ => false end.

Inductive outcome (A : Type) :=
| Ret (a : A)
| Exit (code : Z)
| Raise (e : exn).
Arguments Ret {A} a.
Arguments Exit {A} code.
Arguments Raise {A} e.

Record state := mkState {
  st_fs : gmap string node;
  st_out : list string;
  st_spawned : list spawn
}.

Definition M (A : Type) : Type := state -> outcome A * state.

#[global] Instance M_ret : MRet M := fun A a s => (Ret a, s).
#[global] Instance M_bind : MBind M := fun A B f m s =>
  match m s with
  | (Ret a, s') => f a s'
  | (Exit c, s') => (Exit c, s')
  | (Raise e, s') => (Raise e, s')
  end.

Definition get_fs : M (gmap string node) := fun s => (Ret (st_fs s), s).
Definition put_fs (fs : gmap string node) : M unit :=
  fun s => (Ret tt, mkState fs (st_out s) (st_spawned s)).
Definition print (line : string) : M unit :=
  fun s => (Ret tt, mkState (st_fs s) (st_out s ++ [line]) (st_spawned s)).
Definition sys_exit {A} (code : Z) : M A := fun s => (Exit code, s).
Definition raise {A} (e : exn) : M A := fun s => (Raise e, s).
Definition when (b : bool) (m : M unit) : M unit :=
  if b then m else mret tt.

(** [try: body except FileNotFoundError: handler] *)
Definition try_except_FileNotFoundError {A} (body handler : M A) : M A :=
  fun s =>
    match body s with
    | (Raise FileNotFoundError, s') => handler s'
    | r => r
    end.

(** [try: body except <some class> as e: handler(e)], for the exceptions
    [caught] accepts. *)
Definition try_except {A} (caught : exn -> bool) (body : M A) (handler : exn -> M A)
  : M A :=
  fun s =>
    match body s with
    | (Raise e, s') => if caught e then handler e s' else (Raise e, s')
    | r => r
    end.

Fixpoint for_each {A} (l : list A) (body : A -> M unit) : M unit :=
  match l with
  | [] => mret tt
  | x :: l' => body x ;; for_each l' body
  end.

(** [f.read()] on a file opened with [encoding="utf-8"]: the bytes must be
    UTF-8.  Line endings are left as they are, which makes no difference to
    the one reader, a search for markers that hold none. *)
Definition decode (c : string) : M string :=
  if Py.utf8_valid c then mret c else raise UnicodeDecodeError.

(** [open(p, "r", encoding="utf-8").read()], where [unreadable] holds the
    paths the operating system does not let this process open for reading. *)
Definition read_file (unreadable : gset string) (p : string) : M string :=
  fs ← get_fs;
  if bool_decide (p ∈ unreadable) then raise PermissionError
  else
    match fs !! p with
    | None => raise FileNotFoundError
    | Some (Dir _) => raise IsADirectoryError
    | Some (File _ c) => decode c
    | Some (Other (Some c)) => decode c
    | Some (Other None) => raise OSError
    end.

(** [open(p, "w", encoding="utf-8").write(c)]: replaces the content of a
    file that is there, or creates the file in the directory it belongs to.
    What is written to a FIFO or a device is not kept. *)
Definition write_file (p c : string) : M unit :=
  fs ← get_fs;
  match fs !! p with
  | Some (Dir _) => raise IsADirectoryError
  | Some (File m _) => put_fs (<[p := File m c]> fs)
  | Some (Other (Some _)) => mret tt
  | Some (Other None) => raise OSError
  | None =>
      let parent := os.path.dirname p in
      if String.eqb parent EmptyString then put_fs (<[p := File os.default_mode c]> fs)
      else
        match fs !! parent with
        | Some (Dir _) => put_fs (<[p := File os.default_mode c]> fs)
        | Some _ => raise NotADirectoryError
        | None => raise FileNotFoundError
        end
  end.

(** [os.mkdir(p)]: the directory is made in the directory it belongs to (the
    working directory and the root are taken to be there). *)
Definition mkdir (p : string) : M unit :=
  fs ← get_fs;
  match fs !! p with
  | Some _ => raise FileExistsError
  | None =>
      let parent := os.path.dirname p in
      if String.eqb parent EmptyString || String.eqb parent p then
        put_fs (<[p := Dir []]> fs)
      else
        match fs !! parent with
        | Some (Dir _) => put_fs (<[p := Dir []]> fs)
        | Some _ => raise NotADirectoryError
        | None => raise FileNotFoundError
        end
  end.

(** [try: mkdir(name) except OSError: if not path.isdir(name): raise] *)
Definition mkdir_exist_ok (name : string) : M unit :=
  try_except is_OSError (mkdir name)
    (fun e =>
       fs ← get_fs;
       if negb (os.path.isdir fs name) then raise e else mret tt).

(** The body of [os.makedirs(name, exist_ok=True)], with [recur] for the
    call of itself on the head of the path:

    - split the path, once more when it ends in a separator;
    - when the head does not exist, make it first (an existing head reported
      by [FileExistsError] is fine), and stop if the tail is [.];
    - make the directory itself; an [OSError] is passed on unless the
      directory is there. *)
Definition makedirs_step (recur : string -> M unit) (name : string) : M unit :=
  let (head, tail) := os.path.split name in
  let (head, tail) :=
    if String.eqb tail EmptyString then os.path.split head else (head, tail) in
  fs ← get_fs;
  returned ←
    (if negb (String.eqb head EmptyString) && negb (String.eqb tail EmptyString)
        && negb (os.path.exists_ fs head)
     then
       try_except is_FileExistsError (recur head) (fun _ => mret tt);;
       mret (String.eqb tail ".")
     else mret false);
  if (returned : bool) then mret tt else mkdir_exist_ok name.

(** The recursion of [os.makedirs] is on ever shorter heads: the length of
    the path bounds its depth. *)
Fixpoint makedirs_from (depth : nat) (name : string) : M unit :=
  match depth with
  | O => makedirs_step (fun _ => mret tt) name
  | S depth' => makedirs_step (makedirs_from depth') name
  end.

(** [os.makedirs(p, exist_ok=True)] *)
Definition makedirs (p : string) : M unit :=
  makedirs_from (String.length p) p.

(** [os.remove(p)] *)
Definition remove (p : string) : M unit :=
  fs ← get_fs;
  match fs !! p with
  | Some (File _ _) => put_fs (delete p fs)
  | Some (Other _) => put_fs (delete p fs)
  | Some (Dir _) => raise IsADirectoryError
  | None => raise FileNotFoundError
  end.

(** ** Parsed command-line options (the argparse namespace) *)

Record Args := mkArgs {
  os : string;
  run_arg : option string;
  dry_run_arg : option string;
  verbose : bool;
  dependencies : option string;
  configs : option string;
  install_systemd_timer : option string;
  Persistent : option string;
  OnCalendar : option string;
  Description : option string;
  status : bool;
  enable_and_start : bool;
  disable_and_stop : bool;
  logs : bool
}.

(** What the process finds around it: the home directory the password
    database has for the user (if it has one), the absolute path of the
    script itself, the environment variables, the commands [shutil.which]
    finds on the search path, the paths the process is not permitted to open
    for reading, and the help text argparse formats for this parser (without
    its final line feed; it depends on the program name and the width of the
    terminal). *)
Record env := mkEnv {
  env_pw_dir : option string;
  env_script_path : string;
  env_environ : gmap string string;
  env_which : gmap string string;
  env_unreadable : gset string;
  env_help : string
}.

Section Tool.

(** The oracle: what happens when the operating system is asked to run a
    process on a given file system.  [None]: the process could not be
    started, and [subprocess.run] raises.  Otherwise the file system the
    process leaves behind and what it wrote to the inherited standard
    output.  The exit status is never inspected ([check=False]). *)
Variable exec : spawn -> gmap string node -> option (gmap string node * list string).
Variable E : env.

Definition subprocess_run (p : spawn) : M unit :=
  fun s =>
    match exec p (st_fs s) with
    | None => (Raise OSError, mkState (st_fs s) (st_out s) (st_spawned s ++ [p]))
    | Some (fs', o) => (Ret tt, mkState fs' (st_out s ++ o) (st_spawned s ++ [p]))
    end.

Definition shutil_which (cmd : string) : option string := env_which E !! cmd.

Definition detect_os (selected_os : string) : M string :=
  if Py.str_in selected_os ["arch"; "ubuntu"] then mret selected_os
  else
    try_except_FileNotFoundError
      (content ← read_file (env_unreadable E) "/etc/os-release";
       let content := Py.lower content in
       if Py.contains "arch linux" content then mret "arch"
       else if Py.contains "ubuntu" content then mret "ubuntu"
       else mret "unknown")
      (mret "unknown").

Definition is_executable_file (fs : gmap string node) (path : string) : bool :=
  if negb (os.path.isfile fs path) then false
  else negb (Z.land (os.st_mode fs path) os.S_IXUSR =? 0).

Definition run_commands (args : Args) (run_arg : string) (is_dry_run : bool) : M unit :=
  fs ← get_fs;
  if os.path.isdir fs run_arg then
    for_each (Py.sorted (os.listdir fs run_arg)) (fun item =>
      let full_path := os.path.join run_arg item in
      fs ← get_fs;
      if os.path.isfile fs full_path && is_executable_file fs full_path then
        when (verbose args) (print ("Found executable script: " +:+ full_path));;
        if is_dry_run then
          print ("[DRYRUN] Would run: '" +:+ full_path +:+ "'")
        else
          print ("Running: '" +:+ full_path +:+ "'");;
          subprocess_run (Direct [full_path])
      else mret tt)
  else if os.path.isfile fs run_arg then
    if is_executable_file fs run_arg then
      if is_dry_run then
        print ("[DRYRUN] Would run file: '" +:+ run_arg +:+ "'")
      else
        print ("Running file: '" +:+ run_arg +:+ "'");;
        subprocess_run (Direct [run_arg])
    else
      when (verbose args)
        (print ("'" +:+ run_arg +:+ "' is a file but probably not executable. "
                +:+ "Attempting to run in shell."));;
      if is_dry_run then
        print ("[DRYRUN] Would run via shell: '" +:+ run_arg +:+ "'")
      else
        subprocess_run (Direct ["bash"; run_arg])
  else
    if is_dry_run then
      print ("[DRYRUN] Would run command: " +:+ run_arg)
    else
      subprocess_run (Shell run_arg).

Definition check_dependencies (verbose : bool) : M unit :=
  let commands_to_check := ["systemctl"; "bash"; "nano"] in
  for_each commands_to_check (fun cmd =>
    let cmd_path := shutil_which cmd in
    if Py.truthy cmd_path then
      print ("[OK]   " +:+ cmd +:+ " found at " +:+ Py.fmt cmd_path)
    else
      print ("[MISS] " +:+ cmd +:+ " NOT found"));;
  when verbose (print "Dependency check finished.").

Definition suggest_install_script (verbose : bool) : M unit :=
  user_os ← detect_os "auto";
  let missing_cmds :=
    List.filter (fun cmd => negb (Py.truthy (shutil_which cmd)))
                ["systemctl"; "bash"; "nano"] in
  match missing_cmds with
  | [] => print "All essential commands appear to be installed."
  | _ =>
      let pkgmgr :=
        if String.eqb user_os "arch" then "sudo pacman -S"
        else if String.eqb user_os "ubuntu" then "sudo apt-get install"
        else "<your_package_manager_install_command>" in
      print "Suggested installation commands (based on detected OS):";;
      for_each missing_cmds (fun cmd => print ("  " +:+ pkgmgr +:+ " " +:+ cmd));;
      when verbose (print "Suggested install script generation completed.")
  end.

Definition home : string :=
  os.path.expanduser_home (env_environ E) (env_pw_dir E).
Definition systemd_user_dir : string :=
  os.path.join_all home [".config"; "systemd"; "user"].
Definition service_file : string :=
  os.path.join systemd_user_dir "daily_by_hostname.service".
Definition timer_file : string :=
  os.path.join systemd_user_dir "daily_by_hostname.timer".

Definition service_content (args : Args) : list string :=
  let script_path := env_script_path E in
  let default_description := "Daily User Run of " +:+ script_path in
  let description :=
    if Py.truthy (Description args) then Py.fmt (Description args)
    else default_description in
  [ "[Unit]";
    "Description=" +:+ description;
    "After=network.target";
    EmptyString;
    "[Service]";
    "Type=oneshot";
    "ExecStart=/usr/bin/env python3 " +:+ script_path +:+ " --run "
      +:+ Py.DQ +:+ Py.fmt (run_arg args) +:+ Py.DQ;
    EmptyString;
    "# End of service file" +:+ Py.LF ].

Definition timer_content (args : Args) : list string :=
  let script_path := env_script_path E in
  let default_description := "Daily User Run of " +:+ script_path in
  let description :=
    if Py.truthy (Description args) then Py.fmt (Description args)
    else default_description in
  let on_calendar :=
    if Py.truthy (OnCalendar args) then Py.fmt (OnCalendar args)
    else "*-*-* 14:00:00" in
  let persistent_value :=
    match Persistent args with None => "true" | Some v => v end in
  let persistent_value :=
    if negb (Py.str_in persistent_value ["true"; "false"]) then "true"
    else persistent_value in
  [ "[Unit]";
    "Description=Timer for: " +:+ description;
    EmptyString;
    "[Timer]";
    "OnCalendar=" +:+ on_calendar;
    "Persistent=" +:+ persistent_value;
    EmptyString;
    "[Install]";
    "WantedBy=default.target";
    EmptyString;
    "# End of timer file" +:+ Py.LF ].

Definition create_service_and_timer (args : Args) : M unit :=
  makedirs systemd_user_dir;;
  write_file service_file (Py.join Py.LF (service_content args));;
  write_file timer_file (Py.join Py.LF (timer_content args));;
  print ("Created service file: " +:+ service_file);;
  print ("Created timer file:   " +:+ timer_file);;
  print "You can now enable and start the timer with:";;
  print "  $ systemctl --user enable daily_by_hostname.timer";;
  print "  $ systemctl --user start daily_by_hostname.timer".

Definition edit_file_in_editor (file_path : string) : M unit :=
  let editor := default EmptyString (env_environ E !! "EDITOR") in
  let editor :=
    if String.eqb editor EmptyString then
      default EmptyString
        (List.find (fun candidate => Py.truthy (shutil_which candidate)) ["nano"; "vi"])
    else editor in
  if String.eqb editor EmptyString then
    print "No suitable editor found! Please set $EDITOR."
  else subprocess_run (Direct [editor; file_path]).

Definition handle_configs (args : Args) : M unit :=
  if Py.opt_eq (configs args) "paths" then
    print service_file;;
    print timer_file
  else if Py.opt_eq (configs args) "create" then
    (if negb (Py.truthy (run_arg args)) then
       print "Error: --configs create requires --run-arg";;
       sys_exit 1
     else mret tt);;
    create_service_and_timer args
  else if Py.opt_eq (configs args) "edit-service" then
    fs ← get_fs;
    if negb (os.path.exists_ fs service_file) then
      print ("Service file not found: " +:+ service_file)
    else edit_file_in_editor service_file
  else if Py.opt_eq (configs args) "edit-timer" then
    fs ← get_fs;
    if negb (os.path.exists_ fs timer_file) then
      print ("Timer file not found: " +:+ timer_file)
    else edit_file_in_editor timer_file
  else if Py.opt_eq (configs args) "delete" then
    fs ← get_fs;
    (if os.path.exists_ fs service_file then
       remove service_file;;
       print ("Deleted service file: " +:+ service_file)
     else mret tt);;
    fs ← get_fs;
    (if os.path.exists_ fs timer_file then
       remove timer_file;;
       print ("Deleted timer file: " +:+ timer_file)
     else mret tt)
  else mret tt.

Definition handle_systemd_install (args : Args) : M unit :=
  print ("You requested to install a systemd timer: "
         +:+ Py.fmt (install_systemd_timer args));;
  print "But the recommended way is to run: --configs create, then enable and start.".

Definition handle_systemd_timer_actions (args : Args) : M unit :=
  let user_cmd : option (list string) :=
    if status args then
      Some ["systemctl"; "--user"; "status"; "daily_by_hostname.timer"]
    else if enable_and_start args then
      Some ["systemctl"; "--user"; "enable"; "--now"; "daily_by_hostname.timer"]
    else if disable_and_stop args then
      Some ["systemctl"; "--user"; "disable"; "--now"; "daily_by_hostname.timer"]
    else if logs args then
      Some ["journalctl"; "--user-unit"; "daily_by_hostname.service"; "--since"; "today"]
    else None in
  match user_cmd with
  | Some user_cmd =>
      print ("Running: " +:+ Py.join " " user_cmd);;
      subprocess_run (Direct user_cmd)
  | None => mret tt
  end.

End Tool.

(** ** The command line

    A command line is modelled after argparse has recognised its option
    strings: as the list of the occurrences of the options the parser
    declares, each with the value it was given.  How argparse gets there
    (short and abbreviated option strings, [--opt=value]) is not part of the
    model.  Three declarations matter: [--run] is declared with
    [dest="run_arg"]; [--run-arg], declared without a [dest], gets the same
    destination [run_arg] from its name; and [-h], which every
    [ArgumentParser] declares unless told otherwise, prints the help and
    ends the process as soon as it is reached. *)

Inductive cli_option :=
| Opt_help                                  (* -h, --help *)
| Opt_os (v : string)
| Opt_run (v : string)                      (* -f, --run *)
| Opt_dry_run (v : string)                  (* -n, --dry-run *)
| Opt_verbose                               (* -v, --verbose *)
| Opt_dependencies (v : string)
| Opt_configs (v : string)
| Opt_run_arg (v : string)                  (* --run-arg *)
| Opt_install_systemd_timer (v : string)
| Opt_Persistent (v : string)
| Opt_OnCalendar (v : string)
| Opt_Description (v : string)
| Opt_status
| Opt_enable_and_start
| Opt_disable_and_stop
| Opt_logs.

Module Namespace.
Definition defaults : Args :=
  mkArgs "auto" None None false None None None None None None
         false false false false.

Definition set_os v a :=
  mkArgs v (run_arg a) (dry_run_arg a) (verbose a) (dependencies a) (configs a)
    (install_systemd_timer a) (Persistent a) (OnCalendar a) (Description a)
    (status a) (enable_and_start a) (disable_and_stop a) (logs a).
Definition set_run_arg v a :=
  mkArgs (os a) v (dry_run_arg a) (verbose a) (dependencies a) (configs a)
    (install_systemd_timer a) (Persistent a) (OnCalendar a) (Description a)
    (status a) (enable_and_start a) (disable_and_stop a) (logs a).
Definition set_dry_run_arg v a :=
  mkArgs (os a) (run_arg a) v (verbose a) (dependencies a) (configs a)
    (install_systemd_timer a) (Persistent a) (OnCalendar a) (Description a)
    (status a) (enable_and_start a) (disable_and_stop a) (logs a).
Definition set_verbose v a :=
  mkArgs (os a) (run_arg a) (dry_run_arg a) v (dependencies a) (configs a)
    (install_systemd_timer a) (Persistent a) (OnCalendar a) (Description a)
    (status a) (enable_and_start a) (disable_and_stop a) (logs a).
Definition set_dependencies v a :=
  mkArgs (os a) (run_arg a) (dry_run_arg a) (verbose a) v (configs a)
    (install_systemd_timer a) (Persistent a) (OnCalendar a) (Description a)
    (status a) (enable_and_start a) (disable_and_stop a) (logs a).
Definition set_configs v a :=
  mkArgs (os a) (run_arg a) (dry_run_arg a) (verbose a) (dependencies a) v
    (install_systemd_timer a) (Persistent a) (OnCalendar a) (Description a)
    (status a) (enable_and_start a) (disable_and_stop a) (logs a).
Definition set_install_systemd_timer v a :=
  mkArgs (os a) (run_arg a) (dry_run_arg a) (verbose a) (dependencies a) (configs a)
    v (Persistent a) (OnCalendar a) (Description a)
    (status a) (enable_and_start a) (disable_and_stop a) (logs a).
Definition set_Persistent v a :=
  mkArgs (os a) (run_arg a) (dry_run_arg a) (verbose a) (dependencies a) (configs a)
    (install_systemd_timer a) v (OnCalendar a) (Description a)
    (status a) (enable_and_start a) (disable_and_stop a) (logs a).
Definition set_OnCalendar v a :=
  mkArgs (os a) (run_arg a) (dry_run_arg a) (verbose a) (dependencies a) (configs a)
    (install_systemd_timer a) (Persistent a) v (Description a)
    (status a) (enable_and_start a) (disable_and_stop a) (logs a).
Definition set_Description v a :=
  mkArgs (os a) (run_arg a) (dry_run_arg a) (verbose a) (dependencies a) (configs a)
    (install_systemd_timer a) (Persistent a) (OnCalendar a) v
    (status a) (enable_and_start a) (disable_and_stop a) (logs a).
Definition set_status v a :=
  mkArgs (os a) (run_arg a) (dry_run_arg a) (verbose a) (dependencies a) (configs a)
    (install_systemd_timer a) (Persistent a) (OnCalendar a) (Description a)
    v (enable_and_start a) (disable_and_stop a) (logs a).
Definition set_enable_and_start v a :=
  mkArgs (os a) (run_arg a) (dry_run_arg a) (verbose a) (dependencies a) (configs a)
    (install_systemd_timer a) (Persistent a) (OnCalendar a) (Description a)
    (status a) v (disable_and_stop a) (logs a).
Definition set_disable_and_stop v a :=
  mkArgs (os a) (run_arg a) (dry_run_arg a) (verbose a) (dependencies a) (configs a)
    (install_systemd_timer a) (Persistent a) (OnCalendar a) (Description a)
    (status a) (enable_and_start a) v (logs a).
Definition set_logs v a :=
  mkArgs (os a) (run_arg a) (dry_run_arg a) (verbose a) (dependencies a) (configs a)
    (install_systemd_timer a) (Persistent a) (OnCalendar a) (Description a)
    (status a) (enable_and_start a) (disable_and_stop a) v.
End Namespace.

(** The parser's running state: the namespace so far, and which members of
    the one mutually exclusive group ([--run], [--dry-run]) were seen. *)
Record parser_state := mkParser {
  ns : Args;
  seen_run : bool;
  seen_dry_run : bool
}.

(** Where the parser stands after an option occurrence: it goes on, or it
    has ended the process, by [parser.error] or after printing the help. *)
Inductive parsing :=
| Parsed (p : parser_state)
| Usage_error
| Help_exit.

(** One option occurrence.  [Usage_error]: a value outside the declared
    [choices], or a member of the exclusive group after the other. *)
Definition take_action (o : cli_option) (p : parser_state) : parsing :=
  let keep f := Parsed (mkParser (f (ns p)) (seen_run p) (seen_dry_run p)) in
  let choice v cs f := if Py.str_in v cs then keep (f v) else Usage_error in
  match o with
  | Opt_help => Help_exit
  | Opt_os v => choice v ["auto"; "arch"; "ubuntu"] Namespace.set_os
  | Opt_run v =>
      if seen_dry_run p then Usage_error
      else Parsed (mkParser (Namespace.set_run_arg (Some v) (ns p)) true (seen_dry_run p))
  | Opt_dry_run v =>
      if seen_run p then Usage_error
      else Parsed (mkParser (Namespace.set_dry_run_arg (Some v) (ns p)) (seen_run p) true)
  | Opt_verbose => keep (Namespace.set_verbose true)
  | Opt_dependencies v =>
      choice v ["check"; "script"] (fun v => Namespace.set_dependencies (Some v))
  | Opt_configs v =>
      choice v ["create"; "paths"; "edit-timer"; "edit-service"; "delete"]
             (fun v => Namespace.set_configs (Some v))
  | Opt_run_arg v => keep (Namespace.set_run_arg (Some v))
  | Opt_install_systemd_timer v =>
      choice v ["daily"; "hourly"] (fun v => Namespace.set_install_systemd_timer (Some v))
  | Opt_Persistent v => keep (Namespace.set_Persistent (Some v))
  | Opt_OnCalendar v => keep (Namespace.set_OnCalendar (Some v))
  | Opt_Description v => keep (Namespace.set_Description (Some v))
  | Opt_status => keep (Namespace.set_status true)
  | Opt_enable_and_start => keep (Namespace.set_enable_and_start true)
  | Opt_disable_and_stop => keep (Namespace.set_disable_and_stop true)
  | Opt_logs => keep (Namespace.set_logs true)
  end.

(** The options are taken from left to right; the first that ends the
    process does so whatever follows. *)
Fixpoint consume (argv : list cli_option) (p : parser_state) : parsing :=
  match argv with
  | [] => Parsed p
  | o :: rest =>
      match take_action o p with
      | Parsed p' => consume rest p'
      | stop => stop
      end
  end.

(** [parser.parse_args()], when it returns. *)
Definition parse_args (argv : list cli_option) : option Args :=
  match consume argv (mkParser Namespace.defaults false false) with
  | Parsed p => Some (ns p)
  | _ => None
  end.

Section Main.

Variable exec : spawn -> gmap string node -> option (gmap string node * list string).
Variable E : env.

(** [main] after [parser.parse_args()]. *)
Definition dispatch (args : Args) : M unit :=
  used_os ← detect_os E (os args);
  when (verbose args) (print ("Detected/Selected OS: " +:+ used_os));;
  (if Py.opt_eq (dependencies args) "check" then
     check_dependencies E (verbose args);;
     sys_exit 0
   else if Py.opt_eq (dependencies args) "script" then
     suggest_install_script E (verbose args);;
     sys_exit 0
   else mret tt);;
  (if Py.truthy (configs args) then
     handle_configs exec E args;;
     sys_exit 0
   else mret tt);;
  (if Py.truthy (install_systemd_timer args) then
     handle_systemd_install args;;
     sys_exit 0
   else mret tt);;
  (if status args || enable_and_start args || disable_and_stop args || logs args then
     handle_systemd_timer_actions exec args;;
     sys_exit 0
   else mret tt);;
  if Py.truthy (run_arg args) then
    run_commands exec args (Py.fmt (run_arg args)) false
  else if Py.truthy (dry_run_arg args) then
    run_commands exec args (Py.fmt (dry_run_arg args)) true
  else
    when (verbose args) (print "No run or dry-run argument provided. Doing nothing.").

(** [main]: a command line argparse rejects ends the process with status 2
    (usage and message go to standard error, which is not modelled); [-h]
    ends it with status 0 after the help has gone to standard output. *)
Definition main (argv : list cli_option) : M unit :=
  match consume argv (mkParser Namespace.defaults false false) with
  | Parsed p => dispatch (ns p)
  | Usage_error => sys_exit 2
  | Help_exit => print (env_help E);; sys_exit 0
  end.

End Main.

(** ** Notions the statements below are phrased with *)

(** [marker] occurs in [content] when letter case is ignored: some piece of
    [content] lowers to [marker]. *)
Definition occurs_ignoring_case (marker content : string) : Prop :=
  exists pre mid post, content = pre +:+ mid +:+ post /\ Py.lower mid = marker.

(** The four scheduler intents on the command line. *)
Definition is_intent_flag (o : cli_option) : bool :=
  match o with
  | Opt_status | Opt_enable_and_start | Opt_disable_and_stop | Opt_logs => true
  | _ => false
  end.

(** The lines by which a dry run announces what it would do. *)
Definition is_intent_line (l : string) : bool :=
  Py.startswith l "[DRYRUN] Would run".

(** The extra lines of verbose mode in the runner. *)
Definition is_verbose_note (l : string) : bool :=
  Py.startswith l "Found executable script: "
  || Py.endswith l " is a file but probably not executable. Attempting to run in shell.".

(** The reading of "a dry run prints only intent lines and spawns no
    process" that takes every printed line to be an intent line. *)
Definition dry_run_prints_only_intent_lines
    (exec : spawn -> gmap string node -> option (gmap string node * list string))
    (args : Args) (target : string) (s : state) : Prop :=
  let s' := snd (run_commands exec args target true s) in
  st_spawned s' = st_spawned s /\
  exists new, st_out s' = st_out s ++ new /\
              Forall (fun l => is_intent_line l = true) new.

(** The reading of "no exception escapes" that takes it of every call of
    OS detection. *)
Definition detection_never_raises (E : env) (s : state) : Prop :=
  forall sel e s', detect_os E sel s <> (Raise e, s').

(** The reading of "this is the only input validation that aborts" that
    takes it of every invocation: whenever the process ends with a status
    other than 0, the options were parsed and [configs create] found no
    run-arg. *)
Definition create_check_is_the_only_abort
    (exec : spawn -> gmap string node -> option (gmap string node * list string))
    (E : env) : Prop :=
  forall argv s c s', main exec E argv s = (Exit c, s') -> c <> 0 ->
    exists a, parse_args argv = Some a /\ configs a = Some "create"
              /\ Py.truthy (run_arg a) = false.

(** What the argument parser refuses: a value outside the choices its
    option declares, or an occurrence of [--run] and one of [--dry-run]. *)
Definition outside_choices (o : cli_option) : bool :=
  match o with
  | Opt_os v => negb (Py.str_in v ["auto"; "arch"; "ubuntu"])
  | Opt_dependencies v => negb (Py.str_in v ["check"; "script"])
  | Opt_configs v =>
      negb (Py.str_in v ["create"; "paths"; "edit-timer"; "edit-service"; "delete"])
  | Opt_install_systemd_timer v => negb (Py.str_in v ["daily"; "hourly"])
  | _ => false
  end.

Definition is_run_option (o : cli_option) : bool :=
  match o with Opt_run _ => true | _ => false end.

Definition is_dry_run_option (o : cli_option) : bool :=
  match o with Opt_dry_run _ => true | _ => false end.

Definition is_run_arg_option (o : cli_option) : bool :=
  match o with Opt_run_arg _ => true | _ => false end.

Definition is_help_option (o : cli_option) : bool :=
  match o with Opt_help => true | _ => false end.

Definition refused_by_parser (argv : list cli_option) : bool :=
  existsb outside_choices argv
  || (existsb is_run_option argv && existsb is_dry_run_option argv).

(** What a dry run prints for one directory entry. *)
Definition dry_trace (args : Args) (fs : gmap string node) (dir item : string)
  : list string :=
  let full_path := os.path.join dir item in
  if is_executable_file fs full_path then
    (if verbose args then ["Found executable script: " +:+ full_path] else [])
    ++ ["[DRYRUN] Would run: '" +:+ full_path +:+ "'"]
  else [].

(** What the dependency advisor suggests on a host of family [user_os]: a
    confirmation when nothing is missing, otherwise a heading and one install
    command per missing program, with the package manager of the family. *)
Definition package_manager (user_os : string) : string :=
  if String.eqb user_os "arch" then "sudo pacman -S"
  else if String.eqb user_os "ubuntu" then "sudo apt-get install"
  else "<your_package_manager_install_command>".

Definition missing_commands (E : env) : list string :=
  List.filter (fun cmd => negb (Py.truthy (env_which E !! cmd)))
              ["systemctl"; "bash"; "nano"].

Definition suggestions (E : env) (verbose : bool) (user_os : string) : list string :=
  match missing_commands E with
  | [] => ["All essential commands appear to be installed."]
  | missing =>
      ["Suggested installation commands (based on detected OS):"]
      ++ map (fun cmd => "  " +:+ package_manager user_os +:+ " " +:+ cmd) missing
      ++ (if verbose then ["Suggested install script generation completed."] else [])
  end.

(** A computation that never ends the process by [sys.exit]. *)
Definition no_exit {A} (m : M A) : Prop :=
  forall s c s', m s <> (Exit c, s').

(** The dispatch priority in the words of the specification: dependencies,
    then configs, then install-systemd-timer, then any of the four intents,
    then run, then dry-run, then nothing. *)
Inductive branch :=
| Dependencies | Configs | InstallTimer | TimerActions | Run | DryRun | Nothing.

Definition selected_branch (args : Args) : branch :=
  if Py.truthy (dependencies args) then Dependencies
  else if Py.truthy (configs args) then Configs
  else if Py.truthy (install_systemd_timer args) then InstallTimer
  else if status args || enable_and_start args || disable_and_stop args || logs args
       then TimerActions
  else if Py.truthy (run_arg args) then Run
  else if Py.truthy (dry_run_arg args) then DryRun
  else Nothing.

Definition outranks_run (b : branch) : bool :=
  match b with
  | Dependencies | Configs | InstallTimer | TimerActions => true
  | _ => false
  end.

Definition run_branch
    (exec : spawn -> gmap string node -> option (gmap string node * list string))
    (E : env) (args : Args) (b : branch) : M unit :=
  match b with
  | Dependencies =>
      (if Py.opt_eq (dependencies args) "check"
       then check_dependencies E (verbose args)
       else suggest_install_script E (verbose args));;
      sys_exit 0
  | Configs => handle_configs exec E args;; sys_exit 0
  | InstallTimer => handle_systemd_install args;; sys_exit 0
  | TimerActions => handle_systemd_timer_actions exec args;; sys_exit 0
  | Run => run_commands exec args (Py.fmt (run_arg args)) false
  | DryRun => run_commands exec args (Py.fmt (dry_run_arg args)) true
  | Nothing =>
      when (verbose args) (print "No run or dry-run argument provided. Doing nothing.")
  end.

(** What argparse's [choices] guarantee about the parsed options. *)
Definition choices_ok (args : Args) : Prop :=
  (dependencies args = None \/ dependencies args = Some "check"
   \/ dependencies args = Some "script").

(** Every option with declared [choices] holds one of them (or its
    default). *)
Definition within_choices (args : Args) : Prop :=
  Py.str_in (os args) ["auto"; "arch"; "ubuntu"] = true /\
  (dependencies args = None
   \/ exists v, dependencies args = Some v
                /\ Py.str_in v ["check"; "script"] = true) /\
  (configs args = None
   \/ exists v, configs args = Some v
                /\ Py.str_in v ["create"; "paths"; "edit-timer"; "edit-service"; "delete"]
                   = true) /\
  (install_systemd_timer args = None
   \/ exists v, install_systemd_timer args = Some v
                /\ Py.str_in v ["daily"; "hourly"] = true).

(** A file system is consistent when whatever exists lies in a directory
    that exists (paths without a directory part lie in the working
    directory, the root lies nowhere). *)
Definition fs_consistent (fs : gmap string node) : Prop :=
  forall p n, fs !! p = Some n ->
    os.path.dirname p <> EmptyString -> os.path.dirname p <> p ->
    os.path.isdir fs (os.path.dirname p) = true.

(** The same as a test, for a file system that is given. *)
Definition fs_consistentb (fs : gmap string node) : bool :=
  forallb (fun '(p, _) =>
             String.eqb (os.path.dirname p) EmptyString
             || String.eqb (os.path.dirname p) p
             || os.path.isdir fs (os.path.dirname p))
          (map_to_list fs).

(** Nothing or a regular file is at [p]: what [open(p, "w")] replaces by a
    regular file with the new content.  Nothing or a directory is at [p]:
    what [os.makedirs] is content with. *)
Definition free_or_file (fs : gmap string node) (p : string) : bool :=
  match fs !! p with None | Some (File _ _) => true | _ => false end.

Definition free_or_dir (fs : gmap string node) (p : string) : bool :=
  match fs !! p with None | Some (Dir _) => true | _ => false end.

(** The directories between the home directory and the unit directory. *)
Definition config_dir (E : env) : string := os.path.join (home E) ".config".
Definition systemd_dir (E : env) : string := os.path.join (config_dir E) "systemd".

(** The file system with an empty directory at [p] if nothing was there; with
    the unit directory and the two directories above it. *)
Definition with_directory (p : string) (fs : gmap string node) : gmap string node :=
  match fs !! p with None => <[p := Dir []]> fs | Some _ => fs end.

Definition with_unit_dir (E : env) (fs : gmap string node) : gmap string node :=
  with_directory (systemd_user_dir E)
    (with_directory (systemd_dir E) (with_directory (config_dir E) fs)).

(** A file system on which nothing stands in the way of
    [create_service_and_timer]: it is consistent, the home directory is
    there, the three directories below it are there or can be made, and
    each unit path is free or holds a regular file. *)
Definition units_writable (E : env) (fs : gmap string node) : Prop :=
  fs_consistent fs /\
  os.path.isdir fs (home E) = true /\
  free_or_dir fs (config_dir E) = true /\
  free_or_dir fs (systemd_dir E) = true /\
  free_or_dir fs (systemd_user_dir E) = true /\
  free_or_file fs (service_file E) = true /\
  free_or_file fs (timer_file E) = true.

(** The file system [create_service_and_timer] leaves behind when nothing
    stands in its way: the unit directory is there, with the directories
    leading to it, and both unit files hold the joined lines, with the mode
    they had or the default one. *)
Definition mode_after_write (fs : gmap string node) (p : string) : Z :=
  match fs !! p with Some (File m _) => m | _ => os.default_mode end.

Definition fs_after_create (E : env) (args : Args) (fs : gmap string node)
  : gmap string node :=
  <[timer_file E :=
      File (mode_after_write fs (timer_file E)) (Py.join Py.LF (timer_content E args))]>
    (<[service_file E :=
         File (mode_after_write fs (service_file E))
              (Py.join Py.LF (service_content E args))]> (with_unit_dir E fs)).

(** The unit files in the words of the specification: the description is
    the one given, or "Daily User Run of" the script when none (or an empty
    one) is given; OnCalendar is the value given, or every day at 14:00 when
    none (or an empty one) is given; Persistent is false when false is asked
    for, and true otherwise: when unset, when true, and for any other value.
    Each file ends with a line feed, hence the empty last line. *)
Definition expected_description (E : env) (args : Args) : string :=
  match Description args with
  | Some (String c d) => String c d
  | _ => "Daily User Run of " +:+ env_script_path E
  end.

Definition expected_on_calendar (args : Args) : string :=
  match OnCalendar args with
  | Some (String c v) => String c v
  | _ => "*-*-* 14:00:00"
  end.

Definition expected_persistent (args : Args) : string :=
  if Py.opt_eq (Persistent args) "false" then "false" else "true".

Definition expected_service_lines (E : env) (args : Args) (target : string)
  : list string :=
  [ "[Unit]";
    "Description=" +:+ expected_description E args;
    "After=network.target";
    EmptyString;
    "[Service]";
    "Type=oneshot";
    "ExecStart=/usr/bin/env python3 " +:+ env_script_path E
      +:+ " --run " +:+ Py.DQ +:+ target +:+ Py.DQ;
    EmptyString;
    "# End of service file";
    EmptyString ].

Definition expected_timer_lines (E : env) (args : Args) : list string :=
  [ "[Unit]";
    "Description=Timer for: " +:+ expected_description E args;
    EmptyString;
    "[Timer]";
    "OnCalendar=" +:+ expected_on_calendar args;
    "Persistent=" +:+ expected_persistent args;
    EmptyString;
    "[Install]";
    "WantedBy=default.target";
    EmptyString;
    "# End of timer file";
    EmptyString ].

(** The five lines [create_service_and_timer] prints. *)
Definition create_report (E : env) : list string :=
  [ "Created service file: " +:+ service_file E;
    "Created timer file:   " +:+ timer_file E;
    "You can now enable and start the timer with:";
    "  $ systemctl --user enable daily_by_hostname.timer";
    "  $ systemctl --user start daily_by_hostname.timer" ].

(** The editor the edit actions end up with: a non-empty [$EDITOR], else
    nano if it is on the search path, else vi if it is, else none. *)
Definition chosen_editor (E : env) : option string :=
  match env_environ E !! "EDITOR" with
  | Some (String c e) => Some (String c e)
  | _ =>
      if Py.truthy (env_which E !! "nano") then Some "nano"
      else if Py.truthy (env_which E !! "vi") then Some "vi"
      else None
  end.

(** The line [check_dependencies] prints for one command. *)
Definition dependency_line (E : env) (cmd : string) : string :=
  match env_which E !! cmd with
  | Some (String c p) => "[OK]   " +:+ cmd +:+ " found at " +:+ String c p
  | _ => "[MISS] " +:+ cmd +:+ " NOT found"
  end.

(** ** Fixtures: a small machine to evaluate the tool on *)

Module Fixture.

(** A shell that knows [echo], and programs that do nothing. *)
Definition exec (p : spawn) (fs : gmap string node)
  : option (gmap string node * list string) :=
  match p with
  | Shell c =>
      if Py.startswith c "echo "
      then Some (fs, [String.substring 5 (String.length c - 5) c])
      else Some (fs, [])
  | Direct _ => Some (fs, [])
  end.

Definition E : env :=
  mkEnv (Some "/home/u") "/opt/tool.py" ∅ {[ "bash" := "/usr/bin/bash" ]} ∅
        "usage: tool.py [-h] [--os {auto,arch,ubuntu}] [-f RUN_ARG | -n DRY_RUN_ARG]".

Definition fs : gmap string node :=
  {[ "/" := Dir ["etc"; "home"];
     "/etc" := Dir ["os-release"];
     "/etc/os-release" := File 420 "NAME=Arch Linux (an Ubuntu look-alike)";
     "/home" := Dir ["u"];
     "/home/u" := Dir [];
     "jobs" := Dir ["sub"; "run.sh"; "notes.txt"];
     "jobs/notes.txt" := File 420 "remember";
     "jobs/run.sh" := File 493 "#!/bin/sh";
     "jobs/sub" := Dir [] ]}.

Definition s : state := mkState fs [] [].
Definition blank : state := mkState ∅ [] [].

Definition quiet : Args := Namespace.defaults.
Definition chatty : Args := Namespace.set_verbose true Namespace.defaults.

End Fixture.

(** A machine on which no process can be started. *)
Module Broken.
Definition exec (p : spawn) (fs : gmap string node)
  : option (gmap string node * list string) := None.
End Broken.

(** * Properties *)

(** ** Strings *)

Lemma app_cons (c : ascii) (s t : string) : String c s +:+ t = String c (s +:+ t).
Proof. reflexivity. Qed.

Lemma app_empty_l (s : string) : EmptyString +:+ s = s.
Proof. reflexivity. Qed.

Lemma app_empty_r (s : string) : s +:+ EmptyString = s.
Proof. induction s as [|c s IH]; [done|]. by rewrite app_cons, IH. Qed.

Lemma app_assoc_str (a b c : string) : (a +:+ b) +:+ c = a +:+ b +:+ c.
Proof. induction a as [|x a IH]; [done|]. by rewrite !app_cons, IH. Qed.

Lemma prefix_app (p s : string) :
  String.prefix p s = true <-> exists post, s = p +:+ post.
Proof.
  revert s. induction p as [|c p IH]; intros s.
  - split; [intros _; by exists s | intros _; by destruct s].
  - destruct s as [|d s]; simpl.
    + split; [done | intros [post H]; by rewrite app_cons in H].
    + destruct (ascii_dec c d) as [->|Hne].
      * rewrite IH. split; intros [post H]; exists post.
        -- by rewrite app_cons, H.
        -- rewrite app_cons in H. by injection H.
      * split; [done | intros [post H]; rewrite app_cons in H; congruence].
Qed.

Lemma contains_app (sub s : string) :
  Py.contains sub s = true <-> exists pre post, s = pre +:+ sub +:+ post.
Proof.
  induction s as [|c s IH].
  - change (Py.contains sub EmptyString)
      with (String.prefix sub EmptyString || false).
    rewrite orb_true_iff, prefix_app. split.
    + intros [[post H]|?]; [|done]. by exists EmptyString, post.
    + intros [[|x pre] [post H]]; [left; by exists post | by rewrite app_cons in H].
  - change (Py.contains sub (String c s))
      with (String.prefix sub (String c s) || Py.contains sub s).
    rewrite orb_true_iff, prefix_app, IH. split.
    + intros [[post H]|(pre & post & H)].
      * by exists EmptyString, post.
      * exists (String c pre), post. by rewrite app_cons, H.
    + intros [[|x pre] [post H]]; [left; by exists post|].
      right. rewrite app_cons in H. injection H as _ H. by exists pre, post.
Qed.

Lemma lower_app (a b : string) : Py.lower (a +:+ b) = Py.lower a +:+ Py.lower b.
Proof. induction a as [|c a IH]; [done|]. rewrite app_cons. simpl. by rewrite IH. Qed.

Lemma lower_split (c x y : string) :
  Py.lower c = x +:+ y ->
  exists a b, c = a +:+ b /\ Py.lower a = x /\ Py.lower b = y.
Proof.
  revert c. induction x as [|k x IH]; intros c H.
  - by exists EmptyString, c.
  - destruct c as [|d c]; [done|]. rewrite app_cons in H. simpl in H.
    injection H as Hk H. destruct (IH _ H) as (a & b & -> & Ha & Hb).
    exists (String d a), b. simpl. by rewrite Hk, Ha.
Qed.

(** [marker in content.lower()] is the search for [marker] ignoring case. *)
Lemma contains_lower (marker content : string) :
  Py.contains marker (Py.lower content) = true <-> occurs_ignoring_case marker content.
Proof.
  rewrite contains_app. split.
  - intros (pre & post & H).
    destruct (lower_split _ _ _ H) as (a & b & -> & _ & Hb).
    destruct (lower_split _ _ _ Hb) as (m & c & -> & Hm & _).
    by exists a, m, c.
  - intros (pre & mid & post & -> & <-).
    exists (Py.lower pre), (Py.lower post). by rewrite !lower_app.
Qed.

(** ** The monad *)

Lemma bind_unfold {A B} (m : M A) (f : A -> M B) (s : state) :
  (m ≫= f) s =
  match m s with
  | (Ret a, s') => f a s'
  | (Exit c, s') => (Exit c, s')
  | (Raise e, s') => (Raise e, s')
  end.
Proof. reflexivity. Qed.

Ltac mred :=
  cbv beta iota zeta delta
    [mbind M_bind mret M_ret get_fs put_fs print sys_exit raise when
     read_file decode write_file mkdir remove try_except_FileNotFoundError
     try_except subprocess_run];
  cbn [st_fs st_out st_spawned fst snd].

(** OS detection only looks: whatever it returns, the state is as before. *)
Lemma detect_os_state E (sel : string) (s : state) :
  snd (detect_os E sel s) = s.
Proof.
  unfold detect_os. case_match; [reflexivity|].
  mred. case_bool_decide; [reflexivity|].
  destruct (st_fs s !! "/etc/os-release") as [[?|? c|[c|]]|]; try reflexivity;
    destruct (Py.utf8_valid c); try reflexivity;
    destruct (Py.contains "arch linux" _); try reflexivity;
    destruct (Py.contains "ubuntu" _); reflexivity.
Qed.

(** What reading /etc/os-release comes to, case by case. *)
Lemma detect_os_auto_run E (s : state) :
  detect_os E "auto" s =
  if bool_decide ("/etc/os-release" ∈ env_unreadable E) then (Raise PermissionError, s)
  else
    let search c :=
      if Py.utf8_valid c then
        (Ret (if Py.contains "arch linux" (Py.lower c) then "arch"
              else if Py.contains "ubuntu" (Py.lower c) then "ubuntu"
              else "unknown"), s)
      else (Raise UnicodeDecodeError, s) in
    match st_fs s !! "/etc/os-release" with
    | None => (Ret "unknown", s)
    | Some (Dir _) => (Raise IsADirectoryError, s)
    | Some (File _ c) => search c
    | Some (Other (Some c)) => search c
    | Some (Other None) => (Raise OSError, s)
    end.
Proof.
  unfold detect_os. change (Py.str_in "auto" ["arch"; "ubuntu"]) with false.
  mred. case_bool_decide; [reflexivity|].
  destruct (st_fs s !! "/etc/os-release") as [[?|? c|[c|]]|]; try reflexivity;
    destruct (Py.utf8_valid c); try reflexivity;
    destruct (Py.contains "arch linux" _); try reflexivity;
    destruct (Py.contains "ubuntu" _); reflexivity.
Qed.

(** ** OS detection *)

(** C5 (amended). An explicit family ("arch", "ubuntu") is returned as it is:
    the computation is [return selected_os], the same on every state, so the
    file system is not consulted.  Under "auto" the content of
    /etc/os-release, when the file can be read and decoded, is searched
    ignoring case: the marker "arch linux" wins whenever it occurs, also when
    "ubuntu" occurs too; "ubuntu" is the answer when only that marker occurs;
    "unknown" when neither does.  A missing file gives "unknown" as a normal
    return, and [FileNotFoundError] never leaves [detect_os].  The other
    errors of reading do: a directory in the place of the file, a file the
    process may not read, content that is not UTF-8. *)
Theorem detect_os_spec E (s : state) :
  (detect_os E "arch" = mret "arch" /\ detect_os E "ubuntu" = mret "ubuntu") /\
  (forall sel, sel = "arch" \/ sel = "ubuntu" -> detect_os E sel s = (Ret sel, s)) /\
  ("/etc/os-release" ∉ env_unreadable E ->
     (forall m c, st_fs s !! "/etc/os-release" = Some (File m c) ->
        Py.utf8_valid c = true ->
        (occurs_ignoring_case "arch linux" c ->
           detect_os E "auto" s = (Ret "arch", s)) /\
        (~ occurs_ignoring_case "arch linux" c -> occurs_ignoring_case "ubuntu" c ->
           detect_os E "auto" s = (Ret "ubuntu", s)) /\
        (~ occurs_ignoring_case "arch linux" c -> ~ occurs_ignoring_case "ubuntu" c ->
           detect_os E "auto" s = (Ret "unknown", s))) /\
     (st_fs s !! "/etc/os-release" = None ->
        detect_os E "auto" s = (Ret "unknown", s)) /\
     (forall names, st_fs s !! "/etc/os-release" = Some (Dir names) ->
        detect_os E "auto" s = (Raise IsADirectoryError, s)) /\
     (forall m c, st_fs s !! "/etc/os-release" = Some (File m c) ->
        Py.utf8_valid c = false ->
        detect_os E "auto" s = (Raise UnicodeDecodeError, s))) /\
  ("/etc/os-release" ∈ env_unreadable E ->
     detect_os E "auto" s = (Raise PermissionError, s)) /\
  (forall sel s', detect_os E sel s <> (Raise FileNotFoundError, s')).
Proof.
  split; [split; reflexivity|]. split; [|split; [|split]].
  - by intros sel [-> | ->].
  - intros Hread. rewrite detect_os_auto_run.
    rewrite bool_decide_eq_false_2 by done. cbv zeta.
    split; [|split; [|split]].
    + intros m c -> ->. rewrite <- !contains_lower.
      destruct (Py.contains "arch linux" _), (Py.contains "ubuntu" _);
        repeat split; intros; congruence.
    + by intros ->.
    + by intros names ->.
    + by intros m c -> ->.
  - intros Hdenied. rewrite detect_os_auto_run.
    by rewrite bool_decide_eq_true_2.
  - intros sel s'. unfold detect_os. case_match; [done|].
    mred. case_bool_decide; [done|].
    destruct (st_fs s !! "/etc/os-release") as [[?|? c|[c|]]|]; try done;
      destruct (Py.utf8_valid c); try done;
      destruct (Py.contains "arch linux" _); try done;
      destruct (Py.contains "ubuntu" _); done.
Qed.

(** On the fixture machine /etc/os-release names both families. *)
Lemma detect_os_spec_witness :
  detect_os Fixture.E "auto" Fixture.s = (Ret "arch", Fixture.s) /\
  detect_os Fixture.E "ubuntu" Fixture.s = (Ret "ubuntu", Fixture.s) /\
  detect_os Fixture.E "auto" Fixture.blank = (Ret "unknown", Fixture.blank).
Proof.
  destruct (detect_os_spec Fixture.E Fixture.s) as (_ & Hexplicit & Hfile & _).
  destruct (detect_os_spec Fixture.E Fixture.blank) as (_ & _ & Hmissing & _).
  split; [|split].
  - eapply (proj1 (Hfile ltac:(vm_compute; set_solver))).
    + reflexivity.
    + reflexivity.
    + exists "NAME=", "Arch Linux", " (an Ubuntu look-alike)". split; reflexivity.
  - apply Hexplicit. right. reflexivity.
  - apply (proj1 (proj2 (Hmissing ltac:(vm_compute; set_solver)))). reflexivity.
Defined.

(** C5 as stated fails: where /etc/os-release holds a byte that is no UTF-8,
    reading it raises [UnicodeDecodeError], which [detect_os] does not
    catch. *)
Lemma detect_os_undecodable_counterexample :
  ~ detection_never_raises Fixture.E
      (mkState {[ "/etc/os-release" :=
                    File 420 (String (ascii_of_nat 255) "NAME=Ubuntu") ]} [] []).
Proof. intros H. eapply (H "auto"). reflexivity. Qed.

Example detect_os_on_a_directory :
  fst (detect_os Fixture.E "auto"
         (mkState {[ "/etc/os-release" := Dir [] ]} [] [])) = Raise IsADirectoryError.
Proof. reflexivity. Qed.

(** ** Where the process can end

    [sys.exit] is called in two places only: by the dispatcher, with status
    0, after a branch has run, and by [handle_configs], with status 1.  No
    other handler ends the process. *)

Create HintDb noexit.

Lemma bind_inv {A B} (m : M A) (f : A -> M B) s r s' :
  (m ≫= f) s = (r, s') ->
  (exists a s1, m s = (Ret a, s1) /\ f a s1 = (r, s')) \/
  (exists c, m s = (Exit c, s') /\ r = Exit c) \/
  (exists e, m s = (Raise e, s') /\ r = Raise e).
Proof.
  rewrite bind_unfold. destruct (m s) as [[a|c|e] s1]; intros H.
  - left. by exists a, s1.
  - right; left. exists c. by inversion H.
  - right; right. exists e. by inversion H.
Qed.

Lemma no_exit_ret {A} (a : A) : no_exit (mret a).
Proof. by intros s c s'. Qed.

Lemma no_exit_bind {A B} (m : M A) (f : A -> M B) :
  no_exit m -> (forall a, no_exit (f a)) -> no_exit (m ≫= f).
Proof.
  intros Hm Hf s c s' H.
  apply bind_inv in H as [(a & s1 & _ & H)|[(c' & H & _)|(e & _ & ?)]].
  - by apply Hf in H.
  - by apply Hm in H.
  - done.
Qed.

Lemma no_exit_print l : no_exit (print l).
Proof. by intros s c s'. Qed.

Lemma no_exit_raise {A} e : no_exit (@raise A e).
Proof. by intros s c s'. Qed.

Lemma no_exit_get_fs : no_exit get_fs.
Proof. by intros s c s'. Qed.

Lemma no_exit_put_fs fs : no_exit (put_fs fs).
Proof. by intros s c s'. Qed.

Lemma no_exit_when b m : no_exit m -> no_exit (when b m).
Proof. destruct b; [done | intros _; apply no_exit_ret]. Qed.

Lemma no_exit_if {A} (b : bool) (m1 m2 : M A) :
  no_exit m1 -> no_exit m2 -> no_exit (if b then m1 else m2).
Proof. by destruct b. Qed.

Lemma no_exit_for_each {A} (l : list A) body :
  (forall x, no_exit (body x)) -> no_exit (for_each l body).
Proof.
  intros Hb. induction l as [|x l IH]; simpl.
  - apply no_exit_ret.
  - apply no_exit_bind; auto.
Qed.

Lemma no_exit_subprocess_run exec p : no_exit (subprocess_run exec p).
Proof.
  intros s c s'. unfold subprocess_run. by destruct (exec p (st_fs s)) as [[??]|].
Qed.

Lemma no_exit_read_file u p : no_exit (read_file u p).
Proof.
  intros s c s'. unfold read_file. mred. case_bool_decide; [done|].
  destruct (st_fs s !! p) as [[?|? x|[x|]]|]; try done; by destruct (Py.utf8_valid x).
Qed.

Lemma no_exit_write_file p c : no_exit (write_file p c).
Proof.
  intros s k s'. unfold write_file. mred.
  destruct (st_fs s !! p) as [[?|??|[?|]]|]; try done.
  destruct (String.eqb _ _); [done|].
  by destruct (st_fs s !! os.path.dirname p) as [[?|??|?]|].
Qed.

Lemma no_exit_mkdir p : no_exit (mkdir p).
Proof.
  intros s k s'. unfold mkdir. mred.
  destruct (st_fs s !! p) as [?|]; [done|].
  destruct (_ || _); [done|].
  by destruct (st_fs s !! os.path.dirname p) as [[?|??|?]|].
Qed.

Lemma no_exit_try_except {A} caught (body : M A) handler :
  no_exit body -> (forall e, no_exit (handler e)) ->
  no_exit (try_except caught body handler).
Proof.
  intros Hb Hh s c s'. unfold try_except.
  destruct (body s) as [[a|k|e] s1] eqn:Hs; [done|by apply Hb in Hs|].
  destruct (caught e); [apply Hh|done].
Qed.

Lemma no_exit_makedirs_step recur name :
  (forall h, no_exit (recur h)) -> no_exit (makedirs_step recur name).
Proof.
  intros Hr. unfold makedirs_step.
  destruct (os.path.split name) as [head tail].
  destruct (if String.eqb tail EmptyString then _ else _) as [head' tail'].
  apply no_exit_bind; [by intros s c s'|]. intros fs.
  apply no_exit_bind.
  - destruct (_ && _); [|by intros s c s'].
    apply no_exit_bind; [|by intros ? s c s'].
    apply no_exit_try_except; [apply Hr | by intros ? s c s'].
  - intros [|]; [by intros s c s'|].
    apply no_exit_try_except; [apply no_exit_mkdir|].
    intros e. apply no_exit_bind; [by intros s c s'|].
    intros fs'. by destruct (negb _); intros s c s'.
Qed.

Lemma no_exit_makedirs p : no_exit (makedirs p).
Proof.
  unfold makedirs. generalize (String.length p). intros n. revert p.
  induction n as [|n IH]; intros p; cbn [makedirs_from];
    apply no_exit_makedirs_step; [by intros ? s c s' | done].
Qed.

Lemma no_exit_remove p : no_exit (remove p).
Proof.
  intros s k s'. unfold remove. mred. by destruct (st_fs s !! p) as [[?|??|?]|].
Qed.

Lemma no_exit_try {A} (body handler : M A) :
  no_exit body -> no_exit handler -> no_exit (try_except_FileNotFoundError body handler).
Proof.
  intros Hb Hh s c s'. unfold try_except_FileNotFoundError.
  destruct (body s) as [[a|k|[]] s1] eqn:Hs; try done.
  by apply Hb in Hs.
Qed.

#[local] Hint Resolve no_exit_ret no_exit_bind no_exit_print no_exit_raise
  no_exit_get_fs no_exit_put_fs no_exit_when no_exit_if no_exit_for_each
  no_exit_subprocess_run no_exit_read_file no_exit_write_file no_exit_makedirs
  no_exit_remove no_exit_try : noexit.

Ltac no_exit_tac :=
  repeat first
    [ progress intros
    | solve [auto with noexit]
    | progress cbv zeta
    | apply no_exit_bind | apply no_exit_when | apply no_exit_for_each
    | apply no_exit_try | apply no_exit_if
    | match goal with |- no_exit (match ?x with _ => _ end) => destruct x end ].

Lemma no_exit_detect_os E sel : no_exit (detect_os E sel).
Proof. unfold detect_os. no_exit_tac. Qed.

Lemma no_exit_run_commands exec a target dry : no_exit (run_commands exec a target dry).
Proof. unfold run_commands. no_exit_tac. Qed.

Lemma no_exit_check_dependencies E v : no_exit (check_dependencies E v).
Proof. unfold check_dependencies. no_exit_tac. Qed.

Lemma no_exit_suggest_install_script E v : no_exit (suggest_install_script E v).
Proof.
  unfold suggest_install_script.
  pose proof no_exit_detect_os. no_exit_tac.
Qed.

Lemma no_exit_create_service_and_timer E a : no_exit (create_service_and_timer E a).
Proof. unfold create_service_and_timer. no_exit_tac. Qed.

Lemma no_exit_edit_file_in_editor exec E p : no_exit (edit_file_in_editor exec E p).
Proof. unfold edit_file_in_editor. no_exit_tac. Qed.

Lemma no_exit_handle_systemd_install a : no_exit (handle_systemd_install a).
Proof. unfold handle_systemd_install. no_exit_tac. Qed.

Lemma no_exit_handle_systemd_timer_actions exec a :
  no_exit (handle_systemd_timer_actions exec a).
Proof. unfold handle_systemd_timer_actions. no_exit_tac. Qed.

#[local] Hint Resolve no_exit_detect_os no_exit_run_commands
  no_exit_check_dependencies no_exit_suggest_install_script
  no_exit_create_service_and_timer no_exit_edit_file_in_editor
  no_exit_handle_systemd_install no_exit_handle_systemd_timer_actions : noexit.

Lemma exit_bind_inv {A B} (m : M A) (f : A -> M B) s c s' :
  (m ≫= f) s = (Exit c, s') ->
  m s = (Exit c, s') \/ exists a s1, m s = (Ret a, s1) /\ f a s1 = (Exit c, s').
Proof.
  intros H. apply bind_inv in H as [(a & s1 & ? & ?)|[(k & ? & ?)|(e & _ & ?)]];
    [right; eauto | left; congruence | done].
Qed.

Lemma no_exit_elim {A} (m : M A) s c s' :
  no_exit m -> m s = (Exit c, s') -> False.
Proof. intros H. apply H. Qed.

Ltac exit_absurd H :=
  exfalso; revert H; apply no_exit_elim; no_exit_tac.

Lemma then_exit_ret {A} (m : M A) k s (r : unit) s' :
  (m ≫= λ _, sys_exit k) s = (Ret r, s') -> False.
Proof.
  rewrite bind_unfold. by destruct (m s) as [[?|?|?] ?].
Qed.

Lemma then_exit_other {A} (m : M A) s c s' :
  (m ≫= λ _, @sys_exit unit 0) s = (Exit c, s') -> c <> 0 -> m s = (Exit c, s').
Proof.
  rewrite bind_unfold. destruct (m s) as [[?|?|?] ?]; intros H ?; by inversion H.
Qed.

(** ** Unit files: validation *)

Lemma handle_configs_exit exec E a s c s' :
  handle_configs exec E a s = (Exit c, s') ->
  c = 1 /\ configs a = Some "create" /\ Py.truthy (run_arg a) = false /\
  s' = mkState (st_fs s)
               (st_out s ++ ["Error: --configs create requires --run-arg"])
               (st_spawned s).
Proof.
  unfold handle_configs. intros H.
  destruct (Py.opt_eq (configs a) "paths"); [exit_absurd H|].
  destruct (Py.opt_eq (configs a) "create") eqn:Hc.
  { destruct (configs a) as [v|]; [|done]. apply String.eqb_eq in Hc as ->.
    destruct (Py.truthy (run_arg a)).
    - cbn [negb] in H. exit_absurd H.
    - revert H. mred. cbn [negb]. intros H. inversion H. done. }
  destruct (Py.opt_eq (configs a) "edit-service"); [exit_absurd H|].
  destruct (Py.opt_eq (configs a) "edit-timer"); [exit_absurd H|].
  destruct (Py.opt_eq (configs a) "delete"); exit_absurd H.
Qed.

Lemma handle_configs_create_error exec E (a : Args) (s : state) :
  configs a = Some "create" -> Py.truthy (run_arg a) = false ->
  handle_configs exec E a s =
    (Exit 1, mkState (st_fs s)
                     (st_out s ++ ["Error: --configs create requires --run-arg"])
                     (st_spawned s)).
Proof. intros Hc Hr. unfold handle_configs. rewrite Hc, Hr. reflexivity. Qed.

Lemma dispatch_create_error exec E (a : Args) (s : state) (u : string) :
  configs a = Some "create" -> Py.truthy (run_arg a) = false ->
  dependencies a = None -> fst (detect_os E (os a) s) = Ret u ->
  dispatch exec E a s =
    (Exit 1, mkState (st_fs s)
                     (st_out s
                        ++ (if verbose a then ["Detected/Selected OS: " +:+ u] else [])
                        ++ ["Error: --configs create requires --run-arg"])
                     (st_spawned s)).
Proof.
  intros Hc Hr Hd Hu. unfold dispatch.
  rewrite bind_unfold.
  pose proof (detect_os_state E (os a) s) as Hs.
  destruct (detect_os E (os a) s) as [r s1]. simpl in Hu, Hs. subst r s1.
  rewrite Hd, Hc. unfold handle_configs. rewrite Hc, Hr.
  destruct (verbose a); mred; simpl; rewrite ?app_nil_r, <- ?app_assoc; reflexivity.
Qed.

(** The dispatcher ends the process with a status other than 0 in one case
    only. *)
Lemma dispatch_nonzero_exit exec E (a : Args) (s : state) (c : Z) (s' : state) :
  dispatch exec E a s = (Exit c, s') -> c <> 0 ->
  c = 1 /\ configs a = Some "create" /\ Py.truthy (run_arg a) = false /\
  st_fs s' = st_fs s.
Proof.
  intros H Hne. unfold dispatch in H.
  apply exit_bind_inv in H as [H|(u & s1 & Hu & H)]; [exit_absurd H|].
  pose proof (detect_os_state E (os a) s) as Hs. rewrite Hu in Hs. simpl in Hs. subst s1.
  apply exit_bind_inv in H as [H|([] & s2 & Hv & H)]; [exit_absurd H|].
  assert (st_fs s2 = st_fs s) as Hfs.
  { revert Hv. unfold when. destruct (verbose a); mred; intros Hv; by inversion Hv. }
  apply exit_bind_inv in H as [H|([] & s3 & Hdep & H)].
  { destruct (Py.opt_eq (dependencies a) "check").
    - apply then_exit_other in H; [exit_absurd H|done].
    - destruct (Py.opt_eq (dependencies a) "script"); [|exit_absurd H].
      apply then_exit_other in H; [exit_absurd H|done]. }
  assert (s3 = s2) as ->.
  { destruct (Py.opt_eq (dependencies a) "check");
      [by apply then_exit_ret in Hdep|].
    destruct (Py.opt_eq (dependencies a) "script");
      [by apply then_exit_ret in Hdep|]. by inversion Hdep. }
  apply exit_bind_inv in H as [H|([] & s4 & Hcfg & H)].
  { destruct (Py.truthy (configs a)); [|exit_absurd H].
    apply then_exit_other in H; [|done].
    apply handle_configs_exit in H as (-> & ? & ? & ->). done. }
  exfalso.
  apply exit_bind_inv in H as [H|([] & s5 & _ & H)].
  { destruct (Py.truthy (install_systemd_timer a)); [|exit_absurd H].
    apply then_exit_other in H; [exit_absurd H|done]. }
  apply exit_bind_inv in H as [H|([] & s6 & _ & H)].
  { destruct (_ || _); [|exit_absurd H].
    apply then_exit_other in H; [exit_absurd H|done]. }
  exit_absurd H.
Qed.

Lemma bind_ext {A B} (m : M A) (f g : A -> M B) s :
  (forall a s1, f a s1 = g a s1) -> (m ≫= f) s = (m ≫= g) s.
Proof. intros H. rewrite !bind_unfold. destruct (m s) as [[?|?|?] ?]; auto. Qed.

(** C9. An empty run-arg counts as no run-arg: the options [a] with
    [run_arg = Some ""] are handled exactly as the same options with
    [run_arg = None], by [handle_configs] and by the whole dispatcher; under
    [configs create] that is the error message, exit status 1 and an
    untouched file system. *)
Theorem empty_run_arg_is_missing exec E (a : Args) (s : state) :
  run_arg a = Some EmptyString ->
  handle_configs exec E a s = handle_configs exec E (Namespace.set_run_arg None a) s /\
  dispatch exec E a s = dispatch exec E (Namespace.set_run_arg None a) s /\
  (configs a = Some "create" ->
     handle_configs exec E a s =
       (Exit 1, mkState (st_fs s)
                        (st_out s ++ ["Error: --configs create requires --run-arg"])
                        (st_spawned s))).
Proof.
  intros Hr.
  assert (forall s, handle_configs exec E a s
          = handle_configs exec E (Namespace.set_run_arg None a) s) as Hh.
  { intros s0. unfold handle_configs.
    cbn [Namespace.set_run_arg configs run_arg]. rewrite Hr.
    cbn [Py.truthy negb]. repeat case_match; reflexivity. }
  split; [apply Hh|split].
  - unfold dispatch.
    cbn [Namespace.set_run_arg os verbose dependencies configs install_systemd_timer
         status enable_and_start disable_and_stop logs run_arg dry_run_arg].
    rewrite Hr. cbn [Py.truthy].
    apply bind_ext; intros u s1.
    apply bind_ext; intros [] s2.
    apply bind_ext; intros [] s3.
    rewrite !bind_unfold.
    destruct (Py.truthy (configs a)); [rewrite !bind_unfold, Hh|]; reflexivity.
  - intros Hc. unfold handle_configs. rewrite Hc, Hr. reflexivity.
Qed.

Lemma empty_run_arg_is_missing_witness :
  let a := Namespace.set_run_arg (Some EmptyString)
             (Namespace.set_configs (Some "create") Fixture.quiet) in
  handle_configs Fixture.exec Fixture.E a Fixture.s =
    (Exit 1, mkState Fixture.fs ["Error: --configs create requires --run-arg"] []).
Proof.
  intros a.
  apply (proj2 (proj2 (empty_run_arg_is_missing Fixture.exec Fixture.E a Fixture.s
                          eq_refl))).
  reflexivity.
Defined.

(** ** Scheduler control *)

(** C10. With one or more of the four intent flags set, the handler echoes
    and runs exactly one control command: the spawn log grows by that single
    command, chosen by the priority status, then enable_and_start, then
    disable_and_stop, then logs, whatever the lower-priority flags say.  With
    no flag set it does nothing at all. *)
Theorem timer_actions_priority exec (a : Args) (s : state) :
  (status a || enable_and_start a || disable_and_stop a || logs a = false ->
     handle_systemd_timer_actions exec a s = (Ret tt, s)) /\
  (forall cmd,
     (status a = true /\
        cmd = ["systemctl"; "--user"; "status"; "daily_by_hostname.timer"]) \/
     (status a = false /\ enable_and_start a = true /\
        cmd = ["systemctl"; "--user"; "enable"; "--now"; "daily_by_hostname.timer"]) \/
     (status a = false /\ enable_and_start a = false /\ disable_and_stop a = true /\
        cmd = ["systemctl"; "--user"; "disable"; "--now"; "daily_by_hostname.timer"]) \/
     (status a = false /\ enable_and_start a = false /\ disable_and_stop a = false /\
      logs a = true /\
        cmd = ["journalctl"; "--user-unit"; "daily_by_hostname.service";
               "--since"; "today"]) ->
     handle_systemd_timer_actions exec a s =
       (print ("Running: " +:+ Py.join " " cmd);; subprocess_run exec (Direct cmd)) s /\
     st_spawned (snd (handle_systemd_timer_actions exec a s))
       = st_spawned s ++ [Direct cmd]).
Proof.
  split.
  - intros H. unfold handle_systemd_timer_actions.
    destruct (status a), (enable_and_start a), (disable_and_stop a), (logs a);
      try discriminate H; reflexivity.
  - intros cmd H.
    assert (handle_systemd_timer_actions exec a s =
            (print ("Running: " +:+ Py.join " " cmd);;
             subprocess_run exec (Direct cmd)) s) as Heq.
    { unfold handle_systemd_timer_actions.
      destruct H as [(-> & ->)|[(-> & -> & ->)|[(-> & -> & -> & ->)|(-> & -> & -> & -> & ->)]]];
        reflexivity. }
    split; [exact Heq|]. rewrite Heq. mred.
    by destruct (exec (Direct cmd) (st_fs s)) as [[??]|].
Qed.

Lemma timer_actions_priority_witness :
  let a := Namespace.set_logs true (Namespace.set_enable_and_start true Fixture.quiet) in
  st_spawned (snd (handle_systemd_timer_actions Fixture.exec a Fixture.s))
    = [Direct ["systemctl"; "--user"; "enable"; "--now"; "daily_by_hostname.timer"]] /\
  handle_systemd_timer_actions Fixture.exec Fixture.quiet Fixture.s = (Ret tt, Fixture.s).
Proof.
  intros a. split.
  - apply (proj2 (timer_actions_priority Fixture.exec a Fixture.s)).
    right; left. repeat split; reflexivity.
  - apply (proj1 (timer_actions_priority Fixture.exec Fixture.quiet Fixture.s)).
    reflexivity.
Defined.

(** ** The command line *)

(** The parser never refuses a combination of intent flags: they are plain
    [store_true] options outside any exclusive group. *)
Lemma intent_flags_always_parse (argv : list cli_option) :
  forallb is_intent_flag argv = true -> is_Some (parse_args argv).
Proof.
  unfold parse_args. generalize (mkParser Namespace.defaults false false).
  induction argv as [|o argv IH]; intros p H; simpl in *.
  - by eexists.
  - apply andb_true_iff in H as [Ho H].
    destruct o; try discriminate Ho; simpl; apply IH, H.
Qed.

(** C1 (the code departs from it). [--status --enable_and_start] is accepted:
    the parser returns options with both intents set, and the tool goes on to
    run the status command and ends with status 0. *)
Theorem intents_accepted_together :
  parse_args [Opt_status; Opt_enable_and_start]
    = Some (Namespace.set_enable_and_start true
              (Namespace.set_status true Namespace.defaults)) /\
  main Fixture.exec Fixture.E [Opt_status; Opt_enable_and_start] Fixture.blank
    = (Exit 0,
       mkState ∅ ["Running: systemctl --user status daily_by_hostname.timer"]
               [Direct ["systemctl"; "--user"; "status"; "daily_by_hostname.timer"]]).
Proof. split; reflexivity. Qed.

(** ** Lines of text *)

Lemma lines_cons_LF (t : string) :
  Py.lines (String (ascii_of_nat 10) t) = EmptyString :: Py.lines t.
Proof. reflexivity. Qed.

Lemma lines_nonempty (s : string) : Py.lines s <> [].
Proof.
  induction s as [|c s IH]; [done|]. simpl.
  destruct (Ascii.eqb c _); [done|]. by destruct (Py.lines s).
Qed.

(** Splitting at a line feed splits the list of lines. *)
Lemma lines_app_LF (a b : string) :
  Py.lines (a +:+ Py.LF +:+ b) = Py.lines a ++ Py.lines b.
Proof.
  induction a as [|c a IH]; [done|].
  rewrite app_cons. simpl. rewrite IH.
  destruct (Ascii.eqb c _); [done|].
  pose proof (lines_nonempty a). by destruct (Py.lines a).
Qed.

Lemma lines_join (l : string) (ls : list string) :
  Py.lines (Py.join Py.LF (l :: ls)) = concat (map Py.lines (l :: ls)).
Proof.
  revert l. induction ls as [|x ls IH]; intros l.
  - simpl. by rewrite app_nil_r.
  - change (Py.join Py.LF (l :: x :: ls)) with (l +:+ Py.LF +:+ Py.join Py.LF (x :: ls)).
    by rewrite lines_app_LF, IH.
Qed.

(** A line of the list that was joined is a line of the text, when it holds
    no line feed itself. *)
Lemma line_of_join (l : string) (ls : list string) :
  In l ls -> Py.lines l = [l] -> In l (Py.lines (Py.join Py.LF ls)).
Proof.
  intros Hin Hl. destruct ls as [|x ls]; [done|].
  rewrite lines_join. apply in_concat. exists (Py.lines l). split.
  - by apply in_map.
  - rewrite Hl. by left.
Qed.

(** Text without a line feed appended to [p] extends the last line of [p]. *)
Lemma lines_app_last (p q : string) :
  Py.lines q = [q] ->
  exists init last, Py.lines (p +:+ q) = init ++ [last +:+ q].
Proof.
  intros Hq. induction p as [|c p (init & last & IH)].
  - exists [], EmptyString. by rewrite !app_empty_l, Hq.
  - rewrite app_cons. simpl. rewrite IH. destruct (Ascii.eqb c _).
    + by exists (EmptyString :: init), last.
    + destruct init as [|i init]; simpl.
      * by exists [], (String c last).
      * by exists (String c i :: init), last.
Qed.

Lemma last_line_of_join (p q : string) (ls : list string) :
  In (p +:+ q) ls -> Py.lines q = [q] ->
  exists pre, In (pre +:+ q) (Py.lines (Py.join Py.LF ls)).
Proof.
  intros Hin Hq. destruct ls as [|x ls]; [done|].
  destruct (lines_app_last p q Hq) as (init & last & Hl).
  exists last. rewrite lines_join. apply in_concat.
  exists (Py.lines (p +:+ q)). split; [by apply in_map|].
  rewrite Hl. apply in_or_app. right. by left.
Qed.

(** The unit files and their directory are three different paths. *)
Lemma join_plain (d b : string) :
  Py.startswith b Py.SEP = false ->
  os.path.join d b = d +:+ b \/ os.path.join d b = d +:+ Py.SEP +:+ b.
Proof. unfold os.path.join. intros ->. destruct (_ || _); auto. Qed.

Lemma join_inj (d b b' : string) :
  Py.startswith b Py.SEP = false -> Py.startswith b' Py.SEP = false ->
  os.path.join d b = os.path.join d b' -> b = b'.
Proof.
  unfold os.path.join. intros -> ->. destruct (_ || _); intros H.
  - by apply (inj (String.app d)) in H.
  - apply (inj (String.app d)) in H. by apply (inj (String.app Py.SEP)) in H.
Qed.

Lemma join_ne (d b : string) :
  Py.startswith b Py.SEP = false -> b <> EmptyString -> os.path.join d b <> d.
Proof.
  intros Hb Hne H. destruct (join_plain d b Hb) as [Hj|Hj]; rewrite Hj in H.
  - rewrite <- (app_empty_r d) in H at 2. by apply (inj (String.app d)) in H.
  - rewrite <- (app_empty_r d) in H at 2. by apply (inj (String.app d)) in H.
Qed.

Lemma service_ne_timer E : service_file E <> timer_file E.
Proof. intros H. by apply join_inj in H. Qed.

Lemma service_ne_dir E : service_file E <> systemd_user_dir E.
Proof. by apply join_ne. Qed.

Lemma timer_ne_dir E : timer_file E <> systemd_user_dir E.
Proof. by apply join_ne. Qed.

(** ** Paths *)

Lemma eqb_app_nonempty (a b : string) :
  b <> EmptyString -> String.eqb (a +:+ b) EmptyString = false.
Proof.
  intros Hb. apply String.eqb_neq. destruct a; [by rewrite app_empty_l|].
  by rewrite app_cons.
Qed.

Lemma endswith_sep_app (a b : string) :
  b <> EmptyString -> Py.endswith (a +:+ b) Py.SEP = Py.endswith b Py.SEP.
Proof.
  intros Hb. induction a as [|c a IH]; [by rewrite app_empty_l|].
  rewrite app_cons. cbn [Py.endswith]. rewrite IH.
  assert (String.eqb (String c (a +:+ b)) Py.SEP = false) as ->; [|done].
  apply String.eqb_neq. unfold Py.SEP. intros [= _ H].
  destruct a; [by rewrite app_empty_l in H | by rewrite app_cons in H].
Qed.

Lemma join_under (a b : string) :
  b <> EmptyString -> Py.startswith b Py.SEP = false -> Py.endswith b Py.SEP = false ->
  forall c, Py.startswith c Py.SEP = false ->
    os.path.join (a +:+ b) c = a +:+ b +:+ Py.SEP +:+ c.
Proof.
  intros Hb _ He c Hc. unfold os.path.join.
  rewrite Hc, eqb_app_nonempty, endswith_sep_app, He by done. cbn [orb].
  by rewrite app_assoc_str.
Qed.

Lemma length_app_str (a b : string) :
  String.length (a +:+ b) = (String.length a + String.length b)%nat.
Proof. induction a as [|c a IH]; [done|]. rewrite app_cons. simpl. by rewrite IH. Qed.

(** Stripping the trailing separators: nothing to strip where there is
    none, and one more makes no difference. *)
Lemma rstrip_sep_fixed (s : string) :
  Py.endswith s Py.SEP = false -> Py.rstrip_sep s = s.
Proof.
  induction s as [|c s IH]; [done|]. cbn [Py.endswith Py.rstrip_sep].
  intros [Hc Hs]%orb_false_iff. rewrite (IH Hs).
  destruct s as [|d s]; [|done].
  destruct (Ascii.eqb_spec c "/") as [->|]; done.
Qed.

Lemma rstrip_sep_app_sep (s : string) :
  Py.rstrip_sep (s +:+ Py.SEP) = Py.rstrip_sep s.
Proof.
  induction s as [|c s IH]; [done|]. rewrite app_cons. cbn [Py.rstrip_sep].
  by rewrite IH.
Qed.

Lemma rstrip_sep_endswith (s : string) :
  Py.endswith (Py.rstrip_sep s) Py.SEP = false.
Proof.
  induction s as [|c s IH]; [done|]. cbn [Py.rstrip_sep].
  destruct (Py.rstrip_sep s) as [|d r] eqn:Hr.
  - destruct (Ascii.eqb_spec c "/") as [->|Hc]; [done|].
    cbn. destruct (Ascii.eqb_spec c "/"); done.
  - change (String.eqb (String c (String d r)) Py.SEP
            || Py.endswith (String d r) Py.SEP = false).
    rewrite IH, orb_false_r. apply String.eqb_neq. by intros [= _ ?].
Qed.

(** The home directory is never the empty path, and it ends in a separator
    only when it is the root. *)
Lemma home_shape (E : env) :
  home E <> EmptyString /\ (home E = "/" \/ Py.endswith (home E) Py.SEP = false).
Proof.
  unfold home, os.path.expanduser_home.
  assert (forall u, (if String.eqb (Py.rstrip_sep u) EmptyString
                     then "/" else Py.rstrip_sep u) <> EmptyString /\
                    ((if String.eqb (Py.rstrip_sep u) EmptyString
                      then "/" else Py.rstrip_sep u) = "/" \/
                     Py.endswith (if String.eqb (Py.rstrip_sep u) EmptyString
                                  then "/" else Py.rstrip_sep u) Py.SEP = false)) as Hs.
  { intros u. destruct (String.eqb_spec (Py.rstrip_sep u) EmptyString) as [|Hne].
    - split; [done | by left].
    - split; [done | right; apply rstrip_sep_endswith]. }
  destruct (env_environ E !! "HOME"); [apply Hs|].
  destruct (env_pw_dir E); [apply Hs|]. split; [done | by right].
Qed.

(** Splitting a path at its last separator. *)
Lemma rpartition_under (a name : string) :
  os.path.rpartition name = (EmptyString, name) ->
  os.path.rpartition (a +:+ Py.SEP +:+ name) = (a +:+ Py.SEP, name).
Proof.
  intros Hn. induction a as [|c a IH].
  - rewrite app_empty_l. unfold Py.SEP. rewrite app_cons, app_empty_l.
    cbn [os.path.rpartition]. rewrite Hn. reflexivity.
  - rewrite app_cons. cbn [os.path.rpartition]. rewrite IH.
    rewrite eqb_app_nonempty by done. by rewrite app_cons.
Qed.

Lemma split_under (d name : string) :
  d <> EmptyString -> Py.endswith d Py.SEP = false ->
  os.path.rpartition name = (EmptyString, name) ->
  os.path.split (d +:+ Py.SEP +:+ name) = (d, name).
Proof.
  intros Hd He Hn. unfold os.path.split. rewrite rpartition_under by done.
  rewrite rstrip_sep_app_sep, rstrip_sep_fixed by done.
  rewrite eqb_app_nonempty by done.
  by destruct (String.eqb_spec d EmptyString).
Qed.

Lemma split_in_root (name : string) :
  os.path.rpartition name = (EmptyString, name) ->
  os.path.split ("/" +:+ name) = ("/", name).
Proof.
  intros Hn. unfold os.path.split.
  rewrite <- (app_empty_l ("/" +:+ name)).
  rewrite (rpartition_under EmptyString) by done. reflexivity.
Qed.

Lemma split_child (base d name : string) :
  d <> EmptyString -> Py.endswith d Py.SEP = false ->
  os.path.rpartition name = (EmptyString, name) ->
  os.path.split (base +:+ d +:+ Py.SEP +:+ name) = (base +:+ d, name).
Proof.
  intros Hd He Hn. rewrite <- app_assoc_str. apply split_under; [|by rewrite endswith_sep_app|done].
  intros H. by apply String.eqb_eq in H; rewrite eqb_app_nonempty in H.
Qed.

(** The five paths of the unit files and of the directories leading to them
    are the same text followed by fixed names, each the parent of the
    next. *)
Lemma unit_paths (E : env) :
  exists base,
    config_dir E = base +:+ ".config" /\
    systemd_dir E = base +:+ ".config/systemd" /\
    systemd_user_dir E = base +:+ ".config/systemd/user" /\
    service_file E = base +:+ ".config/systemd/user/daily_by_hostname.service" /\
    timer_file E = base +:+ ".config/systemd/user/daily_by_hostname.timer" /\
    base = Py.rstrip_sep (home E) +:+ "/".
Proof.
  destruct (home_shape E) as [Hne Hh].
  assert (exists base, os.path.join (home E) ".config" = base +:+ ".config"
                       /\ base = Py.rstrip_sep (home E) +:+ "/") as (base & Hj & Hb).
  { unfold os.path.join. change (Py.startswith ".config" Py.SEP) with false. cbv iota.
    destruct Hh as [-> | He].
    - exists "/". split; reflexivity.
    - rewrite He, rstrip_sep_fixed by done.
      destruct (String.eqb_spec (home E) EmptyString); [done|]. cbn [orb].
      exists (home E +:+ "/"). split; [by rewrite app_assoc_str | done]. }
  exists base.
  assert (config_dir E = base +:+ ".config") as H1 by exact Hj.
  assert (systemd_dir E = base +:+ ".config/systemd") as H2.
  { unfold systemd_dir. rewrite H1. by rewrite (join_under base ".config"). }
  assert (systemd_user_dir E = base +:+ ".config/systemd/user") as H3.
  { change (systemd_user_dir E) with (os.path.join (systemd_dir E) "user").
    rewrite H2. by rewrite (join_under base ".config/systemd"). }
  repeat split; try done.
  - unfold service_file. rewrite H3.
    by rewrite (join_under base ".config/systemd/user").
  - unfold timer_file. rewrite H3.
    by rewrite (join_under base ".config/systemd/user").
Qed.

Lemma unit_paths_split (E : env) :
  os.path.split (config_dir E) = (home E, ".config") /\
  os.path.split (systemd_dir E) = (config_dir E, "systemd") /\
  os.path.split (systemd_user_dir E) = (systemd_dir E, "user") /\
  os.path.split (service_file E) = (systemd_user_dir E, "daily_by_hostname.service") /\
  os.path.split (timer_file E) = (systemd_user_dir E, "daily_by_hostname.timer").
Proof.
  destruct (unit_paths E) as (base & H1 & H2 & H3 & H4 & H5 & Hb).
  rewrite H4, H5, H3, H2, H1.
  split; [|repeat split].
  - destruct (home_shape E) as [Hne [Hh|Hh]].
    + rewrite Hb, Hh. reflexivity.
    + rewrite Hb, rstrip_sep_fixed, app_assoc_str by done.
      by apply split_under.
  - exact (split_child base ".config" "systemd" ltac:(done) eq_refl eq_refl).
  - exact (split_child base ".config/systemd" "user" ltac:(done) eq_refl eq_refl).
  - exact (split_child base ".config/systemd/user" "daily_by_hostname.service"
             ltac:(done) eq_refl eq_refl).
  - exact (split_child base ".config/systemd/user" "daily_by_hostname.timer"
             ltac:(done) eq_refl eq_refl).
Qed.

(** ** Making directories *)

Lemma mkdir_exist_ok_run (name : string) (s : state) :
  os.path.dirname name <> EmptyString -> os.path.dirname name <> name ->
  mkdir_exist_ok name s =
  match st_fs s !! name with
  | Some (Dir _) => (Ret tt, s)
  | Some _ => (Raise FileExistsError, s)
  | None =>
      match st_fs s !! os.path.dirname name with
      | Some (Dir _) =>
          (Ret tt, mkState (<[name := Dir []]> (st_fs s)) (st_out s) (st_spawned s))
      | Some _ => (Raise NotADirectoryError, s)
      | None => (Raise FileNotFoundError, s)
      end
  end.
Proof.
  intros H1 H2. unfold mkdir_exist_ok, os.path.isdir. mred.
  destruct (st_fs s !! name) as [[?|??|?]|] eqn:Hn; mred; rewrite ?Hn; try reflexivity.
  apply String.eqb_neq in H1, H2. rewrite H1, H2. cbn [orb].
  destruct (st_fs s !! os.path.dirname name) as [[?|??|?]|]; mred; rewrite ?Hn;
    reflexivity.
Qed.

(** One level of [os.makedirs] on a path with a head and a tail: the head is
    made first when it does not exist. *)
Lemma makedirs_step_run (recur : string -> M unit) (name head tail : string)
    (s : state) :
  os.path.split name = (head, tail) ->
  tail <> EmptyString -> tail <> "." -> head <> EmptyString ->
  makedirs_step recur name s =
  if os.path.exists_ (st_fs s) head then mkdir_exist_ok name s
  else
    match recur head s with
    | (Ret _, s1) => mkdir_exist_ok name s1
    | (Exit c, s1) => (Exit c, s1)
    | (Raise e, s1) =>
        if is_FileExistsError e then mkdir_exist_ok name s1 else (Raise e, s1)
    end.
Proof.
  intros Hs Ht Hd Hh. unfold makedirs_step. rewrite Hs.
  apply String.eqb_neq in Ht, Hd, Hh. cbv beta iota. rewrite Ht. cbv beta iota.
  rewrite Ht, Hh, Hd. cbn [negb andb].
  rewrite bind_unfold. cbn [get_fs].
  destruct (os.path.exists_ (st_fs s) head); [reflexivity|]. cbn [negb].
  rewrite !bind_unfold. unfold try_except.
  destruct (recur head s) as [[[]|c|e] s1]; try reflexivity.
  by destruct (is_FileExistsError e).
Qed.

(** What consistency says of the unit paths: each lies in the one before. *)
Lemma unit_paths_consistent E (fs : gmap string node) :
  fs_consistent fs ->
  (os.path.exists_ fs (config_dir E) = true -> os.path.isdir fs (home E) = true
     \/ home E = config_dir E) /\
  (os.path.exists_ fs (systemd_dir E) = true ->
     os.path.isdir fs (config_dir E) = true) /\
  (os.path.exists_ fs (systemd_user_dir E) = true ->
     os.path.isdir fs (systemd_dir E) = true) /\
  (os.path.exists_ fs (service_file E) = true ->
     os.path.isdir fs (systemd_user_dir E) = true) /\
  (os.path.exists_ fs (timer_file E) = true ->
     os.path.isdir fs (systemd_user_dir E) = true).
Proof.
  intros Hc.
  destruct (unit_paths_split E) as (S1 & S2 & S3 & S4 & S5).
  destruct (unit_paths E) as (base & H1 & H2 & H3 & H4 & H5 & _).
  destruct (home_shape E) as [Hne _].
  assert (forall p d t, os.path.split p = (d, t) -> d <> EmptyString -> d <> p ->
            os.path.exists_ fs p = true -> os.path.isdir fs d = true) as Hup.
  { intros p d t Hs Hd Hp. unfold os.path.exists_.
    destruct (fs !! p) as [n|] eqn:Hl; [|done]. intros _.
    pose proof (Hc p n Hl) as Hcp. unfold os.path.dirname in Hcp.
    rewrite Hs in Hcp. by apply Hcp. }
  assert (forall x, base +:+ x <> EmptyString -> True) as _ by done.
  assert (forall x : string, x <> EmptyString -> base +:+ x <> EmptyString) as Hbx.
  { intros x Hx H. by apply String.eqb_eq in H; rewrite eqb_app_nonempty in H. }
  split; [|split; [|split; [|split]]].
  - intros Hex. destruct (decide (home E = config_dir E)) as [|Hd]; [by right|].
    left. by apply (Hup _ _ _ S1).
  - apply (Hup _ _ _ S2); rewrite H1; [by apply Hbx|].
    rewrite H2. intros H. by apply (inj (String.app base)) in H.
  - apply (Hup _ _ _ S3); rewrite H2; [by apply Hbx|].
    rewrite H3. intros H. by apply (inj (String.app base)) in H.
  - apply (Hup _ _ _ S4); rewrite H3; [by apply Hbx|].
    rewrite H4. intros H. by apply (inj (String.app base)) in H.
  - apply (Hup _ _ _ S5); rewrite H3; [by apply Hbx|].
    rewrite H5. intros H. by apply (inj (String.app base)) in H.
Qed.

(** The length of the path is depth enough: the head [os.makedirs] calls
    itself on is shorter than the path, so that a greater depth makes no
    difference. *)
Lemma rpartition_app (p : string) :
  p = fst (os.path.rpartition p) +:+ snd (os.path.rpartition p).
Proof.
  induction p as [|c p IH]; [done|]. cbn [os.path.rpartition].
  destruct (os.path.rpartition p) as [h t]. cbn [fst snd] in *.
  destruct (String.eqb_spec h EmptyString) as [->|Hh].
  - rewrite app_empty_l in IH. subst t.
    by destruct (Ascii.eqb c "/").
  - cbn [fst snd]. by rewrite app_cons, <- IH.
Qed.

Lemma rstrip_sep_length (s : string) :
  (String.length (Py.rstrip_sep s) <= String.length s)%nat.
Proof.
  induction s as [|c s IH]; [done|]. cbn [Py.rstrip_sep].
  destruct (Py.rstrip_sep s).
  - destruct (Ascii.eqb c "/"); simpl; lia.
  - simpl in *. lia.
Qed.

Lemma split_length (p : string) :
  (String.length (fst (os.path.split p)) + String.length (snd (os.path.split p))
   <= String.length p)%nat.
Proof.
  unfold os.path.split. rewrite (rpartition_app p) at 3.
  destruct (os.path.rpartition p) as [h t]. cbn [fst snd].
  rewrite length_app_str. pose proof (rstrip_sep_length h).
  destruct (_ && _); cbn [fst snd]; lia.
Qed.

Lemma makedirs_step_ext (r1 r2 : string -> M unit) (name : string) (s : state) :
  (forall h s0, (String.length h < String.length name)%nat -> r1 h s0 = r2 h s0) ->
  makedirs_step r1 name s = makedirs_step r2 name s.
Proof.
  intros Hr. unfold makedirs_step.
  pose proof (split_length name) as Hn.
  destruct (os.path.split name) as [head tail]. cbn [fst snd] in Hn.
  assert (forall h t, (String.length h + String.length t <= String.length name)%nat ->
            t <> EmptyString -> forall s0, r1 h s0 = r2 h s0) as Hshort.
  { intros h t Hl Ht s0. apply Hr. destruct t; [done|]. simpl in Hl. lia. }
  destruct (String.eqb_spec tail EmptyString) as [->|Ht].
  - pose proof (split_length head) as Hh.
    destruct (os.path.split head) as [head' tail']. cbn [fst snd] in Hh.
    rewrite !bind_unfold. cbn [get_fs].
    destruct (String.eqb_spec tail' EmptyString) as [->|Ht'];
      [by rewrite andb_false_r|].
    destruct (_ && _); [|reflexivity].
    rewrite !bind_unfold. unfold try_except.
    rewrite (Hshort head' tail'); [reflexivity | simpl in Hn; lia | done].
  - rewrite !bind_unfold. cbn [get_fs].
    destruct (_ && _); [|reflexivity].
    rewrite !bind_unfold. unfold try_except.
    by rewrite (Hshort head tail).
Qed.

Lemma makedirs_from_enough (n m : nat) (name : string) (s : state) :
  (String.length name <= n)%nat -> (String.length name <= m)%nat ->
  makedirs_from n name s = makedirs_from m name s.
Proof.
  revert m name s. induction n as [|n IH]; intros m name s Hn Hm.
  - destruct m; cbn [makedirs_from]; apply makedirs_step_ext; intros; lia.
  - destruct m as [|m]; cbn [makedirs_from]; apply makedirs_step_ext; intros h s0 Hh;
      [lia|]. apply IH; lia.
Qed.

Lemma unit_dir_depth (E : env) :
  exists k, String.length (systemd_user_dir E) = S (S (S k)).
Proof.
  destruct (unit_paths E) as (base & _ & _ & -> & _).
  rewrite length_app_str. exists (String.length base + 17)%nat.
  change (String.length ".config/systemd/user") with 20%nat. lia.
Qed.

(** The three levels of [os.makedirs] on the unit directory, from the home
    directory down. *)
Lemma makedirs_unit_dir_levels E (s : state) :
  exists k,
    makedirs (systemd_user_dir E) s =
    (if os.path.exists_ (st_fs s) (systemd_dir E)
     then mkdir_exist_ok (systemd_user_dir E) s
     else
       match
         (if os.path.exists_ (st_fs s) (config_dir E)
          then mkdir_exist_ok (systemd_dir E) s
          else
            match makedirs_from (S k) (config_dir E) s with
            | (Ret _, s1) => mkdir_exist_ok (systemd_dir E) s1
            | (Exit c, s1) => (Exit c, s1)
            | (Raise e, s1) =>
                if is_FileExistsError e then mkdir_exist_ok (systemd_dir E) s1
                else (Raise e, s1)
            end)
       with
       | (Ret _, s1) => mkdir_exist_ok (systemd_user_dir E) s1
       | (Exit c, s1) => (Exit c, s1)
       | (Raise e, s1) =>
           if is_FileExistsError e then mkdir_exist_ok (systemd_user_dir E) s1
           else (Raise e, s1)
       end) /\
    forall s0,
      makedirs_from (S k) (config_dir E) s0 =
      if os.path.exists_ (st_fs s0) (home E) then mkdir_exist_ok (config_dir E) s0
      else
        match makedirs_from k (home E) s0 with
        | (Ret _, s1) => mkdir_exist_ok (config_dir E) s1
        | (Exit c, s1) => (Exit c, s1)
        | (Raise e, s1) =>
            if is_FileExistsError e then mkdir_exist_ok (config_dir E) s1
            else (Raise e, s1)
        end.
Proof.
  destruct (unit_dir_depth E) as [k Hk]. exists k.
  destruct (unit_paths_split E) as (S1 & S2 & S3 & _).
  destruct (unit_paths E) as (base & H1 & H2 & H3 & _).
  destruct (home_shape E) as [Hne _].
  assert (forall x : string, x <> EmptyString -> base +:+ x <> EmptyString) as Hbx.
  { intros x Hx H. by apply String.eqb_eq in H; rewrite eqb_app_nonempty in H. }
  split.
  - unfold makedirs. rewrite Hk. cbn [makedirs_from].
    rewrite (makedirs_step_run _ _ _ _ s S3); [|done|done|rewrite H2; by apply Hbx].
    rewrite (makedirs_step_run _ _ _ _ s S2); [|done|done|rewrite H1; by apply Hbx].
    reflexivity.
  - intros s0. cbn [makedirs_from].
    by rewrite (makedirs_step_run _ _ _ _ s0 S1).
Qed.

Lemma unit_paths_dirname (E : env) :
  (os.path.dirname (config_dir E) = home E /\ home E <> EmptyString
   /\ home E <> config_dir E) /\
  (os.path.dirname (systemd_dir E) = config_dir E /\ config_dir E <> EmptyString
   /\ config_dir E <> systemd_dir E) /\
  (os.path.dirname (systemd_user_dir E) = systemd_dir E /\ systemd_dir E <> EmptyString
   /\ systemd_dir E <> systemd_user_dir E) /\
  (os.path.dirname (service_file E) = systemd_user_dir E
   /\ systemd_user_dir E <> EmptyString) /\
  (os.path.dirname (timer_file E) = systemd_user_dir E).
Proof.
  destruct (unit_paths_split E) as (S1 & S2 & S3 & S4 & S5).
  destruct (unit_paths E) as (base & H1 & H2 & H3 & H4 & H5 & Hb).
  destruct (home_shape E) as [Hne Hh].
  assert (forall x : string, x <> EmptyString -> base +:+ x <> EmptyString) as Hbx.
  { intros x Hx H. by apply String.eqb_eq in H; rewrite eqb_app_nonempty in H. }
  unfold os.path.dirname. rewrite S1, S2, S3, S4, S5. cbn [fst].
  repeat split; try done.
  - rewrite H1, Hb. destruct Hh as [-> | Hh]; [done|].
    rewrite rstrip_sep_fixed by done. rewrite <- (app_empty_r (home E)) at 1.
    rewrite app_assoc_str. intros H. by apply (inj (String.app (home E))) in H.
  - rewrite H1. by apply Hbx.
  - rewrite H1, H2. intros H. by apply (inj (String.app base)) in H.
  - rewrite H2. by apply Hbx.
  - rewrite H2, H3. intros H. by apply (inj (String.app base)) in H.
  - rewrite H3. by apply Hbx.
Qed.

Ltac unit_path_ne :=
  let H := fresh in
  intros H; apply (inj (String.app _)) in H; discriminate H.

(** [os.makedirs] on the unit directory when nothing stands in its way:
    the directories that are missing on the way from the home directory are
    made, and nothing else changes. *)
Lemma makedirs_unit_dir E (s : state) :
  fs_consistent (st_fs s) ->
  os.path.isdir (st_fs s) (home E) = true ->
  free_or_dir (st_fs s) (config_dir E) = true ->
  free_or_dir (st_fs s) (systemd_dir E) = true ->
  free_or_dir (st_fs s) (systemd_user_dir E) = true ->
  makedirs (systemd_user_dir E) s
  = (Ret tt, mkState (with_unit_dir E (st_fs s)) (st_out s) (st_spawned s)).
Proof.
  intros Hc Hhome F1 F2 F3.
  destruct (makedirs_unit_dir_levels E s) as (k & -> & Hlevel).
  destruct (unit_paths_consistent E (st_fs s) Hc) as (_ & C2 & C3 & _).
  destruct (unit_paths_dirname E) as ((P1 & P1a & P1b) & (P2 & P2a & P2b)
                                      & (P3 & P3a & P3b) & _).
  destruct (unit_paths E) as (base & H1 & H2 & H3 & _).
  rewrite (Hlevel s).
  assert (os.path.exists_ (st_fs s) (home E) = true) as ->.
  { revert Hhome. unfold os.path.isdir, os.path.exists_.
    by destruct (st_fs s !! home E) as [[?|??|?]|]. }
  rewrite !mkdir_exist_ok_run by (rewrite ?P1, ?P2, ?P3; done).
  rewrite P1, P2, P3.
  unfold with_unit_dir, with_directory.
  revert Hhome F1 F2 F3 C2 C3.
  unfold os.path.isdir, os.path.exists_, free_or_dir.
  destruct (st_fs s !! home E) as [[?|??|?]|] eqn:L0; try done. intros _.
  destruct (st_fs s !! config_dir E) as [[?|??|?]|] eqn:L1; try done; intros _;
    destruct (st_fs s !! systemd_dir E) as [[?|??|?]|] eqn:L2; try done; intros _;
    destruct (st_fs s !! systemd_user_dir E) as [[?|??|?]|] eqn:L3; try done;
    intros _ C2 C3; try (by specialize (C2 eq_refl)); try (by specialize (C3 eq_refl));
    cbn [st_fs st_out st_spawned is_FileExistsError];
    repeat (first [ rewrite mkdir_exist_ok_run by (rewrite ?P1, ?P2, ?P3; done)
                  | rewrite P1 | rewrite P2 | rewrite P3
                  | rewrite lookup_insert_eq
                  | rewrite lookup_insert_ne by (rewrite ?H1, ?H2, ?H3; unit_path_ne)
                  | rewrite L0 | rewrite L1 | rewrite L2 | rewrite L3
                  | progress cbn [st_fs st_out st_spawned] ]);
    try reflexivity.
  by destruct s.
Qed.

(** A unit directory that is there is left alone. *)
Lemma makedirs_unit_dir_present E (s : state) :
  os.path.exists_ (st_fs s) (systemd_dir E) = true ->
  os.path.isdir (st_fs s) (systemd_user_dir E) = true ->
  makedirs (systemd_user_dir E) s = (Ret tt, s).
Proof.
  intros H2 H3. destruct (makedirs_unit_dir_levels E s) as (k & -> & _).
  destruct (unit_paths_dirname E) as (_ & _ & (P3 & P3a & P3b) & _).
  rewrite H2, mkdir_exist_ok_run by (rewrite ?P3; done).
  revert H3. unfold os.path.isdir.
  by destruct (st_fs s !! systemd_user_dir E) as [[?|??|?]|].
Qed.

(** Something that is no directory in the place of the unit directory:
    [FileExistsError], and nothing is changed. *)
Lemma makedirs_unit_dir_taken E (s : state) :
  fs_consistent (st_fs s) ->
  os.path.exists_ (st_fs s) (systemd_user_dir E) = true ->
  os.path.isdir (st_fs s) (systemd_user_dir E) = false ->
  makedirs (systemd_user_dir E) s = (Raise FileExistsError, s).
Proof.
  intros Hc Hex Hnd. destruct (makedirs_unit_dir_levels E s) as (k & -> & _).
  destruct (unit_paths_consistent E (st_fs s) Hc) as (_ & _ & C3 & _).
  destruct (unit_paths_dirname E) as (_ & _ & (P3 & P3a & P3b) & _).
  specialize (C3 Hex).
  assert (os.path.exists_ (st_fs s) (systemd_dir E) = true) as ->.
  { revert C3. unfold os.path.isdir, os.path.exists_.
    by destruct (st_fs s !! systemd_dir E) as [[?|??|?]|]. }
  rewrite mkdir_exist_ok_run by (rewrite ?P3; done).
  revert Hex Hnd. unfold os.path.isdir, os.path.exists_.
  by destruct (st_fs s !! systemd_user_dir E) as [[?|??|?]|].
Qed.

(** Something that is no directory in the place of [~/.config] or of
    [~/.config/systemd]: [NotADirectoryError], and nothing is changed. *)
Lemma makedirs_unit_dir_beneath E (s : state) (d : string) :
  fs_consistent (st_fs s) ->
  d = config_dir E \/ d = systemd_dir E ->
  os.path.exists_ (st_fs s) d = true -> os.path.isdir (st_fs s) d = false ->
  makedirs (systemd_user_dir E) s = (Raise NotADirectoryError, s).
Proof.
  intros Hc Hd Hex Hnd. destruct (makedirs_unit_dir_levels E s) as (k & -> & _).
  destruct (unit_paths_consistent E (st_fs s) Hc) as (_ & C2 & C3 & _).
  destruct (unit_paths_dirname E) as (_ & (P2 & P2a & P2b) & (P3 & P3a & P3b) & _).
  assert (forall p, os.path.isdir (st_fs s) p = true ->
                    os.path.exists_ (st_fs s) p = true) as Hde.
  { intros p. unfold os.path.isdir, os.path.exists_.
    by destruct (st_fs s !! p) as [[?|??|?]|]. }
  destruct Hd as [-> | ->].
  - assert (os.path.exists_ (st_fs s) (systemd_dir E) = false) as E2.
    { apply not_true_is_false. intros H. apply C2 in H. congruence. }
    assert (os.path.exists_ (st_fs s) (systemd_user_dir E) = false) as E3.
    { apply not_true_is_false. intros H. apply C3, Hde in H. congruence. }
    rewrite E2, Hex.
    rewrite (mkdir_exist_ok_run (systemd_dir E)) by (rewrite ?P2; done).
    rewrite P2. revert E2 Hex Hnd. unfold os.path.isdir, os.path.exists_.
    destruct (st_fs s !! systemd_dir E); [done|].
    by destruct (st_fs s !! config_dir E) as [[?|??|?]|].
  - assert (os.path.exists_ (st_fs s) (systemd_user_dir E) = false) as E3.
    { apply not_true_is_false. intros H. apply C3 in H. congruence. }
    rewrite Hex.
    rewrite (mkdir_exist_ok_run (systemd_user_dir E)) by (rewrite ?P3; done).
    rewrite P3. revert E3 Hex Hnd. unfold os.path.isdir, os.path.exists_.
    destruct (st_fs s !! systemd_user_dir E); [done|].
    by destruct (st_fs s !! systemd_dir E) as [[?|??|?]|].
Qed.

Lemma with_unit_dir_lookup E (fs : gmap string node) (p : string) :
  p <> config_dir E -> p <> systemd_dir E -> p <> systemd_user_dir E ->
  with_unit_dir E fs !! p = fs !! p.
Proof.
  intros N1 N2 N3. unfold with_unit_dir, with_directory.
  repeat (case_match; rewrite ?lookup_insert_ne by done); reflexivity.
Qed.

Lemma with_unit_dir_at E (fs : gmap string node) :
  with_unit_dir E fs !! systemd_user_dir E =
  match fs !! systemd_user_dir E with None => Some (Dir []) | Some n => Some n end.
Proof.
  destruct (unit_paths E) as (base & H1 & H2 & H3 & _).
  assert (with_directory (systemd_dir E) (with_directory (config_dir E) fs)
            !! systemd_user_dir E = fs !! systemd_user_dir E) as Hup.
  { unfold with_directory.
    repeat (case_match;
            rewrite ?lookup_insert_ne by (rewrite ?H1, ?H2, ?H3; unit_path_ne));
      reflexivity. }
  unfold with_unit_dir. unfold with_directory at 1. rewrite Hup.
  destruct (fs !! systemd_user_dir E) eqn:L3; [by rewrite Hup|].
  by rewrite lookup_insert_eq.
Qed.

Lemma with_unit_dir_isdir E (fs : gmap string node) :
  free_or_dir fs (systemd_user_dir E) = true ->
  os.path.isdir (with_unit_dir E fs) (systemd_user_dir E) = true.
Proof.
  unfold free_or_dir, os.path.isdir. rewrite with_unit_dir_at.
  by destruct (fs !! systemd_user_dir E) as [[?|??|?]|].
Qed.

(** ** Unit files: writing *)

Lemma create_after_makedirs E (a : Args) (s s1 : state) :
  makedirs (systemd_user_dir E) s = (Ret tt, s1) ->
  os.path.isdir (st_fs s1) (systemd_user_dir E) = true ->
  free_or_file (st_fs s1) (service_file E) = true ->
  free_or_file (st_fs s1) (timer_file E) = true ->
  create_service_and_timer E a s =
    (Ret tt,
     mkState
       (<[timer_file E :=
            File (mode_after_write (st_fs s1) (timer_file E))
                 (Py.join Py.LF (timer_content E a))]>
          (<[service_file E :=
               File (mode_after_write (st_fs s1) (service_file E))
                    (Py.join Py.LF (service_content E a))]> (st_fs s1)))
       (st_out s1 ++ create_report E) (st_spawned s1)).
Proof.
  intros Hm Hd Hs Ht.
  pose proof (service_ne_timer E) as Hst.
  pose proof (service_ne_dir E) as Hsd.
  pose proof (timer_ne_dir E) as Htd.
  destruct (unit_paths_dirname E) as (_ & _ & _ & (P4 & P4a) & P5).
  apply String.eqb_neq in P4a.
  unfold create_service_and_timer, create_report, mode_after_write.
  rewrite bind_unfold, Hm.
  revert Hd Hs Ht. unfold os.path.isdir, free_or_file.
  destruct (st_fs s1 !! systemd_user_dir E) as [[?|??|?]|] eqn:Ldir; try done.
  destruct (st_fs s1 !! service_file E) as [[?|??|?]|] eqn:Lsvc; try done;
    destruct (st_fs s1 !! timer_file E) as [[?|??|?]|] eqn:Ltim; try done;
    intros _ _ _;
    repeat (first [ progress mred
                  | rewrite Lsvc | rewrite Ltim | rewrite Ldir
                  | rewrite P4 | rewrite P5 | rewrite P4a
                  | rewrite lookup_insert_ne by done ]);
    rewrite <- !app_assoc; reflexivity.
Qed.

(** What [create_service_and_timer] does when nothing stands in its way. *)
Lemma create_service_and_timer_run E (a : Args) (s : state) :
  units_writable E (st_fs s) ->
  create_service_and_timer E a s
  = (Ret tt, mkState (fs_after_create E a (st_fs s))
                     (st_out s ++ create_report E) (st_spawned s)).
Proof.
  intros (Hc & Hh & F1 & F2 & F3 & Fs & Ft).
  pose proof (service_ne_dir E) as Hsd.
  pose proof (timer_ne_dir E) as Htd.
  destruct (unit_paths E) as (base & H1 & H2 & H3 & H4 & H5 & _).
  assert (forall m, with_unit_dir E m !! service_file E = m !! service_file E) as Ls.
  { intros m. apply with_unit_dir_lookup; rewrite ?H1, ?H2, ?H3, H4; unit_path_ne. }
  assert (forall m, with_unit_dir E m !! timer_file E = m !! timer_file E) as Lt.
  { intros m. apply with_unit_dir_lookup; rewrite ?H1, ?H2, ?H3, H5; unit_path_ne. }
  rewrite (create_after_makedirs E a s _ (makedirs_unit_dir E s Hc Hh F1 F2 F3));
    cbn [st_fs st_out st_spawned].
  - unfold fs_after_create, mode_after_write. by rewrite Ls, Lt.
  - by apply with_unit_dir_isdir.
  - unfold free_or_file in *. by rewrite Ls.
  - unfold free_or_file in *. by rewrite Lt.
Qed.

Lemma fs_after_create_lookup E (a : Args) (fs : gmap string node) :
  fs_after_create E a fs !! service_file E
    = Some (File (mode_after_write fs (service_file E))
                 (Py.join Py.LF (service_content E a))) /\
  fs_after_create E a fs !! timer_file E
    = Some (File (mode_after_write fs (timer_file E))
                 (Py.join Py.LF (timer_content E a))) /\
  (forall p, p <> service_file E -> p <> timer_file E ->
     fs_after_create E a fs !! p = with_unit_dir E fs !! p).
Proof.
  pose proof (service_ne_timer E) as Hst.
  unfold fs_after_create. repeat split.
  - by rewrite lookup_insert_ne, lookup_insert_eq.
  - by rewrite lookup_insert_eq.
  - intros p H1 H2. by rewrite !lookup_insert_ne.
Qed.

Lemma lines_app_single (p q : string) :
  Py.lines p = [p] -> Py.lines q = [q] -> Py.lines (p +:+ q) = [p +:+ q].
Proof.
  intros Hp Hq. induction p as [|c p IH]; [done|].
  rewrite app_cons. simpl in *. destruct (Ascii.eqb c _); [done|].
  pose proof (lines_nonempty p).
  destruct (Py.lines p) as [|l [|??]]; [done| |done].
  injection Hp as ->. by rewrite IH.
Qed.

Lemma handle_configs_create exec E (a : Args) (s : state) :
  configs a = Some "create" -> Py.truthy (run_arg a) = true ->
  handle_configs exec E a s = create_service_and_timer E a s.
Proof. intros Hc Hr. unfold handle_configs. rewrite Hc, Hr. reflexivity. Qed.

Lemma fs_consistentb_spec (fs : gmap string node) :
  fs_consistentb fs = true -> fs_consistent fs.
Proof.
  unfold fs_consistentb. rewrite forallb_forall. intros H p n Hl Hd Hp.
  specialize (H (p, n)). cbv beta iota in H.
  apply String.eqb_neq in Hd, Hp. rewrite Hd, Hp in H. apply H.
  apply list_elem_of_In. by apply elem_of_map_to_list.
Qed.

(** ** Unit files: content *)

Lemma join_last_LF (l : list string) (x : string) :
  Py.join Py.LF (l ++ [x +:+ Py.LF]) = Py.join Py.LF (l ++ [x; EmptyString]).
Proof.
  induction l as [|y l IH]; [done|].
  destruct l as [|z l]; [by cbn; rewrite ?app_assoc_str|].
  cbn [app] in *. cbn [Py.join String.concat] in *. by rewrite IH.
Qed.

(** The texts written are the expected ones. *)
Lemma service_content_expected E (a : Args) (target : string) :
  run_arg a = Some target ->
  Py.join Py.LF (service_content E a) = Py.join Py.LF (expected_service_lines E a target).
Proof.
  intros Hr. unfold service_content, expected_service_lines, expected_description.
  rewrite Hr. cbn [Py.fmt].
  assert ((if Py.truthy (Description a) then Py.fmt (Description a)
           else "Daily User Run of " +:+ env_script_path E)
          = match Description a with
            | Some (String c d) => String c d
            | _ => "Daily User Run of " +:+ env_script_path E
            end) as -> by by destruct (Description a) as [[|??]|].
  match goal with
  | |- Py.join Py.LF [?a; ?b; ?c; ?d; ?e; ?f; ?g; ?h; ?i +:+ Py.LF] = _ =>
      exact (join_last_LF [a; b; c; d; e; f; g; h] i)
  end.
Qed.

Lemma timer_content_expected E (a : Args) :
  Py.join Py.LF (timer_content E a) = Py.join Py.LF (expected_timer_lines E a).
Proof.
  unfold timer_content, expected_timer_lines, expected_description,
    expected_on_calendar, expected_persistent.
  assert ((if Py.truthy (Description a) then Py.fmt (Description a)
           else "Daily User Run of " +:+ env_script_path E)
          = match Description a with
            | Some (String c d) => String c d
            | _ => "Daily User Run of " +:+ env_script_path E
            end) as -> by by destruct (Description a) as [[|??]|].
  assert ((if Py.truthy (OnCalendar a) then Py.fmt (OnCalendar a)
           else "*-*-* 14:00:00")
          = match OnCalendar a with
            | Some (String c v) => String c v
            | _ => "*-*-* 14:00:00"
            end) as -> by by destruct (OnCalendar a) as [[|??]|].
  assert ((let persistent_value :=
             match Persistent a with None => "true" | Some v => v end in
           if negb (Py.str_in persistent_value ["true"; "false"]) then "true"
           else persistent_value)
          = if Py.opt_eq (Persistent a) "false" then "false" else "true") as Hp.
  { destruct (Persistent a) as [v|]; [|reflexivity]. cbn [Py.opt_eq Py.str_in existsb].
    destruct (String.eqb_spec v "false") as [->|Hf]; [reflexivity|].
    destruct (String.eqb_spec v "true") as [->|Ht]; reflexivity. }
  cbv zeta in Hp. cbv zeta. rewrite Hp.
  match goal with
  | |- Py.join Py.LF [?a; ?b; ?c; ?d; ?e; ?f; ?g; ?h; ?i; ?j; ?k +:+ Py.LF] = _ =>
      exact (join_last_LF [a; b; c; d; e; f; g; h; i; j] k)
  end.
Qed.

Lemma lines_expected_timer E (a : Args) :
  Py.lines (expected_description E a) = [expected_description E a] ->
  Py.lines (expected_on_calendar a) = [expected_on_calendar a] ->
  Py.lines (Py.join Py.LF (expected_timer_lines E a)) = expected_timer_lines E a.
Proof.
  intros Hd Ho. unfold expected_timer_lines. rewrite lines_join.
  cbn [map concat].
  rewrite (lines_app_single "Description=Timer for: " _ eq_refl Hd).
  rewrite (lines_app_single "OnCalendar=" _ eq_refl Ho).
  assert (Py.lines ("Persistent=" +:+ expected_persistent a)
          = ["Persistent=" +:+ expected_persistent a]) as ->.
  { unfold expected_persistent. by destruct (Py.opt_eq _ _). }
  reflexivity.
Qed.

Lemma lines_expected_service E (a : Args) (target : string) :
  Py.lines (expected_description E a) = [expected_description E a] ->
  Py.lines (env_script_path E) = [env_script_path E] ->
  Py.lines target = [target] ->
  Py.lines (Py.join Py.LF (expected_service_lines E a target))
  = expected_service_lines E a target.
Proof.
  intros Hd Hs Ht. unfold expected_service_lines. rewrite lines_join.
  cbn [map concat].
  rewrite (lines_app_single "Description=" _ eq_refl Hd).
  assert (Py.lines ("ExecStart=/usr/bin/env python3 " +:+ env_script_path E
                      +:+ " --run " +:+ Py.DQ +:+ target +:+ Py.DQ)
          = ["ExecStart=/usr/bin/env python3 " +:+ env_script_path E
               +:+ " --run " +:+ Py.DQ +:+ target +:+ Py.DQ]) as ->.
  { repeat (apply lines_app_single; [done|]). reflexivity. }
  reflexivity.
Qed.

(** C4. [configs create] with a run-arg, on a file system where nothing stands
    in the way, leaves both unit files behind, and what they hold is the
    expected text, line for line and whatever the options: the description
    given or the default one, the OnCalendar given or [*-*-* 14:00:00] when
    unset, Persistent false when false is asked for and Persistent true when
    it is unset, true, or anything else.  So with run-arg /tmp/x the service
    file has a line ending in [--run "/tmp/x"] (quotes included), which is the
    whole ExecStart line when the script path holds no line feed; with
    OnCalendar 09:00:00 and Persistent false the timer file has the lines
    [OnCalendar=09:00:00] and [Persistent=false]; an unset Persistent, and
    any value of it other than the strings true and false, give the line
    [Persistent=true]; an unset OnCalendar gives the line
    [OnCalendar=*-*-* 14:00:00]. *)
Theorem unit_files_content exec E (a : Args) (s : state) :
  configs a = Some "create" ->
  Py.truthy (run_arg a) = true ->
  units_writable E (st_fs s) ->
  exists s' ms mt svc tmr target,
    handle_configs exec E a s = (Ret tt, s') /\
    st_fs s' !! service_file E = Some (File ms svc) /\
    st_fs s' !! timer_file E = Some (File mt tmr) /\
    run_arg a = Some target /\
    svc = Py.join Py.LF (expected_service_lines E a target) /\
    tmr = Py.join Py.LF (expected_timer_lines E a) /\
    (Py.lines (expected_description E a) = [expected_description E a] ->
     Py.lines (env_script_path E) = [env_script_path E] ->
     Py.lines target = [target] ->
       Py.lines svc = expected_service_lines E a target) /\
    (Py.lines (expected_description E a) = [expected_description E a] ->
     Py.lines (expected_on_calendar a) = [expected_on_calendar a] ->
       Py.lines tmr = expected_timer_lines E a) /\
    (run_arg a = Some "/tmp/x" ->
       (exists pre, In (pre +:+ " --run " +:+ Py.DQ +:+ "/tmp/x" +:+ Py.DQ)
                       (Py.lines svc)) /\
       (Py.lines (env_script_path E) = [env_script_path E] ->
          In ("ExecStart=/usr/bin/env python3 " +:+ env_script_path E
                +:+ " --run " +:+ Py.DQ +:+ "/tmp/x" +:+ Py.DQ)
             (Py.lines svc))) /\
    (OnCalendar a = Some "09:00:00" -> In "OnCalendar=09:00:00" (Py.lines tmr)) /\
    (Persistent a = Some "false" -> In "Persistent=false" (Py.lines tmr)) /\
    (Persistent a = None -> In "Persistent=true" (Py.lines tmr)) /\
    (forall v, Persistent a = Some v -> v <> "true" -> v <> "false" ->
       In "Persistent=true" (Py.lines tmr)) /\
    (OnCalendar a = None -> In "OnCalendar=*-*-* 14:00:00" (Py.lines tmr)).
Proof.
  intros Hc Hr Hw.
  destruct (fs_after_create_lookup E a (st_fs s)) as (Hsvc & Htmr & _).
  destruct (run_arg a) as [target|] eqn:Hrun; [|done].
  exists (mkState (fs_after_create E a (st_fs s))
                  (st_out s ++ create_report E) (st_spawned s)).
  eexists _, _, _, _, target.
  split; [|split; [exact Hsvc|split; [exact Htmr|]]].
  { rewrite (handle_configs_create exec E a s Hc) by by rewrite Hrun.
    by apply create_service_and_timer_run. }
  split; [reflexivity|].
  split; [by apply service_content_expected|].
  split; [by apply timer_content_expected|].
  split; [|split].
  { intros. rewrite (service_content_expected E a target) by done.
    by apply lines_expected_service. }
  { intros. rewrite timer_content_expected. by apply lines_expected_timer. }
  repeat split.
  - apply (last_line_of_join
             ("ExecStart=/usr/bin/env python3 " +:+ env_script_path E)
             (" --run " +:+ Py.DQ +:+ "/tmp/x" +:+ Py.DQ)); [|reflexivity].
    unfold service_content. rewrite Hrun, H. cbn [Py.fmt]. rewrite app_assoc_str.
    do 6 right. left. reflexivity.
  - intros Hp. apply line_of_join.
    + unfold service_content. rewrite Hrun, H. cbn [Py.fmt].
      do 6 right. left. reflexivity.
    + apply (lines_app_single "ExecStart=/usr/bin/env python3 "); [reflexivity|].
      apply lines_app_single; [exact Hp | reflexivity].
  - intros H. apply line_of_join; [|reflexivity].
    unfold timer_content. rewrite H. do 4 right. left. reflexivity.
  - intros H. apply line_of_join; [|reflexivity].
    unfold timer_content. rewrite H. do 5 right. left. reflexivity.
  - intros H. apply line_of_join; [|reflexivity].
    unfold timer_content. rewrite H. do 5 right. left. reflexivity.
  - intros v H Hv1 Hv2. apply line_of_join; [|reflexivity].
    unfold timer_content. rewrite H.
    assert (Py.str_in v ["true"; "false"] = false) as ->.
    { unfold Py.str_in. simpl.
      apply String.eqb_neq in Hv1, Hv2. by rewrite Hv1, Hv2. }
    do 5 right. left. reflexivity.
  - intros H. apply line_of_join; [|reflexivity].
    unfold timer_content. rewrite H. do 4 right. left. reflexivity.
Qed.

Lemma fixture_units_writable : units_writable Fixture.E Fixture.fs.
Proof.
  split; [apply fs_consistentb_spec; by vm_compute|]. repeat split.
Qed.

Lemma unit_files_content_witness :
  let a := Namespace.set_Persistent (Some "false")
             (Namespace.set_OnCalendar (Some "09:00:00")
                (Namespace.set_run_arg (Some "/tmp/x")
                   (Namespace.set_configs (Some "create") Fixture.quiet))) in
  exists s' mt,
    handle_configs Fixture.exec Fixture.E a Fixture.s = (Ret tt, s') /\
    st_fs s' !! timer_file Fixture.E
      = Some (File mt (Py.join Py.LF
                         [ "[Unit]";
                           "Description=Timer for: Daily User Run of /opt/tool.py";
                           EmptyString;
                           "[Timer]";
                           "OnCalendar=09:00:00";
                           "Persistent=false";
                           EmptyString;
                           "[Install]";
                           "WantedBy=default.target";
                           EmptyString;
                           "# End of timer file";
                           EmptyString ])).
Proof.
  intros a.
  destruct (unit_files_content Fixture.exec Fixture.E a Fixture.s
              eq_refl eq_refl fixture_units_writable)
    as (s' & ms & mt & svc & tmr & target & H1 & _ & H3 & _ & _ & H6 & _).
  exists s', mt. split; [exact H1|]. rewrite H3, H6. reflexivity.
Defined.

(** ** The runner *)

Lemma isfile_and_executable fs p :
  os.path.isfile fs p && is_executable_file fs p = is_executable_file fs p.
Proof. unfold is_executable_file. by destruct (os.path.isfile fs p). Qed.

(** One turn of the directory loop in a dry run prints [dry_trace] and
    changes nothing else; so does the whole loop, entry after entry. *)
Lemma dry_run_loop exec (a : Args) (d : string) (l : list string) (s : state) :
  for_each l (fun item =>
    let full_path := os.path.join d item in
    fs ← get_fs;
    if os.path.isfile fs full_path && is_executable_file fs full_path then
      when (verbose a) (print ("Found executable script: " +:+ full_path));;
      if true then
        print ("[DRYRUN] Would run: '" +:+ full_path +:+ "'")
      else
        print ("Running: '" +:+ full_path +:+ "'");;
        subprocess_run exec (Direct [full_path])
    else mret tt) s
  = (Ret tt, mkState (st_fs s)
                     (st_out s ++ flat_map (dry_trace a (st_fs s) d) l)
                     (st_spawned s)).
Proof.
  revert s. induction l as [|x l IH]; intros s.
  - simpl. rewrite app_nil_r. by destruct s.
  - cbn [for_each flat_map]. rewrite bind_unfold. mred.
    rewrite isfile_and_executable. unfold dry_trace at 1.
    destruct (is_executable_file (st_fs s) (os.path.join d x)).
    + destruct (verbose a); mred; rewrite IH; cbn [st_fs st_out st_spawned];
        by rewrite <- !app_assoc.
    + rewrite IH. reflexivity.
Qed.

Lemma startswith_app (p x : string) : Py.startswith (p +:+ x) p = true.
Proof. apply prefix_app. by exists x. Qed.

Lemma endswith_app (x p : string) : Py.endswith (x +:+ p) p = true.
Proof.
  induction x as [|c x IH].
  - rewrite app_empty_l. destruct p; cbn [Py.endswith]; by rewrite String.eqb_refl.
  - rewrite app_cons. cbn [Py.endswith]. rewrite IH. apply orb_true_r.
Qed.

Lemma dry_trace_lines (a : Args) fs d item :
  Forall (fun l => is_intent_line l = true
                   \/ (verbose a = true /\ is_verbose_note l = true))
         (dry_trace a fs d item)
  /\ (verbose a = false ->
      Forall (fun l => is_intent_line l = true) (dry_trace a fs d item)).
Proof.
  unfold dry_trace. destruct (is_executable_file fs _); [|by split].
  assert (is_intent_line ("[DRYRUN] Would run: '" +:+ os.path.join d item +:+ "'") = true)
    as Hi by reflexivity.
  destruct (verbose a); split; cbn [app].
  - constructor; [right | constructor; [by left | constructor]].
    split; [done|]. unfold is_verbose_note.
    by rewrite (startswith_app "Found executable script: ").
  - done.
  - constructor; [by left | constructor].
  - intros _. constructor; [done | constructor].
Qed.

Lemma verbose_note_shape (target : string) :
  "'" +:+ target +:+ "' is a file but probably not executable. "
      +:+ "Attempting to run in shell."
  = ("'" +:+ target +:+ "'")
      +:+ " is a file but probably not executable. Attempting to run in shell.".
Proof. by rewrite !app_assoc_str. Qed.

(** C6 (amended). In dry-run mode the runner, whatever the target is, returns
    normally after printing and nothing else: file system and spawn log are
    as before.  What it prints is fixed by the kind of target.  For a
    directory: for each executable entry, in ascending order of the names,
    the intent line of that entry, preceded when verbose is set by the note
    that an executable script was found.  For an executable file: its intent
    line.  For a file that is not executable: its intent line, preceded when
    verbose is set by the note about the shell.  For anything else, such as
    "echo hello": the single intent line; in a real run such a target is
    handed to the shell, whose output (hello, for a shell that knows echo)
    is all that reaches standard output.  So every printed line is an intent
    line, except for the notes of verbose mode. *)
Theorem dry_run_only_prints exec (a : Args) (target : string) (s : state) :
  exists new,
    run_commands exec a target true s
      = (Ret tt, mkState (st_fs s) (st_out s ++ new) (st_spawned s)) /\
    (os.path.isdir (st_fs s) target = true ->
       new = flat_map
               (fun item =>
                  let full_path := os.path.join target item in
                  if is_executable_file (st_fs s) full_path then
                    (if verbose a then ["Found executable script: " +:+ full_path]
                     else [])
                    ++ ["[DRYRUN] Would run: '" +:+ full_path +:+ "'"]
                  else [])
               (Py.sorted (os.listdir (st_fs s) target))) /\
    (os.path.isdir (st_fs s) target = false ->
     os.path.isfile (st_fs s) target = true ->
     is_executable_file (st_fs s) target = true ->
       new = ["[DRYRUN] Would run file: '" +:+ target +:+ "'"]) /\
    (os.path.isdir (st_fs s) target = false ->
     os.path.isfile (st_fs s) target = true ->
     is_executable_file (st_fs s) target = false ->
       new = (if verbose a
              then ["'" +:+ target +:+ "' is a file but probably not executable. "
                      +:+ "Attempting to run in shell."]
              else [])
             ++ ["[DRYRUN] Would run via shell: '" +:+ target +:+ "'"]) /\
    (os.path.isdir (st_fs s) target = false ->
     os.path.isfile (st_fs s) target = false ->
       new = ["[DRYRUN] Would run command: " +:+ target] /\
       forall fs' o, exec (Shell target) (st_fs s) = Some (fs', o) ->
         run_commands exec a target false s
           = (Ret tt, mkState fs' (st_out s ++ o) (st_spawned s ++ [Shell target]))) /\
    Forall (fun l => is_intent_line l = true
                     \/ (verbose a = true /\ is_verbose_note l = true)) new /\
    (verbose a = false -> Forall (fun l => is_intent_line l = true) new).
Proof.
  unfold run_commands. rewrite !bind_unfold. cbn [get_fs].
  destruct (os.path.isdir (st_fs s) target) eqn:Hdir.
  - eexists. split; [apply (dry_run_loop exec)|].
    split; [reflexivity|]. do 3 (split; [done|]). split.
    + apply Forall_flat_map, Forall_forall. intros x _. apply dry_trace_lines.
    + intros Hv. apply Forall_flat_map, Forall_forall. intros x _.
      by apply dry_trace_lines.
  - destruct (os.path.isfile (st_fs s) target) eqn:Hfile.
    + destruct (is_executable_file (st_fs s) target).
      * eexists. split; [reflexivity|]. split; [done|]. split; [reflexivity|].
        do 2 (split; [done|]). split.
        -- repeat constructor.
        -- intros _. repeat constructor.
      * destruct (verbose a); mred.
        -- eexists. split; [by rewrite <- app_assoc|]. do 2 (split; [done|]).
           split; [reflexivity|]. split; [done|]. split; [|done].
           constructor; [right | repeat constructor].
           split; [done|]. unfold is_verbose_note.
           rewrite (verbose_note_shape target), endswith_app. apply orb_true_r.
        -- eexists. split; [reflexivity|]. do 2 (split; [done|]).
           split; [reflexivity|]. split; [done|]. split.
           ++ repeat constructor.
           ++ intros _. repeat constructor.
    + eexists. split; [reflexivity|]. do 3 (split; [done|]).
      split; [|split].
      * intros _ _. split; [reflexivity|].
        intros fs' o Hex. unfold subprocess_run. by rewrite Hex.
      * repeat constructor.
      * intros _. repeat constructor.
Qed.

Lemma dry_run_only_prints_witness :
  run_commands Fixture.exec Fixture.quiet "echo hello" true Fixture.s
    = (Ret tt, mkState Fixture.fs ["[DRYRUN] Would run command: echo hello"] []) /\
  run_commands Fixture.exec Fixture.quiet "echo hello" false Fixture.s
    = (Ret tt, mkState Fixture.fs ["hello"] [Shell "echo hello"]) /\
  run_commands Fixture.exec Fixture.chatty "jobs/notes.txt" true Fixture.s
    = (Ret tt,
       mkState Fixture.fs
         ["'jobs/notes.txt' is a file but probably not executable. Attempting to run in shell.";
          "[DRYRUN] Would run via shell: 'jobs/notes.txt'"] []).
Proof.
  destruct (dry_run_only_prints Fixture.exec Fixture.quiet "echo hello" Fixture.s)
    as (new & Hrun & _ & _ & _ & H & _).
  destruct (H eq_refl eq_refl) as [-> Hreal].
  destruct (dry_run_only_prints Fixture.exec Fixture.chatty "jobs/notes.txt" Fixture.s)
    as (new & Hnote & _ & _ & Hfile & _).
  rewrite (Hfile eq_refl eq_refl eq_refl) in Hnote.
  split; [exact Hrun|]. split; [|exact Hnote].
  apply (Hreal Fixture.fs ["hello"]). reflexivity.
Defined.

(** C6 as stated fails in verbose mode: the dry run of a file that is not
    executable first prints the note about the shell, which is no intent
    line. *)
Lemma dry_run_verbose_note_counterexample :
  ~ dry_run_prints_only_intent_lines
      Fixture.exec Fixture.chatty "jobs/notes.txt" Fixture.s.
Proof.
  intros (_ & new & Hout & Hall).
  vm_compute in Hout. subst new.
  apply Forall_inv in Hall. vm_compute in Hall. discriminate Hall.
Qed.

Example dry_run_verbose_note_output :
  st_out (snd (run_commands Fixture.exec Fixture.chatty "jobs/notes.txt" true Fixture.s))
  = ["'jobs/notes.txt' is a file but probably not executable. Attempting to run in shell.";
     "[DRYRUN] Would run via shell: 'jobs/notes.txt'"].
Proof. reflexivity. Qed.

(** ** The runner on a directory *)






Lemma get_fs_run {B} (f : gmap string node -> M B) (s : state) :
  (get_fs ≫= f) s = f (st_fs s) s.
Proof. reflexivity. Qed.

Lemma print_run {B} (x : string) (f : unit -> M B) (s : state) :
  (print x ≫= f) s = f tt (mkState (st_fs s) (st_out s ++ [x]) (st_spawned s)).
Proof. reflexivity. Qed.

Lemma when_print_run (b : bool) (x : string) (s : state) :
  when b (print x) s
  = (Ret tt, mkState (st_fs s) (st_out s ++ (if b then [x] else [])) (st_spawned s)).
Proof. destruct b; [reflexivity|]. destruct s. cbn. by rewrite app_nil_r. Qed.

(** A loop all of whose turns do nothing does nothing. *)
Lemma for_each_skip (body : string -> M unit) (l : list string) (s : state) :
  (forall x, x ∈ l -> body x s = (Ret tt, s)) -> for_each l body s = (Ret tt, s).
Proof.
  induction l as [|x l IH]; intros Hq; [done|].
  cbn [for_each]. rewrite bind_unfold, Hq by left.
  apply IH. intros y Hy. apply Hq. by right.
Qed.





Example directory_order :
  Py.sorted (os.listdir Fixture.fs "jobs") = ["notes.txt"; "run.sh"; "sub"].
Proof. reflexivity. Qed.

(** ** The dependency advisor *)

Lemma for_each_print (f : string -> string) (l : list string) (s : state) :
  for_each l (fun x => print (f x)) s
  = (Ret tt, mkState (st_fs s) (st_out s ++ map f l) (st_spawned s)).
Proof.
  revert s. induction l as [|x l IH]; intros s.
  - simpl. rewrite app_nil_r. by destruct s.
  - cbn [for_each map]. rewrite print_run, IH. cbn [st_fs st_out st_spawned].
    by rewrite <- app_assoc.
Qed.

Lemma detect_os_explicit E (sel : string) (s : state) :
  Py.str_in sel ["arch"; "ubuntu"] = true -> detect_os E sel s = (Ret sel, s).
Proof. intros H. unfold detect_os. by rewrite H. Qed.

Lemma detect_os_auto E (sel : string) (s : state) :
  Py.str_in sel ["arch"; "ubuntu"] = false -> detect_os E sel s = detect_os E "auto" s.
Proof. intros H. unfold detect_os. by rewrite H. Qed.

(** OS detection depends on the file system only. *)
Lemma detect_os_same_fs E (sel : string) (s' s : state) :
  st_fs s' = st_fs s -> detect_os E sel s' = (fst (detect_os E sel s), s').
Proof.
  intros Hfs. unfold detect_os. case_match; [reflexivity|].
  mred. rewrite Hfs. case_bool_decide; [reflexivity|].
  destruct (st_fs s !! "/etc/os-release") as [[?|? c|[c|]]|]; try reflexivity;
    destruct (Py.utf8_valid c); try reflexivity;
    destruct (Py.contains "arch linux" _); try reflexivity;
    destruct (Py.contains "ubuntu" _); reflexivity.
Qed.

Lemma detect_os_cases E (sel : string) (s : state) :
  (exists u, detect_os E sel s = (Ret u, s))
  \/ (exists e, detect_os E sel s = (Raise e, s)).
Proof.
  pose proof (detect_os_state E sel s) as Hs.
  destruct (detect_os E sel s) as [[u|c|e] s1] eqn:Hd; simpl in Hs; subst s1.
  - left. by exists u.
  - by apply no_exit_detect_os in Hd.
  - right. by exists e.
Qed.

Lemma suggest_install_script_run E (v : bool) (s : state) (u : string) :
  detect_os E "auto" s = (Ret u, s) ->
  suggest_install_script E v s
  = (Ret tt, mkState (st_fs s) (st_out s ++ suggestions E v u) (st_spawned s)).
Proof.
  intros Hu. unfold suggest_install_script. rewrite bind_unfold, Hu.
  unfold suggestions, missing_commands, shutil_which, package_manager.
  destruct (List.filter _ _) as [|c l]; [reflexivity|].
  rewrite print_run, bind_unfold, for_each_print, when_print_run.
  cbn [st_fs st_out st_spawned]. by rewrite <- !app_assoc.
Qed.

Lemma suggest_install_script_raise E (v : bool) (s : state) (e : exn) :
  detect_os E "auto" s = (Raise e, s) -> suggest_install_script E v s = (Raise e, s).
Proof. intros Hu. unfold suggest_install_script. by rewrite bind_unfold, Hu. Qed.

(** Nothing runs after a branch that ends in [sys.exit]. *)
Lemma then_exit_absorbs {A B} (m : M A) (k : Z) (f : unit -> M B) (s : state) :
  ((m ≫= λ _, sys_exit k) ≫= f) s = (m ≫= λ _, sys_exit k) s.
Proof.
  rewrite (bind_unfold (m ≫= _)), !(bind_unfold m).
  by destruct (m s) as [[?|?|?] ?].
Qed.

Lemma dispatch_script exec E (a : Args) (s : state) (sel : string) :
  dependencies a = Some "script" ->
  dispatch exec E (Namespace.set_os sel a) s
  = (used_os ← detect_os E sel;
     when (verbose a) (print ("Detected/Selected OS: " +:+ used_os));;
     suggest_install_script E (verbose a);;
     sys_exit 0) s.
Proof.
  intros Hd. unfold dispatch.
  cbn [Namespace.set_os os verbose dependencies]. rewrite Hd.
  apply bind_ext. intros u s1. apply bind_ext. intros [] s2.
  change (Py.opt_eq (Some "script") "check") with false.
  change (Py.opt_eq (Some "script") "script") with true. cbv iota.
  apply then_exit_absorbs.
Qed.

(** C8. With [--dependencies script] the printed suggestions are those for
    the family found by auto-detection, whatever [--os] says: the one line
    that shows the selection is the verbose notice of the dispatcher, printed
    before the advisor runs.  The advice is [suggestions]: the confirmation
    and nothing more when no program is missing, otherwise one install
    command per missing program with the package manager of the detected
    family (pacman, apt-get, or the placeholder).  In particular, without
    verbose, any two values of [--os] give the same run on the same
    machine. *)
Theorem suggestions_ignore_os_selection exec E (a : Args) (s : state) :
  dependencies a = Some "script" ->
  (forall u, detect_os E "auto" s = (Ret u, s) ->
     forall sel,
       dispatch exec E (Namespace.set_os sel a) s =
         (Exit 0,
          mkState (st_fs s)
            (st_out s
               ++ (if verbose a
                   then ["Detected/Selected OS: "
                           +:+ (if Py.str_in sel ["arch"; "ubuntu"] then sel else u)]
                   else [])
               ++ suggestions E (verbose a) u)
            (st_spawned s))) /\
  (verbose a = false ->
     forall sel1 sel2,
       dispatch exec E (Namespace.set_os sel1 a) s
       = dispatch exec E (Namespace.set_os sel2 a) s).
Proof.
  intros Hd.
  assert (forall u, detect_os E "auto" s = (Ret u, s) ->
     forall sel,
       dispatch exec E (Namespace.set_os sel a) s =
         (Exit 0,
          mkState (st_fs s)
            (st_out s
               ++ (if verbose a
                   then ["Detected/Selected OS: "
                           +:+ (if Py.str_in sel ["arch"; "ubuntu"] then sel else u)]
                   else [])
               ++ suggestions E (verbose a) u)
            (st_spawned s))) as Hret.
  { intros u Hu sel. rewrite dispatch_script by done. rewrite bind_unfold.
    assert (detect_os E sel s
            = (Ret (if Py.str_in sel ["arch"; "ubuntu"] then sel else u), s)) as ->.
    { destruct (Py.str_in sel _) eqn:Hsel.
      - by apply detect_os_explicit.
      - by rewrite detect_os_auto. }
    rewrite bind_unfold, when_print_run, bind_unfold.
    rewrite (suggest_install_script_run E _ _ u)
      by (rewrite (detect_os_same_fs _ _ _ s), Hu; done).
    cbn [st_fs st_out st_spawned]. by rewrite <- !app_assoc. }
  split; [exact Hret|].
  intros Hv sel1 sel2.
  destruct (detect_os_cases E "auto" s) as [[u Hu]|[e He]].
  - by rewrite !(Hret u Hu), Hv.
  - assert (forall sel, dispatch exec E (Namespace.set_os sel a) s = (Raise e, s))
      as Hraise; [|by rewrite !Hraise].
    intros sel. rewrite dispatch_script by done. rewrite bind_unfold, Hv.
    destruct (Py.str_in sel ["arch"; "ubuntu"]) eqn:Hsel.
    + rewrite detect_os_explicit by done.
      rewrite bind_unfold, when_print_run, bind_unfold. cbn [app].
      rewrite (suggest_install_script_raise E false _ e);
        [|by rewrite (detect_os_same_fs _ _ _ s), He].
      rewrite app_nil_r. by destruct s.
    + by rewrite detect_os_auto, He.
Qed.

Lemma suggestions_ignore_os_selection_witness :
  let a := Namespace.set_dependencies (Some "script") Fixture.chatty in
  dispatch Fixture.exec Fixture.E (Namespace.set_os "ubuntu" a) Fixture.s
  = (Exit 0,
     mkState Fixture.fs
       ["Detected/Selected OS: ubuntu";
        "Suggested installation commands (based on detected OS):";
        "  sudo pacman -S systemctl";
        "  sudo pacman -S nano";
        "Suggested install script generation completed."] []).
Proof.
  intros a.
  apply (proj1 (suggestions_ignore_os_selection Fixture.exec Fixture.E a Fixture.s
                  eq_refl) "arch" eq_refl "ubuntu").
Defined.

(** ** The dispatcher *)

Lemma str_in_two (v x y : string) :
  Py.str_in v [x; y] = true -> v = x \/ v = y.
Proof.
  unfold Py.str_in. simpl. rewrite !orb_true_iff, !String.eqb_eq.
  intros [H|[H|H]]; [by left | by right | discriminate H].
Qed.

Lemma take_action_choices (o : cli_option) (p p' : parser_state) :
  choices_ok (ns p) -> take_action o p = Parsed p' -> choices_ok (ns p').
Proof.
  unfold choices_ok. intros Hp H.
  destruct o; cbn [take_action] in H;
    repeat match type of H with
           | (if ?c then _ else _) = _ => destruct c eqn:?; [|try discriminate H]
           end;
    try discriminate H; injection H as <-; try exact Hp.
  cbn [ns Namespace.set_dependencies dependencies].
  match goal with Hc : Py.str_in _ _ = true |- _ => apply str_in_two in Hc as [-> | ->] end;
    auto.
Qed.

Lemma consume_choices (argv : list cli_option) (p p' : parser_state) :
  choices_ok (ns p) -> consume argv p = Parsed p' -> choices_ok (ns p').
Proof.
  revert p. induction argv as [|o argv IH]; intros p Hp H; simpl in H.
  - by injection H as <-.
  - destruct (take_action o p) as [p1| |] eqn:Ho; [|done|done].
    eapply IH; [|exact H]. by eapply take_action_choices.
Qed.

Lemma parse_args_parsed (argv : list cli_option) (a : Args) :
  parse_args argv = Some a <->
  exists p, consume argv (mkParser Namespace.defaults false false) = Parsed p
            /\ ns p = a.
Proof.
  unfold parse_args. destruct (consume argv _) as [p| |]; split.
  - intros [= <-]. by exists p.
  - by intros (? & [= <-] & <-).
  - done.
  - by intros (? & ? & _).
  - done.
  - by intros (? & ? & _).
Qed.

Lemma parse_args_choices (argv : list cli_option) (a : Args) :
  parse_args argv = Some a -> choices_ok a.
Proof.
  intros (p & Hc & <-)%parse_args_parsed.
  eapply consume_choices; [|exact Hc]. by left.
Qed.

(** [main] on a command line the parser accepts is the dispatcher on the
    parsed options. *)
Lemma main_parsed exec E (argv : list cli_option) (a : Args) (s : state) :
  parse_args argv = Some a -> main exec E argv s = dispatch exec E a s.
Proof. intros (p & Hc & <-)%parse_args_parsed. unfold main. by rewrite Hc. Qed.

Lemma skip_run {B} (f : unit -> M B) (s : state) : (mret tt ≫= f) s = f tt s.
Proof. reflexivity. Qed.

(** Exactly one branch runs, the first in the priority order whose option
    is supplied: the cascade of [if ...: handler(); sys.exit(0)] blocks
    amounts to running [selected_branch]. *)
Lemma dispatch_priority exec E (a : Args) (s : state) :
  choices_ok a ->
  dispatch exec E a s
  = (used_os ← detect_os E (os a);
     when (verbose a) (print ("Detected/Selected OS: " +:+ used_os));;
     run_branch exec E a (selected_branch a)) s.
Proof.
  intros Hd. unfold dispatch.
  apply bind_ext. intros u s1. apply bind_ext. intros [] s2.
  unfold selected_branch, run_branch.
  destruct Hd as [Hd|[Hd|Hd]]; rewrite Hd.
  2: { change (Py.opt_eq (Some "check") "check") with true. cbv iota.
       cbn [Py.truthy]. apply then_exit_absorbs. }
  2: { change (Py.opt_eq (Some "script") "check") with false.
       change (Py.opt_eq (Some "script") "script") with true. cbv iota.
       cbn [Py.truthy]. apply then_exit_absorbs. }
  cbn [Py.opt_eq Py.truthy]. rewrite skip_run.
  destruct (Py.truthy (configs a)); [apply then_exit_absorbs|]. rewrite skip_run.
  destruct (Py.truthy (install_systemd_timer a)); [apply then_exit_absorbs|].
  rewrite skip_run.
  destruct (status a || enable_and_start a || disable_and_stop a || logs a);
    [apply then_exit_absorbs|]. rewrite skip_run.
  destruct (Py.truthy (run_arg a)); [reflexivity|].
  destruct (Py.truthy (dry_run_arg a)); reflexivity.
Qed.

Lemma main_priority exec E (argv : list cli_option) (a : Args) (s : state) :
  parse_args argv = Some a ->
  main exec E argv s
  = (used_os ← detect_os E (os a);
     when (verbose a) (print ("Detected/Selected OS: " +:+ used_os));;
     run_branch exec E a (selected_branch a)) s.
Proof.
  intros H. rewrite (main_parsed _ _ _ a) by done. apply dispatch_priority.
  by eapply parse_args_choices.
Qed.

(** The dry-run target has no effect under a branch that outranks it. *)
Lemma dry_run_flag_ignored exec E (a : Args) (v : option string) (s : state) :
  choices_ok a -> outranks_run (selected_branch a) = true ->
  dispatch exec E (Namespace.set_dry_run_arg v a) s = dispatch exec E a s.
Proof.
  intros Hc Hb. rewrite !dispatch_priority by done.
  cbn [Namespace.set_dry_run_arg os verbose].
  apply bind_ext. intros u s1. apply bind_ext. intros [] s2.
  revert Hb. unfold selected_branch.
  cbn [Namespace.set_dry_run_arg dependencies configs install_systemd_timer
       status enable_and_start disable_and_stop logs run_arg].
  repeat case_match; try discriminate; reflexivity.
Qed.

(** The run target has no effect under a branch that outranks it, unless
    that branch is [configs create]. *)
Lemma run_flag_ignored exec E (a : Args) (v : option string) (s : state) :
  choices_ok a -> outranks_run (selected_branch a) = true ->
  ~ (selected_branch a = Configs /\ configs a = Some "create") ->
  dispatch exec E (Namespace.set_run_arg v a) s = dispatch exec E a s.
Proof.
  intros Hc Hb Hn. rewrite !dispatch_priority by done.
  cbn [Namespace.set_run_arg os verbose].
  apply bind_ext. intros u s1. apply bind_ext. intros [] s2.
  revert Hb Hn. unfold selected_branch.
  cbn [Namespace.set_run_arg dependencies configs install_systemd_timer
       status enable_and_start disable_and_stop logs dry_run_arg].
  repeat case_match; try discriminate; intros _ Hn; try reflexivity.
  unfold run_branch, handle_configs. cbn [Namespace.set_run_arg configs].
  destruct (Py.opt_eq (configs a) "paths"); [reflexivity|].
  destruct (Py.opt_eq (configs a) "create") eqn:Hcr; [|reflexivity].
  exfalso. apply Hn. split; [done|].
  destruct (configs a); [|done]. by apply String.eqb_eq in Hcr as ->.
Qed.

(** C2 (the code departs from it). [--run] combined with [--configs create]
    is not ignored: argparse stores its value where [--run-arg] is stored,
    and [configs create] takes it for the run-arg.  Alone,
    [--configs create] prints the error and ends with status 1, writing
    nothing; with [--run /tmp/x] added it writes both unit files, the
    service running [--run "/tmp/x"], and ends with status 0. *)
Theorem run_flag_feeds_configs_create :
  parse_args [Opt_configs "create"; Opt_run "/tmp/x"]
    = parse_args [Opt_configs "create"; Opt_run_arg "/tmp/x"] /\
  main Fixture.exec Fixture.E [Opt_configs "create"] Fixture.blank
    = (Exit 1, mkState ∅ ["Error: --configs create requires --run-arg"] []) /\
  (let r := main Fixture.exec Fixture.E [Opt_configs "create"; Opt_run "/tmp/x"]
                 Fixture.blank in
   fst r = Exit 0 /\
   exists m c,
     st_fs (snd r) !! service_file Fixture.E = Some (File m c) /\
     In ("ExecStart=/usr/bin/env python3 /opt/tool.py --run "
           +:+ Py.DQ +:+ "/tmp/x" +:+ Py.DQ)
        (Py.lines c)).
Proof.
  split; [reflexivity|]. split; [reflexivity|]. split; [reflexivity|].
  eexists _, _. split; [reflexivity|]. vm_compute. do 6 right. left. reflexivity.
Qed.

(** * Further properties of the code *)

(** ** The executable classifier *)

Lemma land_S_IXUSR (m : Z) : Z.land m os.S_IXUSR <> 0 <-> Z.testbit m 6 = true.
Proof.
  change os.S_IXUSR with (2 ^ 6). split.
  - intros Hne. destruct (Z.testbit m 6) eqn:Hb; [done|]. exfalso. apply Hne.
    apply Z.bits_inj'. intros i Hi.
    rewrite Z.land_spec, Z.pow2_bits_eqb, Z.bits_0 by lia.
    destruct (Z.eqb_spec 6 i) as [<-|_]; [by rewrite Hb | apply andb_false_r].
  - intros Hb Hz.
    assert (Z.testbit (Z.land m (2 ^ 6)) 6 = true) as Hl.
    { rewrite Z.land_spec, Hb, Z.pow2_bits_eqb by lia. reflexivity. }
    by rewrite Hz, Z.bits_0 in Hl.
Qed.

(** X1. A path classifies as executable exactly when it is a regular file
    whose mode has the owner-execute bit (bit 6, 0o100) set.  So a directory
    and a missing path never do, whatever else holds; setting the bit on a
    file makes it executable and clearing it makes it not. *)
Theorem is_executable_file_owner_bit (fs : gmap string node) (p : string) :
  (is_executable_file fs p = true <->
     exists m c, fs !! p = Some (File m c) /\ Z.testbit m 6 = true) /\
  (forall names, fs !! p = Some (Dir names) -> is_executable_file fs p = false) /\
  (fs !! p = None -> is_executable_file fs p = false) /\
  (forall m c,
     is_executable_file (<[p := File (Z.lor m os.S_IXUSR) c]> fs) p = true /\
     is_executable_file (<[p := File (Z.ldiff m os.S_IXUSR) c]> fs) p = false).
Proof.
  split; [|split; [|split]].
  - unfold is_executable_file, os.path.isfile, os.st_mode.
    destruct (fs !! p) as [[?|m c|?]|]; cbn [negb].
    + split; [done | by intros (? & ? & ? & ?)].
    + rewrite negb_true_iff, Z.eqb_neq, land_S_IXUSR. split; [by exists m, c|].
      by intros (? & ? & [= <- <-] & ?).
    + split; [done | by intros (? & ? & ? & ?)].
    + split; [done | by intros (? & ? & ? & ?)].
  - intros names H. unfold is_executable_file, os.path.isfile. by rewrite H.
  - intros H. unfold is_executable_file, os.path.isfile. by rewrite H.
  - intros m c. unfold is_executable_file, os.path.isfile, os.st_mode.
    rewrite !lookup_insert_eq. cbn [negb]. split.
    + rewrite negb_true_iff, Z.eqb_neq, land_S_IXUSR, Z.lor_spec.
      apply orb_true_r.
    + rewrite negb_false_iff, Z.eqb_eq.
      apply Z.bits_inj'. intros i Hi.
      rewrite Z.land_spec, Z.ldiff_spec, Z.bits_0.
      destruct (Z.testbit m i), (Z.testbit os.S_IXUSR i); reflexivity.
Qed.

Lemma is_executable_file_owner_bit_witness :
  is_executable_file Fixture.fs "jobs/run.sh" = true /\
  is_executable_file Fixture.fs "jobs/sub" = false /\
  is_executable_file Fixture.fs "jobs/nothing" = false.
Proof.
  split; [|split].
  - apply (proj1 (is_executable_file_owner_bit Fixture.fs "jobs/run.sh")).
    exists 493, "#!/bin/sh". split; reflexivity.
  - apply (proj1 (proj2 (is_executable_file_owner_bit Fixture.fs "jobs/sub")) []).
    reflexivity.
  - apply (proj1 (proj2 (proj2 (is_executable_file_owner_bit Fixture.fs "jobs/nothing")))).
    reflexivity.
Defined.

(** ** The argument parser *)

Lemma take_action_seen (o : cli_option) (p p' : parser_state) :
  take_action o p = Parsed p' ->
  (seen_run p = true -> seen_run p' = true) /\
  (seen_dry_run p = true -> seen_dry_run p' = true).
Proof.
  intros H.
  destruct o; cbn [take_action] in H;
    repeat match type of H with
           | (if ?c then _ else _) = _ => destruct c eqn:?; [|try discriminate H]
           end;
    try discriminate H; injection H as <-; cbn [seen_run seen_dry_run]; auto.
Qed.

Lemma consume_after_run (argv : list cli_option) (p : parser_state) (w : string) :
  seen_run p = true -> In (Opt_dry_run w) argv ->
  forall r, consume argv p <> Parsed r.
Proof.
  revert p. induction argv as [|o argv IH]; intros p Hp Hin r; [done|].
  cbn [consume]. destruct (take_action o p) as [p'| |] eqn:Ho; [|done|done].
  destruct Hin as [->|Hin].
  - cbn [take_action] in Ho. by rewrite Hp in Ho.
  - apply IH; [|done]. by apply (take_action_seen o p p').
Qed.

Lemma consume_after_dry_run (argv : list cli_option) (p : parser_state) (v : string) :
  seen_dry_run p = true -> In (Opt_run v) argv ->
  forall r, consume argv p <> Parsed r.
Proof.
  revert p. induction argv as [|o argv IH]; intros p Hp Hin r; [done|].
  cbn [consume]. destruct (take_action o p) as [p'| |] eqn:Ho; [|done|done].
  destruct Hin as [->|Hin].
  - cbn [take_action] in Ho. by rewrite Hp in Ho.
  - apply IH; [|done]. by apply (take_action_seen o p p').
Qed.

(** The help is printed only where [-h] occurs. *)
Lemma take_action_help (o : cli_option) (p : parser_state) :
  take_action o p = Help_exit -> o = Opt_help.
Proof.
  destruct o; cbn [take_action]; try done;
    repeat match goal with
           | |- (if ?c then _ else _) = _ -> _ => destruct c
           end; done.
Qed.

Lemma consume_without_help (argv : list cli_option) (p : parser_state) :
  ~ In Opt_help argv -> consume argv p <> Help_exit.
Proof.
  revert p. induction argv as [|o argv IH]; intros p Hn; [done|].
  cbn [consume]. destruct (take_action o p) as [p'| |] eqn:Ho.
  - apply IH. intros H. apply Hn. by right.
  - done.
  - apply take_action_help in Ho as ->. intros _. apply Hn. by left.
Qed.

Lemma consume_app (l1 l2 : list cli_option) (p : parser_state) :
  consume (l1 ++ l2) p =
  match consume l1 p with Parsed q => consume l2 q | stop => stop end.
Proof.
  revert p. induction l1 as [|o l1 IH]; intros p; [done|].
  cbn [app consume]. by destruct (take_action o p).
Qed.

(** [-h] reached on what the parser accepted so far: the help goes to
    standard output and the process ends with status 0, whatever follows. *)
Lemma main_help exec E (pre post : list cli_option) (s : state) :
  is_Some (parse_args pre) ->
  main exec E (pre ++ Opt_help :: post) s
  = (Exit 0, mkState (st_fs s) (st_out s ++ [env_help E]) (st_spawned s)).
Proof.
  intros [a (p & Hc & _)%parse_args_parsed]. unfold main.
  rewrite consume_app, Hc. reflexivity.
Qed.

Lemma main_usage_error exec E (argv : list cli_option) (s : state) :
  parse_args argv = None -> ~ In Opt_help argv -> main exec E argv s = (Exit 2, s).
Proof.
  unfold parse_args, main. intros Hp Hn.
  pose proof (consume_without_help argv (mkParser Namespace.defaults false false) Hn).
  by destruct (consume argv _).
Qed.

(** X2. [--run] and [--dry-run] exclude each other: a command line with an
    occurrence of each, in either order and with anything around them, is
    never accepted by the parser.  Unless [-h] occurs on it too, the tool
    ends with status 2 before it has printed to standard output, touched a
    file or started a process.  With [-h] it ends with status 2 in the same
    way or, the help being printed, with status 0, and the latter whenever
    what precedes [-h] is acceptable by itself: the options are taken from
    left to right. *)
Theorem run_and_dry_run_rejected exec E (argv : list cli_option) (v w : string)
    (s : state) :
  In (Opt_run v) argv -> In (Opt_dry_run w) argv ->
  parse_args argv = None /\
  (~ In Opt_help argv -> main exec E argv s = (Exit 2, s)) /\
  (main exec E argv s = (Exit 2, s)
   \/ main exec E argv s
      = (Exit 0, mkState (st_fs s) (st_out s ++ [env_help E]) (st_spawned s))) /\
  (forall pre post, argv = pre ++ Opt_help :: post -> is_Some (parse_args pre) ->
     main exec E argv s
     = (Exit 0, mkState (st_fs s) (st_out s ++ [env_help E]) (st_spawned s))).
Proof.
  intros Hr Hd.
  assert (parse_args argv = None) as Hp.
  { unfold parse_args. generalize (mkParser Namespace.defaults false false).
    induction argv as [|o argv IH]; intros p; [done|].
    cbn [consume]. destruct (take_action o p) as [p'| |] eqn:Ho; [|done|done].
    destruct Hr as [->|Hr], Hd as [Hd|Hd]; try discriminate Hd.
    - cbn [take_action] in Ho. destruct (seen_dry_run p); [done|].
      injection Ho as <-.
      pose proof (consume_after_run argv
                    (mkParser (Namespace.set_run_arg (Some v) (ns p)) true false)
                    w eq_refl Hd) as Hno.
      destruct (consume argv _) as [r| |]; [by specialize (Hno r)|done|done].
    - subst o. cbn [take_action] in Ho. destruct (seen_run p); [done|].
      injection Ho as <-.
      pose proof (consume_after_dry_run argv
                    (mkParser (Namespace.set_dry_run_arg (Some w) (ns p)) false true)
                    v eq_refl Hr) as Hno.
      destruct (consume argv _) as [r| |]; [by specialize (Hno r)|done|done].
    - by apply IH. }
  split; [exact Hp|]. split; [by apply main_usage_error|]. split.
  - revert Hp. unfold parse_args, main. destruct (consume argv _); [done| |]; auto.
  - intros pre post -> Hpre. by apply main_help.
Qed.

Lemma run_and_dry_run_rejected_witness :
  main Fixture.exec Fixture.E
       [Opt_verbose; Opt_dry_run "jobs"; Opt_status; Opt_run "jobs"] Fixture.s
  = (Exit 2, Fixture.s) /\
  main Fixture.exec Fixture.E
       [Opt_verbose; Opt_help; Opt_dry_run "jobs"; Opt_run "jobs"] Fixture.s
  = (Exit 0, mkState Fixture.fs [env_help Fixture.E] []).
Proof.
  split.
  - apply (run_and_dry_run_rejected Fixture.exec Fixture.E _ "jobs" "jobs").
    + simpl. tauto.
    + simpl. tauto.
    + simpl. intros [H|[H|[H|[H|[]]]]]; discriminate H.
  - apply (proj2 (proj2 (proj2
             (run_and_dry_run_rejected Fixture.exec Fixture.E
                [Opt_verbose; Opt_help; Opt_dry_run "jobs"; Opt_run "jobs"]
                "jobs" "jobs" Fixture.s
                ltac:(simpl; tauto) ltac:(simpl; tauto))))
           [Opt_verbose] [Opt_dry_run "jobs"; Opt_run "jobs"] eq_refl).
    by eexists.
Defined.

(** A parser that has seen less of the exclusive group accepts at least as
    much, with the same options. *)
Lemma consume_seen_less (argv : list cli_option) (p1 p2 r1 : parser_state) :
  ns p1 = ns p2 -> seen_dry_run p1 = seen_dry_run p2 ->
  (seen_run p2 = true -> seen_run p1 = true) ->
  consume argv p1 = Parsed r1 ->
  exists r2, consume argv p2 = Parsed r2 /\ ns r2 = ns r1.
Proof.
  revert p1 p2. induction argv as [|o argv IH]; intros p1 p2 Hns Hd Hr H.
  - injection H as <-. by exists p2.
  - cbn [consume] in *. destruct (take_action o p1) as [q1| |] eqn:H1; [|done|done].
    assert (exists q2, take_action o p2 = Parsed q2 /\ ns q1 = ns q2 /\
              seen_dry_run q1 = seen_dry_run q2 /\
              (seen_run q2 = true -> seen_run q1 = true)) as (q2 & H2 & ? & ? & ?).
    { destruct p1 as [n1 sr1 sd1], p2 as [n2 sr2 sd2]. cbn in Hns, Hd, Hr. subst n2 sd2.
      destruct o; cbn [take_action ns seen_run seen_dry_run] in *;
        repeat match type of H1 with
               | (if ?c then _ else _) = _ => destruct c eqn:?; [|try discriminate H1]
               end;
        try discriminate H1; injection H1 as <-;
        try (eexists; split; [reflexivity|]; cbn; by auto).
      destruct sr2; [by specialize (Hr eq_refl)|].
      eexists; split; [reflexivity|]. cbn; auto. }
    rewrite H2. by apply (IH q1 q2).
Qed.

(** X3. [--run-arg] is accepted wherever [--run] is, and yields the same
    options: replacing an occurrence of [--run v] by [--run-arg v] in a
    command line the parser accepts gives a command line it accepts with
    the very same result, and so the same run of the tool.  Unlike [--run],
    [--run-arg] is outside the exclusive group: it may accompany [--dry-run],
    and then [run_arg] and [dry_run_arg] are both set. *)
Theorem run_arg_option_acts_as_run exec E (pre post : list cli_option) (v : string)
    (a : Args) (s : state) :
  parse_args (pre ++ Opt_run v :: post) = Some a ->
  parse_args (pre ++ Opt_run_arg v :: post) = Some a /\
  main exec E (pre ++ Opt_run_arg v :: post) s
    = main exec E (pre ++ Opt_run v :: post) s /\
  (forall w, exists b,
     parse_args [Opt_run_arg v; Opt_dry_run w] = Some b /\
     run_arg b = Some v /\ dry_run_arg b = Some w /\
     parse_args [Opt_run v; Opt_dry_run w] = None).
Proof.
  intros H.
  assert (parse_args (pre ++ Opt_run_arg v :: post) = Some a) as H'.
  { revert H. unfold parse_args. rewrite !consume_app.
    destruct (consume pre _) as [q| |]; [|done|done]. cbn [consume take_action].
    destruct (seen_dry_run q) eqn:Hd; [done|].
    destruct (consume post (mkParser _ true _)) as [r1| |] eqn:Hc; [|done|done].
    intros [= <-].
    destruct (consume_seen_less post
                (mkParser (Namespace.set_run_arg (Some v) (ns q)) true false)
                (mkParser (Namespace.set_run_arg (Some v) (ns q)) (seen_run q) false)
                r1) as (r2 & -> & ->); cbn [ns seen_run seen_dry_run]; auto. }
  split; [exact H'|]. split.
  - by rewrite (main_parsed exec E _ a s H), (main_parsed exec E _ a s H').
  - intros w. eexists. repeat split; reflexivity.
Qed.

Lemma run_arg_option_acts_as_run_witness :
  parse_args [Opt_verbose; Opt_run_arg "jobs"; Opt_logs]
  = Some (Namespace.set_logs true
            (Namespace.set_run_arg (Some "jobs")
               (Namespace.set_verbose true Namespace.defaults))).
Proof.
  exact (proj1 (run_arg_option_acts_as_run Fixture.exec Fixture.E
                  [Opt_verbose] [Opt_logs] "jobs" _ Fixture.s eq_refl)).
Defined.

Lemma take_action_within_choices (o : cli_option) (p p' : parser_state) :
  within_choices (ns p) -> take_action o p = Parsed p' -> within_choices (ns p').
Proof.
  unfold within_choices. intros (H1 & H2 & H3 & H4) H.
  destruct o; cbn [take_action] in H;
    repeat match type of H with
           | (if ?c then _ else _) = _ => destruct c eqn:?; [|try discriminate H]
           end;
    try discriminate H; injection H as <-;
    cbn [ns Namespace.set_os Namespace.set_run_arg Namespace.set_dry_run_arg
         Namespace.set_verbose Namespace.set_dependencies Namespace.set_configs
         Namespace.set_install_systemd_timer Namespace.set_Persistent
         Namespace.set_OnCalendar Namespace.set_Description Namespace.set_status
         Namespace.set_enable_and_start Namespace.set_disable_and_stop
         Namespace.set_logs os dependencies configs install_systemd_timer];
    repeat split; eauto.
Qed.

(** X4. Whatever command line the parser accepts, each option with declared
    choices holds one of them or is unset: [os] is auto, arch or ubuntu;
    [dependencies] is check or script; [configs] is one of its five actions;
    [install_systemd_timer] is daily or hourly.  A value outside the choices
    makes the parser refuse the whole command line. *)
Theorem parsed_options_within_choices (argv : list cli_option) :
  (forall a, parse_args argv = Some a -> within_choices a) /\
  (forall v, In (Opt_configs v) argv ->
     Py.str_in v ["create"; "paths"; "edit-timer"; "edit-service"; "delete"] = false ->
     parse_args argv = None).
Proof.
  split.
  - intros a (r & Hc & <-)%parse_args_parsed.
    assert (within_choices (ns (mkParser Namespace.defaults false false))) as H0.
    { repeat split; auto. }
    revert Hc H0. generalize (mkParser Namespace.defaults false false).
    induction argv as [|o argv IH]; intros p Hc Hp; cbn [consume] in Hc.
    + by injection Hc as <-.
    + destruct (take_action o p) as [p'| |] eqn:Ho; [|done|done].
      apply (IH p'); [done|]. by apply (take_action_within_choices o p).
  - intros v Hin Hv. unfold parse_args.
    generalize (mkParser Namespace.defaults false false).
    induction argv as [|o argv IH]; intros p; [done|].
    cbn [consume]. destruct Hin as [->|Hin].
    + cbn [take_action]. by rewrite Hv.
    + destruct (take_action o p); [|done|done]. by apply IH.
Qed.

Lemma parsed_options_within_choices_witness :
  within_choices (Namespace.set_configs (Some "delete") Namespace.defaults) /\
  parse_args [Opt_verbose; Opt_configs "remove"] = None.
Proof.
  split.
  - apply (proj1 (parsed_options_within_choices [Opt_configs "delete"])).
    reflexivity.
  - apply (proj2 (parsed_options_within_choices [Opt_verbose; Opt_configs "remove"])
                 "remove").
    + simpl. tauto.
    + reflexivity.
Defined.

(** ** Validation of the input *)

Lemma take_action_run_arg (o : cli_option) (p p' : parser_state) :
  take_action o p = Parsed p' ->
  is_run_option o = false -> is_run_arg_option o = false ->
  run_arg (ns p') = run_arg (ns p).
Proof.
  intros H.
  destruct o; cbn [take_action] in H;
    repeat match type of H with
           | (if ?c then _ else _) = _ => destruct c eqn:?; [|try discriminate H]
           end;
    try discriminate H; injection H as <-; done.
Qed.

(** Without [--run] and [--run-arg] on the command line the parsed options
    have no run-arg. *)
Lemma consume_run_arg (argv : list cli_option) (p r : parser_state) :
  consume argv p = Parsed r ->
  (forall v, ~ In (Opt_run v) argv) -> (forall v, ~ In (Opt_run_arg v) argv) ->
  run_arg (ns r) = run_arg (ns p).
Proof.
  revert p. induction argv as [|o argv IH]; intros p H Hr Ha; cbn [consume] in H.
  - by injection H as <-.
  - destruct (take_action o p) as [p'| |] eqn:Ho; [|done|done].
    rewrite (IH p' H).
    + apply (take_action_run_arg o p p' Ho).
      * destruct o; try done. exfalso. apply (Hr v). by left.
      * destruct o; try done. exfalso. apply (Ha v). by left.
    + intros v Hin. apply (Hr v). by right.
    + intros v Hin. apply (Ha v). by right.
Qed.

Lemma take_action_parsed (o : cli_option) (p p' : parser_state) :
  take_action o p = Parsed p' ->
  outside_choices o = false /\
  seen_run p' = seen_run p || is_run_option o /\
  seen_dry_run p' = seen_dry_run p || is_dry_run_option o /\
  (is_run_option o = true -> seen_dry_run p = false) /\
  (is_dry_run_option o = true -> seen_run p = false).
Proof.
  intros H.
  destruct o; cbn [take_action] in H;
    repeat match type of H with
           | (if ?c then _ else _) = _ => destruct c eqn:?; [|try discriminate H]
           end;
    try discriminate H; injection H as <-;
    cbn [outside_choices is_run_option is_dry_run_option seen_run seen_dry_run];
    rewrite ?orb_false_r, ?orb_true_r;
    repeat split; try done;
    match goal with Hc : Py.str_in _ _ = true |- _ => by rewrite Hc end.
Qed.

Lemma take_action_usage_error (o : cli_option) (p : parser_state) :
  take_action o p = Usage_error ->
  outside_choices o = true
  \/ (is_run_option o = true /\ seen_dry_run p = true)
  \/ (is_dry_run_option o = true /\ seen_run p = true).
Proof.
  intros H.
  destruct o; cbn [take_action] in H;
    repeat match type of H with
           | (if ?c then _ else _) = _ => destruct c eqn:?
           end;
    try discriminate H;
    cbn [outside_choices is_run_option is_dry_run_option]; auto;
    left; match goal with Hc : Py.str_in _ _ = false |- _ => by rewrite Hc end.
Qed.

(** What the parser refuses, option by option from any point on. *)
Lemma consume_refused (argv : list cli_option) (p : parser_state) :
  ~ In Opt_help argv ->
  if existsb outside_choices argv
     || ((seen_run p || existsb is_run_option argv) && existsb is_dry_run_option argv)
     || ((seen_dry_run p || existsb is_dry_run_option argv)
         && existsb is_run_option argv)
  then consume argv p = Usage_error
  else exists r, consume argv p = Parsed r.
Proof.
  revert p. induction argv as [|o argv IH]; intros p Hn.
  - cbn [existsb consume]. rewrite !andb_false_r. by exists p.
  - assert (~ In Opt_help argv) as Hn' by (intros H; apply Hn; by right).
    cbn [existsb consume].
    destruct (take_action o p) as [p'| |] eqn:Ho.
    + destruct (take_action_parsed o p p' Ho) as (Ho1 & Hr & Hd & Hx1 & Hx2).
      assert (is_run_option o && is_dry_run_option o = false) as Hx3 by by destruct o.
      specialize (IH p' Hn'). rewrite Hr, Hd in IH. rewrite Ho1. revert IH Hx1 Hx2 Hx3.
      destruct (existsb outside_choices argv), (seen_run p), (seen_dry_run p),
        (is_run_option o), (is_dry_run_option o),
        (existsb is_run_option argv), (existsb is_dry_run_option argv);
        cbn [orb andb]; intros IH Hx1 Hx2 Hx3; try exact IH; try discriminate Hx3;
        try (by specialize (Hx1 eq_refl)); by specialize (Hx2 eq_refl).
    + apply take_action_usage_error in Ho as [-> | [[-> ->] | [-> ->]]];
        cbn [orb andb]; rewrite ?orb_true_r; cbn [orb andb]; try reflexivity;
        destruct (seen_run p || _), (seen_dry_run p || _), (outside_choices o),
          (existsb outside_choices argv), (existsb is_dry_run_option argv),
          (existsb is_run_option argv); reflexivity.
    + apply take_action_help in Ho as ->. exfalso. apply Hn. by left.
Qed.

Lemma parse_args_refused (argv : list cli_option) :
  ~ In Opt_help argv -> (parse_args argv = None <-> refused_by_parser argv = true).
Proof.
  intros Hn. pose proof (consume_refused argv (mkParser Namespace.defaults false false) Hn)
    as H.
  cbn [seen_run seen_dry_run orb] in H. unfold parse_args, refused_by_parser.
  revert H.
  destruct (existsb outside_choices argv), (existsb is_run_option argv),
    (existsb is_dry_run_option argv); cbn [orb andb];
    first [ intros -> | intros [r ->] ]; done.
Qed.

(** How [main] ends the process with a status other than 0. *)
Lemma main_nonzero_exit exec E (argv : list cli_option) (s : state) (c : Z)
    (s' : state) :
  main exec E argv s = (Exit c, s') -> c <> 0 ->
  (c = 2 /\ parse_args argv = None /\ s' = s) \/
  (c = 1 /\ st_fs s' = st_fs s /\
   exists a, parse_args argv = Some a /\ configs a = Some "create"
             /\ Py.truthy (run_arg a) = false).
Proof.
  unfold main, parse_args.
  destruct (consume argv _) as [p| |]; intros H Hc.
  - right. apply dispatch_nonzero_exit in H as (-> & ? & ? & ?); [|done].
    repeat split; try done. by exists (ns p).
  - left. by inversion H.
  - exfalso. revert H. mred. intros H. inversion H. congruence.
Qed.

(** C3 (amended). [--configs create] with neither [--run-arg] nor [--run] on
    the command line prints the error message, ends the process with status
    1 and leaves the file system as it was, so that neither unit file is
    written (the same holds in the handler for any options whose run-arg is
    missing or empty).  It is not the only validation of the input that ends
    the process: the argument parser ends it with status 2 when it refuses
    the command line, which without [-h] it does exactly for a value outside
    the choices an option declares and for [--run] together with
    [--dry-run].  These apart it is the only one: whenever the process ends
    with a status other than 0 and other than the parser's 2, the status is
    1, the options ask for [configs create], the run-arg is missing or
    empty, and the file system is untouched. *)
Theorem configs_create_requires_run_arg exec E :
  (forall argv a s u,
     parse_args argv = Some a -> configs a = Some "create" ->
     (forall v, ~ In (Opt_run_arg v) argv) -> (forall v, ~ In (Opt_run v) argv) ->
     dependencies a = None -> fst (detect_os E (os a) s) = Ret u ->
     main exec E argv s =
       (Exit 1, mkState (st_fs s)
                        (st_out s
                           ++ (if verbose a then ["Detected/Selected OS: " +:+ u] else [])
                           ++ ["Error: --configs create requires --run-arg"])
                        (st_spawned s))) /\
  (forall a s, configs a = Some "create" -> Py.truthy (run_arg a) = false ->
     handle_configs exec E a s =
       (Exit 1, mkState (st_fs s)
                        (st_out s ++ ["Error: --configs create requires --run-arg"])
                        (st_spawned s))) /\
  (forall argv s c s', main exec E argv s = (Exit c, s') -> c <> 0 ->
     (c = 2 /\ parse_args argv = None /\ s' = s) \/
     (c = 1 /\ st_fs s' = st_fs s /\
      exists a, parse_args argv = Some a /\ configs a = Some "create"
                /\ Py.truthy (run_arg a) = false)) /\
  (forall argv s, ~ In Opt_help argv ->
     (main exec E argv s = (Exit 2, s) <-> refused_by_parser argv = true)).
Proof.
  split; [|split; [|split]].
  - intros argv a s u Hp Hc Ha Hr Hd Hu.
    rewrite (main_parsed exec E argv a s Hp).
    apply dispatch_create_error; try done.
    apply parse_args_parsed in Hp as (p & Hcons & <-).
    by rewrite (consume_run_arg argv _ p Hcons Hr Ha).
  - intros a s. apply handle_configs_create_error.
  - intros argv s c s'. apply main_nonzero_exit.
  - intros argv s Hn. rewrite <- parse_args_refused by done. split.
    + intros H. apply main_nonzero_exit in H as [(_ & ? & _)|(? & _)]; done.
    + intros H. by apply main_usage_error.
Qed.

Lemma configs_create_requires_run_arg_witness :
  main Fixture.exec Fixture.E [Opt_verbose; Opt_configs "create"] Fixture.s =
    (Exit 1, mkState Fixture.fs
               ["Detected/Selected OS: arch";
                "Error: --configs create requires --run-arg"] []) /\
  main Fixture.exec Fixture.E [Opt_configs "create"; Opt_os "debian"] Fixture.s
    = (Exit 2, Fixture.s).
Proof.
  destruct (configs_create_requires_run_arg Fixture.exec Fixture.E)
    as (H1 & _ & _ & H4).
  split.
  - apply (H1 [Opt_verbose; Opt_configs "create"] _ Fixture.s "arch" eq_refl eq_refl).
    + intros v [H|[H|[]]]; discriminate H.
    + intros v [H|[H|[]]]; discriminate H.
    + reflexivity.
    + reflexivity.
  - apply H4; [|reflexivity]. intros [H|[H|[]]]; discriminate H.
Defined.

(** C3 as stated fails: [--os debian] is refused by the argument parser,
    which ends the process with status 2, and no [configs create] is
    involved. *)
Lemma parser_rejection_counterexample :
  ~ create_check_is_the_only_abort Fixture.exec Fixture.E.
Proof.
  intros H.
  destruct (H [Opt_os "debian"] Fixture.s 2 Fixture.s eq_refl ltac:(done))
    as (a & Ha & _).
  discriminate Ha.
Qed.

(** ** Unit files: life cycle *)

Lemma with_directory_at (p : string) (fs : gmap string node) :
  with_directory p fs !! p = match fs !! p with None => Some (Dir []) | Some n => Some n end.
Proof.
  unfold with_directory. destruct (fs !! p) eqn:L; [done|]. by rewrite lookup_insert_eq.
Qed.

Lemma with_directory_other (p q : string) (fs : gmap string node) :
  q <> p -> with_directory p fs !! q = fs !! q.
Proof.
  intros Hne. unfold with_directory. destruct (fs !! p); [done|].
  by rewrite lookup_insert_ne.
Qed.

Lemma with_unit_dir_systemd_dir E (fs : gmap string node) :
  os.path.exists_ (with_unit_dir E fs) (systemd_dir E) = true.
Proof.
  destruct (unit_paths E) as (base & H1 & H2 & H3 & _).
  unfold os.path.exists_, with_unit_dir.
  rewrite with_directory_other by (rewrite H2, H3; unit_path_ne).
  rewrite with_directory_at.
  by destruct (with_directory (config_dir E) fs !! systemd_dir E).
Qed.

(** Where the unit directory is there already, there is nothing to make. *)
Lemma with_unit_dir_present E (fs : gmap string node) :
  fs_consistent fs -> os.path.isdir fs (systemd_user_dir E) = true ->
  with_unit_dir E fs = fs.
Proof.
  intros Hc H3.
  destruct (unit_paths_consistent E fs Hc) as (_ & C2 & C3 & _).
  assert (forall p, os.path.isdir fs p = true -> os.path.exists_ fs p = true) as Hde.
  { intros p. unfold os.path.isdir, os.path.exists_.
    by destruct (fs !! p) as [[?|??|?]|]. }
  pose proof (C3 (Hde _ H3)) as H2. pose proof (C2 (Hde _ H2)) as H1.
  revert H1 H2 H3. unfold with_unit_dir, with_directory, os.path.isdir.
  destruct (fs !! config_dir E) as [[?|??|?]|]; try done.
  destruct (fs !! systemd_dir E) as [[?|??|?]|]; try done.
  by destruct (fs !! systemd_user_dir E) as [[?|??|?]|].
Qed.

(** X5. [configs create] overwrites: after two creations in a row, with
    whatever options each, on a file system where nothing stands in the way,
    the file system is the one the second creation alone would have left
    (the directories leading to the unit files made where they were missing,
    both files holding the second content), and each creation reports its
    five lines.  Nothing of the first creation's content survives. *)
Theorem create_overwrites exec E (a1 a2 : Args) (s : state) :
  configs a1 = Some "create" -> Py.truthy (run_arg a1) = true ->
  configs a2 = Some "create" -> Py.truthy (run_arg a2) = true ->
  units_writable E (st_fs s) ->
  (handle_configs exec E a1;; handle_configs exec E a2) s
  = (Ret tt, mkState (fs_after_create E a2 (st_fs s))
                     (st_out s ++ create_report E ++ create_report E)
                     (st_spawned s)) /\
  handle_configs exec E a2 s
  = (Ret tt, mkState (fs_after_create E a2 (st_fs s))
                     (st_out s ++ create_report E) (st_spawned s)).
Proof.
  intros Hc1 Hr1 Hc2 Hr2 Hw.
  pose proof (service_ne_timer E) as Hst.
  pose proof (service_ne_dir E) as Hsd.
  pose proof (timer_ne_dir E) as Htd.
  destruct (unit_paths E) as (base & H1 & H2 & H3 & H4 & H5 & _).
  split; [|by rewrite handle_configs_create, create_service_and_timer_run].
  rewrite bind_unfold, handle_configs_create, create_service_and_timer_run by done.
  rewrite handle_configs_create by done.
  destruct (fs_after_create_lookup E a1 (st_fs s)) as (Hl1 & Hl2 & Hl3).
  destruct Hw as (_ & _ & _ & _ & F3 & _).
  set (s1 := mkState (fs_after_create E a1 (st_fs s)) (st_out s ++ create_report E)
                     (st_spawned s)).
  assert (makedirs (systemd_user_dir E) s1 = (Ret tt, s1)) as Hm.
  { apply makedirs_unit_dir_present; cbn [s1 st_fs].
    - unfold os.path.exists_. rewrite Hl3 by (rewrite ?H2, ?H4, ?H5; unit_path_ne).
      apply with_unit_dir_systemd_dir.
    - unfold os.path.isdir. rewrite Hl3 by done. by apply with_unit_dir_isdir. }
  rewrite (create_after_makedirs E a2 s1 s1 Hm); cbn [s1 st_fs st_out st_spawned].
  - f_equal. f_equal; [|by rewrite <- app_assoc].
    unfold mode_after_write at 1 2. rewrite Hl1, Hl2.
    unfold fs_after_create.
    rewrite insert_insert_ne, insert_insert_eq by done.
    rewrite (insert_insert_ne _ (service_file E) (timer_file E)) by done.
    by rewrite insert_insert_eq.
  - unfold os.path.isdir. rewrite Hl3 by done. by apply with_unit_dir_isdir.
  - unfold free_or_file. by rewrite Hl1.
  - unfold free_or_file. by rewrite Hl2.
Qed.

Lemma create_overwrites_witness :
  let a1 := Namespace.set_run_arg (Some "jobs")
              (Namespace.set_configs (Some "create") Fixture.quiet) in
  let a2 := Namespace.set_OnCalendar (Some "09:00:00")
              (Namespace.set_run_arg (Some "/tmp/x")
                 (Namespace.set_configs (Some "create") Fixture.quiet)) in
  st_fs (snd ((handle_configs Fixture.exec Fixture.E a1;;
               handle_configs Fixture.exec Fixture.E a2) Fixture.s))
  = st_fs (snd (handle_configs Fixture.exec Fixture.E a2 Fixture.s)).
Proof.
  intros a1 a2.
  destruct (create_overwrites Fixture.exec Fixture.E a1 a2 Fixture.s
              eq_refl eq_refl eq_refl eq_refl fixture_units_writable) as [-> ->].
  reflexivity.
Defined.

Lemma handle_configs_delete exec E (a : Args) (s : state) :
  configs a = Some "delete" ->
  handle_configs exec E a s =
    (fs ← get_fs;
     (if os.path.exists_ fs (service_file E) then
        remove (service_file E);;
        print ("Deleted service file: " +:+ service_file E)
      else mret tt);;
     fs ← get_fs;
     (if os.path.exists_ fs (timer_file E) then
        remove (timer_file E);;
        print ("Deleted timer file: " +:+ timer_file E)
      else mret tt)) s.
Proof. intros Hc. unfold handle_configs. rewrite Hc. reflexivity. Qed.

(** X6. [configs delete] removes the two unit files and nothing else: after
    it neither unit path exists, every other path is as before, and one
    confirmation is printed for each file that was there, the service first.
    When neither file exists it prints nothing and changes nothing.  A unit
    path that is a directory is not removed: [os.remove] raises. *)
Theorem configs_delete_removes_units exec E (a : Args) (s : state) :
  configs a = Some "delete" ->
  (os.path.isdir (st_fs s) (service_file E) = false ->
   os.path.isdir (st_fs s) (timer_file E) = false ->
     handle_configs exec E a s =
       (Ret tt,
        mkState (delete (timer_file E) (delete (service_file E) (st_fs s)))
                (st_out s
                   ++ (if os.path.exists_ (st_fs s) (service_file E)
                       then ["Deleted service file: " +:+ service_file E] else [])
                   ++ (if os.path.exists_ (st_fs s) (timer_file E)
                       then ["Deleted timer file: " +:+ timer_file E] else []))
                (st_spawned s))) /\
  (st_fs s !! service_file E = None -> st_fs s !! timer_file E = None ->
     handle_configs exec E a s = (Ret tt, s)) /\
  (os.path.isdir (st_fs s) (service_file E) = true ->
     handle_configs exec E a s = (Raise IsADirectoryError, s)).
Proof.
  intros Hc. pose proof (service_ne_timer E) as Hst.
  rewrite handle_configs_delete by done.
  unfold os.path.isdir, os.path.exists_. split; [|split].
  - intros Hs Ht.
    destruct (st_fs s !! service_file E) as [[?|??|?]|] eqn:Hsvc; [done| | |];
      destruct (st_fs s !! timer_file E) as [[?|??|?]|] eqn:Htim; try done;
      repeat (mred; rewrite ?Hsvc, ?lookup_delete_ne, ?Htim by done);
      rewrite ?(delete_id _ (service_file E)) by done;
      rewrite ?(delete_id _ (timer_file E)) by (by rewrite ?lookup_delete_ne);
      rewrite ?app_nil_r, <- ?app_assoc; try reflexivity.
    by destruct s.
  - intros Hs Ht. mred. rewrite Hs. mred. by rewrite Ht.
  - intros Hs. destruct (st_fs s !! service_file E) as [[?|??|?]|] eqn:Hsvc; try done.
    repeat (mred; rewrite ?Hsvc). reflexivity.
Qed.

Lemma configs_delete_removes_units_witness :
  handle_configs Fixture.exec Fixture.E
    (Namespace.set_configs (Some "delete") Fixture.quiet) Fixture.s
  = (Ret tt, Fixture.s).
Proof.
  apply (proj1 (proj2 (configs_delete_removes_units Fixture.exec Fixture.E
                         (Namespace.set_configs (Some "delete") Fixture.quiet)
                         Fixture.s eq_refl))); reflexivity.
Defined.

Lemma configs_delete_fs exec E (a : Args) (s : state) :
  configs a = Some "delete" ->
  os.path.isdir (st_fs s) (service_file E) = false ->
  os.path.isdir (st_fs s) (timer_file E) = false ->
  exists out,
    handle_configs exec E a s =
      (Ret tt, mkState (delete (timer_file E) (delete (service_file E) (st_fs s)))
                       out (st_spawned s)).
Proof.
  intros Hc. pose proof (service_ne_timer E) as Hst.
  rewrite handle_configs_delete by done.
  unfold os.path.isdir, os.path.exists_. intros Hs Ht.
  destruct (st_fs s !! service_file E) as [[?|??|?]|] eqn:Hsvc; [done| | |];
    destruct (st_fs s !! timer_file E) as [[?|??|?]|] eqn:Htim; try done;
    repeat (mred; rewrite ?Hsvc, ?lookup_delete_ne, ?Htim by done);
    rewrite ?(delete_id _ (service_file E)) by done;
    rewrite ?(delete_id _ (timer_file E)) by (by rewrite ?lookup_delete_ne);
    try (eexists; reflexivity).
  exists (st_out s). by destruct s.
Qed.

(** X7. Deleting undoes creating: on a file system where nothing stands in
    the way of creating and neither unit file exists, [configs create]
    followed by [configs delete] returns normally, starts no process, and
    leaves of the creation only the directories [os.makedirs] had to make:
    [.config], [.config/systemd] and [.config/systemd/user] under the home
    directory, each where it was missing.  When the unit directory was there
    already, the file system is exactly as it was. *)
Theorem create_then_delete_restores exec E (ac ad : Args) (s : state) :
  configs ac = Some "create" -> Py.truthy (run_arg ac) = true ->
  configs ad = Some "delete" ->
  units_writable E (st_fs s) ->
  st_fs s !! service_file E = None -> st_fs s !! timer_file E = None ->
  exists s',
    (handle_configs exec E ac;; handle_configs exec E ad) s = (Ret tt, s') /\
    st_fs s' = with_unit_dir E (st_fs s) /\
    st_spawned s' = st_spawned s /\
    (os.path.isdir (st_fs s) (systemd_user_dir E) = true -> st_fs s' = st_fs s).
Proof.
  intros Hc Hr Hdel Hw Hs Ht.
  pose proof (service_ne_timer E) as Hst.
  destruct (unit_paths E) as (base & H1 & H2 & H3 & H4 & H5 & _).
  rewrite bind_unfold, handle_configs_create by done.
  rewrite create_service_and_timer_run by done.
  destruct (fs_after_create_lookup E ac (st_fs s)) as (Hl1 & Hl2 & _).
  destruct (configs_delete_fs exec E ad
              (mkState (fs_after_create E ac (st_fs s))
                       (st_out s ++ create_report E) (st_spawned s)) Hdel)
    as (out & ->); cbn [st_fs]; [unfold os.path.isdir; by rewrite Hl1
                                |unfold os.path.isdir; by rewrite Hl2|].
  eexists. split; [reflexivity|]. cbn [st_fs st_spawned].
  assert (delete (timer_file E) (delete (service_file E) (fs_after_create E ac (st_fs s)))
          = with_unit_dir E (st_fs s)) as ->.
  { unfold fs_after_create.
    rewrite delete_insert_ne, delete_insert_eq by done.
    rewrite delete_insert_eq.
    rewrite (delete_id _ (service_file E)), (delete_id _ (timer_file E)); [done| |].
    - rewrite with_unit_dir_lookup by (rewrite ?H1, ?H2, ?H3, H5; unit_path_ne). done.
    - rewrite with_unit_dir_lookup by (rewrite ?H1, ?H2, ?H3, H4; unit_path_ne). done. }
  split; [done|]. split; [done|].
  destruct Hw as (Hcons & _). by apply with_unit_dir_present.
Qed.

Lemma create_then_delete_restores_witness :
  let ac := Namespace.set_run_arg (Some "jobs")
              (Namespace.set_configs (Some "create") Fixture.quiet) in
  let ad := Namespace.set_configs (Some "delete") Fixture.quiet in
  exists s',
    (handle_configs Fixture.exec Fixture.E ac;;
     handle_configs Fixture.exec Fixture.E ad) Fixture.s = (Ret tt, s') /\
    st_fs s' = <["/home/u/.config/systemd/user" := Dir []]>
                 (<["/home/u/.config/systemd" := Dir []]>
                    (<["/home/u/.config" := Dir []]> Fixture.fs)).
Proof.
  intros ac ad.
  destruct (create_then_delete_restores Fixture.exec Fixture.E ac ad Fixture.s
              eq_refl eq_refl eq_refl fixture_units_writable eq_refl eq_refl)
    as (s' & H1 & H2 & _).
  exists s'. split; [exact H1 | exact H2].
Defined.

(** X8. When the file system (a consistent one, as every file system is)
    stands in the way, [create_service_and_timer] stops with the exception
    and prints nothing.  A regular file in the place
    of the unit directory: nothing at all is changed.  A directory in the
    place of the service file: neither unit file is written.  A directory in
    the place of the timer file only: the service file has already been
    written when the exception comes, so a service without its timer is left
    behind.  A regular file in the place of [.config] under the home
    directory: no directory can be made beneath it, and nothing at all is
    changed. *)
Theorem create_failure_modes E (a : Args) (s : state) :
  fs_consistent (st_fs s) ->
  (os.path.isfile (st_fs s) (systemd_user_dir E) = true ->
     create_service_and_timer E a s = (Raise FileExistsError, s)) /\
  (os.path.isfile (st_fs s) (systemd_user_dir E) = false ->
   os.path.isdir (st_fs s) (service_file E) = true ->
     exists s', create_service_and_timer E a s = (Raise IsADirectoryError, s') /\
       st_out s' = st_out s /\
       st_fs s' !! service_file E = st_fs s !! service_file E /\
       st_fs s' !! timer_file E = st_fs s !! timer_file E) /\
  (os.path.isfile (st_fs s) (systemd_user_dir E) = false ->
   free_or_file (st_fs s) (service_file E) = true ->
   os.path.isdir (st_fs s) (timer_file E) = true ->
     exists s', create_service_and_timer E a s = (Raise IsADirectoryError, s') /\
       st_out s' = st_out s /\
       st_fs s' !! service_file E
         = Some (File (mode_after_write (st_fs s) (service_file E))
                      (Py.join Py.LF (service_content E a))) /\
       st_fs s' !! timer_file E = st_fs s !! timer_file E) /\
  (os.path.isfile (st_fs s) (config_dir E) = true ->
     create_service_and_timer E a s = (Raise NotADirectoryError, s)).
Proof.
  intros Hcons.
  pose proof (service_ne_timer E) as Hst.
  pose proof (service_ne_dir E) as Hsd.
  pose proof (timer_ne_dir E) as Htd.
  destruct (unit_paths_consistent E (st_fs s) Hcons) as (_ & C2 & C3 & C4 & C5).
  destruct (unit_paths_dirname E) as (_ & _ & _ & (P4 & P4a) & P5).
  assert (forall p, os.path.isdir (st_fs s) p = true ->
                    os.path.exists_ (st_fs s) p = true) as Hde.
  { intros p. unfold os.path.isdir, os.path.exists_.
    by destruct (st_fs s !! p) as [[?|??|?]|]. }
  assert (forall p, os.path.isfile (st_fs s) p = true ->
                    os.path.exists_ (st_fs s) p = true
                    /\ os.path.isdir (st_fs s) p = false) as Hfe.
  { intros p. unfold os.path.isfile, os.path.isdir, os.path.exists_.
    by destruct (st_fs s !! p) as [[?|??|?]|]. }
  assert (os.path.isdir (st_fs s) (systemd_user_dir E) = true ->
          makedirs (systemd_user_dir E) s = (Ret tt, s)) as Hthere.
  { intros H3. apply makedirs_unit_dir_present; [|done]. by apply Hde, C3, Hde. }
  split; [|split; [|split]].
  - intros [Hex Hnd]%Hfe. unfold create_service_and_timer.
    by rewrite bind_unfold, makedirs_unit_dir_taken.
  - intros _ Hs. unfold create_service_and_timer.
    rewrite bind_unfold, Hthere by by apply C4, Hde.
    revert Hs. unfold os.path.isdir.
    destruct (st_fs s !! service_file E) as [[?|??|?]|] eqn:Hsvc; try done. intros _.
    repeat (mred; rewrite ?Hsvc). by eexists.
  - intros _ Hs Ht. unfold create_service_and_timer.
    rewrite bind_unfold, Hthere by by apply C5, Hde.
    pose proof (C5 (Hde _ Ht)) as Hdir.
    apply String.eqb_neq in P4a.
    revert Hs Ht Hdir. unfold os.path.isdir, free_or_file, mode_after_write.
    destruct (st_fs s !! systemd_user_dir E) as [[?|??|?]|] eqn:Ldir; try done.
    destruct (st_fs s !! service_file E) as [[?|??|?]|] eqn:Hsvc; try done;
      destruct (st_fs s !! timer_file E) as [[?|??|?]|] eqn:Htim; try done;
      intros _ _ _;
      repeat (first [ progress mred
                    | rewrite Hsvc | rewrite Htim | rewrite Ldir
                    | rewrite P4 | rewrite P4a
                    | rewrite lookup_insert_ne by done ]);
      eexists; (split; [reflexivity|]); cbn [st_fs st_out];
      rewrite ?lookup_insert_eq, ?lookup_insert_ne by done; done.
  - intros [Hex Hnd]%Hfe. unfold create_service_and_timer.
    rewrite bind_unfold, (makedirs_unit_dir_beneath E s (config_dir E)); auto.
Qed.

Lemma create_failure_modes_witness :
  create_service_and_timer Fixture.E Fixture.quiet
    (mkState (<["/home/u/.config" := File 420 "in the way"]> Fixture.fs) [] [])
  = (Raise NotADirectoryError,
     mkState (<["/home/u/.config" := File 420 "in the way"]> Fixture.fs) [] []) /\
  (let fs := <["/home/u/.config/systemd/user" := File 420 "in the way"]>
               (<["/home/u/.config/systemd" := Dir ["user"]]>
                  (<["/home/u/.config" := Dir ["systemd"]]> Fixture.fs)) in
   create_service_and_timer Fixture.E Fixture.quiet (mkState fs [] [])
   = (Raise FileExistsError, mkState fs [] [])).
Proof.
  split.
  - apply (proj2 (proj2 (proj2
             (create_failure_modes Fixture.E Fixture.quiet
                (mkState (<["/home/u/.config" := File 420 "in the way"]> Fixture.fs)
                         [] [])
                ltac:(apply fs_consistentb_spec; by vm_compute))))).
    reflexivity.
  - intros fs.
    apply (proj1 (create_failure_modes Fixture.E Fixture.quiet (mkState fs [] [])
                    ltac:(apply fs_consistentb_spec; by vm_compute))).
    reflexivity.
Defined.

(** ** Editing the unit files *)

Lemma edit_file_in_editor_run exec E (p : string) (s : state) :
  edit_file_in_editor exec E p s =
  match chosen_editor E with
  | Some editor => subprocess_run exec (Direct [editor; p]) s
  | None => print "No suitable editor found! Please set $EDITOR." s
  end.
Proof.
  unfold edit_file_in_editor, chosen_editor, shutil_which.
  destruct (env_environ E !! "EDITOR") as [[|c e]|]; cbn [default String.eqb find];
    try reflexivity;
    destruct (Py.truthy (env_which E !! "nano")); cbn [default String.eqb find];
    try reflexivity;
    destruct (Py.truthy (env_which E !! "vi")); reflexivity.
Qed.

(** X9. The edit actions never start an editor on a unit file that does not
    exist: they print that the file was not found and return.  On a file
    that exists they start exactly one process, the editor with the file as
    its argument, where the editor is a non-empty [$EDITOR], else nano if it
    is on the search path, else vi if it is; with none of these they print
    the advice to set [$EDITOR] and start nothing. *)
Theorem edit_starts_the_chosen_editor exec E (a : Args) (s : state)
    (which : string) (file : string) (label : string) :
  (which = "edit-service" /\ file = service_file E /\ label = "Service"
   \/ which = "edit-timer" /\ file = timer_file E /\ label = "Timer") ->
  configs a = Some which ->
  (st_fs s !! file = None ->
     handle_configs exec E a s =
       (Ret tt, mkState (st_fs s)
                        (st_out s ++ [label +:+ " file not found: " +:+ file])
                        (st_spawned s))) /\
  (st_fs s !! file <> None ->
     (forall editor, chosen_editor E = Some editor ->
        handle_configs exec E a s = subprocess_run exec (Direct [editor; file]) s /\
        st_spawned (snd (handle_configs exec E a s))
          = st_spawned s ++ [Direct [editor; file]]) /\
     (chosen_editor E = None ->
        handle_configs exec E a s =
          (Ret tt, mkState (st_fs s)
                     (st_out s ++ ["No suitable editor found! Please set $EDITOR."])
                     (st_spawned s)))).
Proof.
  intros Hw Hc.
  assert (handle_configs exec E a s =
          (fs ← get_fs;
           if negb (os.path.exists_ fs file) then
             print (label +:+ " file not found: " +:+ file)
           else edit_file_in_editor exec E file) s) as ->.
  { unfold handle_configs. rewrite Hc.
    by destruct Hw as [(-> & -> & ->)|(-> & -> & ->)]. }
  rewrite get_fs_run. unfold os.path.exists_. split.
  - by intros ->.
  - intros Hex. destruct (st_fs s !! file); [|done]. cbn [negb].
    rewrite edit_file_in_editor_run. split.
    + intros editor ->. split; [reflexivity|]. unfold subprocess_run.
      by destruct (exec _ _) as [[??]|].
    + by intros ->.
Qed.

Lemma edit_starts_the_chosen_editor_witness :
  handle_configs Fixture.exec Fixture.E
    (Namespace.set_configs (Some "edit-timer") Fixture.quiet) Fixture.s
  = (Ret tt, mkState Fixture.fs
       ["Timer file not found: /home/u/.config/systemd/user/daily_by_hostname.timer"]
       []).
Proof.
  apply (proj1 (edit_starts_the_chosen_editor Fixture.exec Fixture.E
                  (Namespace.set_configs (Some "edit-timer") Fixture.quiet) Fixture.s
                  "edit-timer" (timer_file Fixture.E) "Timer"
                  (or_intror (conj eq_refl (conj eq_refl eq_refl))) eq_refl)).
  reflexivity.
Defined.

(** ** The dependency check *)

Lemma for_each_ext {A} (f g : A -> M unit) (l : list A) (s : state) :
  (forall x s0, f x s0 = g x s0) -> for_each l f s = for_each l g s.
Proof.
  intros H. revert s. induction l as [|x l IH]; intros s; [done|].
  cbn [for_each]. rewrite !bind_unfold, H.
  destruct (g x s) as [[[]|?|?] ?]; auto.
Qed.

Lemma ok_line_is_not_miss_line (cmd p q : string) :
  "[OK]   " +:+ p <> "[MISS] " +:+ q.
Proof. discriminate. Qed.

(** X10. [check_dependencies] prints one line for each of systemctl, bash and
    nano, in that order, then a closing line when verbose; it changes no file
    and starts no process.  A command is reported as missing exactly when
    the install advice of [--dependencies script] has a line for it. *)
Theorem check_and_suggest_agree E (v : bool) (s : state) :
  check_dependencies E v s =
    (Ret tt,
     mkState (st_fs s)
       (st_out s ++ map (dependency_line E) ["systemctl"; "bash"; "nano"]
                 ++ (if v then ["Dependency check finished."] else []))
       (st_spawned s)) /\
  (forall cmd, In cmd ["systemctl"; "bash"; "nano"] ->
     (dependency_line E cmd = "[MISS] " +:+ cmd +:+ " NOT found"
      <-> In cmd (missing_commands E)) /\
     (forall u, In cmd (missing_commands E) <->
        In ("  " +:+ package_manager u +:+ " " +:+ cmd) (suggestions E v u))).
Proof.
  split.
  - unfold check_dependencies. cbv zeta. rewrite bind_unfold.
    rewrite (for_each_ext _ (fun cmd => print (dependency_line E cmd))).
    + rewrite for_each_print, when_print_run. cbn [st_fs st_out st_spawned].
      by rewrite <- app_assoc.
    + intros cmd s0. unfold dependency_line, shutil_which.
      by destruct (env_which E !! cmd) as [[|??]|].
  - intros cmd Hin. split.
    + unfold missing_commands. rewrite filter_In. unfold dependency_line.
      destruct (env_which E !! cmd) as [[|c p]|]; cbn [Py.truthy negb];
        split; try tauto; try (intros [_ ?]; discriminate).
      intros H. exfalso. revert H. apply (ok_line_is_not_miss_line cmd).
    + intros u. unfold suggestions.
      destruct (missing_commands E) as [|m ms] eqn:Hm.
      * split; [done|]. intros [H|[]]. exfalso. revert H.
        destruct Hin as [<-|[<-|[<-|[]]]]; unfold package_manager;
          repeat case_match; discriminate.
      * rewrite <- Hm. clear Hm. rewrite !in_app_iff, in_map_iff. split.
        -- intros H. right. left. by exists cmd.
        -- intros [H|[H|H]].
           ++ exfalso. destruct H as [H|[]]. revert H. unfold package_manager.
              repeat case_match; discriminate.
           ++ destruct H as (c' & Heq & Hc').
              apply (inj (String.app _)) in Heq.
              apply (inj (String.app _)) in Heq.
              apply (inj (String.app _)) in Heq. by subst.
           ++ exfalso. destruct v; [|done]. destruct H as [H|[]]. revert H.
              unfold package_manager. repeat case_match; discriminate.
Qed.

Lemma check_and_suggest_agree_witness :
  In "nano" (missing_commands Fixture.E) /\
  In "  sudo pacman -S nano" (suggestions Fixture.E false "arch").
Proof.
  destruct (proj2 (check_and_suggest_agree Fixture.E false Fixture.s) "nano")
    as [H1 H2].
  { simpl. tauto. }
  split.
  - apply H1. reflexivity.
  - apply (H2 "arch"), H1. reflexivity.
Defined.

(** ** The runner: which processes it starts *)

(** In a real run over a directory, the processes started are entries of the
    listing, as direct executions, in the order of the loop and each at most
    once, whatever the processes themselves do to the file system. *)
Lemma real_run_loop_spawns exec (a : Args) (d : string) (l : list string) (s : state) :
  exists items,
    items `sublist_of` l /\
    st_spawned (snd (for_each l (fun item =>
      fs ← get_fs;
      if os.path.isfile fs (os.path.join d item)
         && is_executable_file fs (os.path.join d item) then
        when (verbose a)
          (print ("Found executable script: " +:+ os.path.join d item));;
        print ("Running: '" +:+ os.path.join d item +:+ "'");;
        subprocess_run exec (Direct [os.path.join d item])
      else mret tt) s))
    = st_spawned s ++ map (fun item => Direct [os.path.join d item]) items.
Proof.
  match goal with |- context [for_each _ ?b _] => set (body := b) end.
  assert (forall x s0,
    body x s0 =
    if is_executable_file (st_fs s0) (os.path.join d x) then
      subprocess_run exec (Direct [os.path.join d x])
        (mkState (st_fs s0)
           ((st_out s0
               ++ (if verbose a
                   then ["Found executable script: " +:+ os.path.join d x] else []))
              ++ ["Running: '" +:+ os.path.join d x +:+ "'"])
           (st_spawned s0))
    else (Ret tt, s0)) as Hbody.
  { intros x s0. unfold body. rewrite get_fs_run, isfile_and_executable.
    destruct (is_executable_file (st_fs s0) (os.path.join d x)); [|done].
    by rewrite bind_unfold, when_print_run, print_run. }
  clearbody body. revert s. induction l as [|x l IH]; intros s.
  - exists []. split; [constructor|]. simpl. by rewrite app_nil_r.
  - cbn [for_each]. rewrite bind_unfold, Hbody.
    destruct (is_executable_file (st_fs s) (os.path.join d x)).
    + unfold subprocess_run. cbn [st_fs st_out st_spawned].
      destruct (exec (Direct [os.path.join d x]) (st_fs s)) as [[fs' o]|].
      * match goal with |- context [for_each l body ?s1] =>
          destruct (IH s1) as (items & Hsub & ->) end.
        exists (x :: items). split; [by constructor|].
        cbn [st_spawned map]. by rewrite <- app_assoc.
      * exists [x]. split; [|reflexivity].
        constructor. apply sublist_nil_l.
    + destruct (IH s) as (items & Hsub & ->).
      exists items. split; [by constructor|done].
Qed.

(** X11. In a real run the shell is used exactly for a target that is neither
    a regular file nor a directory: a path where nothing is, but also a FIFO,
    a socket or a device that is there.  Such a target is handed to the shell
    as it is, and that is the one process started.  When the target is a
    regular file the runner starts exactly one process, directly: the file
    itself when it is executable, [bash] with the file as its argument when
    it is not.  When the target is a directory every process it starts is
    the direct execution of an entry of the listing, taken in ascending
    order of the names and each at most once, whatever the started processes
    do. *)
Theorem shell_only_for_other_targets exec (a : Args) (target : string) (s : state) :
  (os.path.isdir (st_fs s) target = false ->
   os.path.isfile (st_fs s) target = true ->
     st_spawned (snd (run_commands exec a target false s))
     = st_spawned s
         ++ [Direct (if is_executable_file (st_fs s) target
                     then [target] else ["bash"; target])]) /\
  (os.path.isdir (st_fs s) target = true ->
     exists items,
       items `sublist_of` Py.sorted (os.listdir (st_fs s) target) /\
       st_spawned (snd (run_commands exec a target false s))
       = st_spawned s ++ map (fun item => Direct [os.path.join target item]) items) /\
  (os.path.isdir (st_fs s) target = false ->
   os.path.isfile (st_fs s) target = false ->
     run_commands exec a target false s = subprocess_run exec (Shell target) s /\
     st_spawned (snd (run_commands exec a target false s))
     = st_spawned s ++ [Shell target]) /\
  (forall r, st_fs s !! target = Some (Other r) ->
     os.path.exists_ (st_fs s) target = true /\
     st_spawned (snd (run_commands exec a target false s))
     = st_spawned s ++ [Shell target]).
Proof.
  assert (os.path.isdir (st_fs s) target = false ->
          os.path.isfile (st_fs s) target = false ->
          run_commands exec a target false s = subprocess_run exec (Shell target) s /\
          st_spawned (snd (run_commands exec a target false s))
          = st_spawned s ++ [Shell target]) as Hshell.
  { unfold run_commands. rewrite !get_fs_run. intros -> ->.
    split; [reflexivity|]. unfold subprocess_run. by destruct (exec _ _) as [[??]|]. }
  split; [|split; [|split; [exact Hshell|]]].
  - unfold run_commands. rewrite !get_fs_run.
    intros -> ->. destruct (is_executable_file (st_fs s) target).
    + rewrite print_run. unfold subprocess_run. cbn [st_fs st_spawned].
      by destruct (exec _ _) as [[??]|].
    + rewrite bind_unfold, when_print_run. unfold subprocess_run.
      cbn [st_fs st_spawned]. by destruct (exec _ _) as [[??]|].
  - unfold run_commands. rewrite !get_fs_run.
    intros ->. apply real_run_loop_spawns.
  - intros r Hr. split; [unfold os.path.exists_; by rewrite Hr|].
    apply Hshell; unfold os.path.isdir, os.path.isfile; by rewrite Hr.
Qed.

Lemma shell_only_for_other_targets_witness :
  st_spawned (snd (run_commands Fixture.exec Fixture.quiet "jobs/notes.txt" false
                                Fixture.s))
  = [Direct ["bash"; "jobs/notes.txt"]] /\
  st_spawned (snd (run_commands Fixture.exec Fixture.quiet "/run/pipe" false
                     (mkState (<["/run/pipe" := Other None]> Fixture.fs) [] [])))
  = [Shell "/run/pipe"].
Proof.
  split.
  - apply (proj1 (shell_only_for_other_targets Fixture.exec Fixture.quiet
                    "jobs/notes.txt" Fixture.s)); reflexivity.
  - destruct (proj2 (proj2 (proj2
               (shell_only_for_other_targets Fixture.exec Fixture.quiet "/run/pipe"
                  (mkState (<["/run/pipe" := Other None]> Fixture.fs) [] []))))
               None) as [_ H]; [reflexivity | exact H].
Defined.

Lemma for_each_app {A} (l1 l2 : list A) (body : A -> M unit) (s : state) :
  for_each (l1 ++ l2) body s = (for_each l1 body;; for_each l2 body) s.
Proof.
  revert s. induction l1 as [|x l1 IH]; intros s; [done|].
  cbn [app for_each]. rewrite !bind_unfold.
  destruct (body x s) as [[[]|?|?] s1]; [|done|done].
  by rewrite IH, bind_unfold.
Qed.

(** X12. A process that cannot be started ends the run: when, in a real run
    over a directory, the first executable entry [e] fails to start, the
    exception leaves the runner at once, after the line announcing [e], and
    the entries after [e] are not started, executable or not. *)
Theorem spawn_failure_stops_the_run exec (a : Args) (d e : string)
    (before after : list string) (s : state) :
  os.path.isdir (st_fs s) d = true ->
  Py.sorted (os.listdir (st_fs s) d) = before ++ e :: after ->
  (forall x, In x before -> is_executable_file (st_fs s) (os.path.join d x) = false) ->
  is_executable_file (st_fs s) (os.path.join d e) = true ->
  exec (Direct [os.path.join d e]) (st_fs s) = None ->
  run_commands exec a d false s =
    (Raise OSError,
     mkState (st_fs s)
       (st_out s
          ++ (if verbose a
              then ["Found executable script: " +:+ os.path.join d e] else [])
          ++ ["Running: '" +:+ os.path.join d e +:+ "'"])
       (st_spawned s ++ [Direct [os.path.join d e]])).
Proof.
  intros Hdir Hsort Hbefore He Hfail.
  unfold run_commands. rewrite get_fs_run, Hdir, Hsort, for_each_app, bind_unfold.
  rewrite for_each_skip.
  - cbn [for_each]. rewrite bind_unfold, get_fs_run. cbv zeta.
    rewrite isfile_and_executable, He.
    rewrite bind_unfold, when_print_run, print_run. unfold subprocess_run.
    cbn [st_fs st_out st_spawned]. rewrite Hfail. by rewrite <- app_assoc.
  - intros x Hx. rewrite get_fs_run. cbv zeta.
    rewrite isfile_and_executable, Hbefore; [done|]. by apply list_elem_of_In.
Qed.

Lemma spawn_failure_stops_the_run_witness :
  run_commands Broken.exec Fixture.quiet "jobs" false Fixture.s
  = (Raise OSError,
     mkState Fixture.fs ["Running: 'jobs/run.sh'"] [Direct ["jobs/run.sh"]]).
Proof.
  apply (spawn_failure_stops_the_run Broken.exec Fixture.quiet "jobs" "run.sh"
           ["notes.txt"] ["sub"] Fixture.s).
  - reflexivity.
  - reflexivity.
  - intros x [<-|[]]. reflexivity.
  - reflexivity.
  - reflexivity.
Defined.

(** ** OS detection: range *)

(** X13. For a selection the parser lets through, OS detection leaves the
    state as it was, and when it returns it returns "arch", "ubuntu" or
    "unknown" and nothing else.  It can fail under "auto" only, by an error
    of reading /etc/os-release, and never by [FileNotFoundError], which it
    catches.  Under "auto" the answer depends on what the file holds only up
    to letter case. *)
Theorem detect_os_range E (sel : string) (s : state) :
  Py.str_in sel ["auto"; "arch"; "ubuntu"] = true ->
  ((exists u, detect_os E sel s = (Ret u, s) /\ In u ["arch"; "ubuntu"; "unknown"])
   \/ (exists e, detect_os E sel s = (Raise e, s)
                 /\ sel = "auto" /\ e <> FileNotFoundError)) /\
  (forall s' m c m' c',
     st_fs s !! "/etc/os-release" = Some (File m c) ->
     st_fs s' !! "/etc/os-release" = Some (File m' c') ->
     Py.utf8_valid c = true -> Py.utf8_valid c' = true ->
     Py.lower c = Py.lower c' ->
     fst (detect_os E "auto" s) = fst (detect_os E "auto" s')).
Proof.
  intros Hsel. split.
  - assert (sel = "auto" \/ sel = "arch" \/ sel = "ubuntu") as [-> | [-> | ->]].
    { revert Hsel. unfold Py.str_in. simpl.
      rewrite !orb_true_iff, !String.eqb_eq.
      intros [?|[?|[?|?]]]; auto. discriminate. }
    + rewrite detect_os_auto_run.
      assert (forall c,
                (exists u,
                   (if Py.utf8_valid c
                    then (Ret (if Py.contains "arch linux" (Py.lower c) then "arch"
                               else if Py.contains "ubuntu" (Py.lower c) then "ubuntu"
                               else "unknown"), s)
                    else (Raise UnicodeDecodeError, s)) = (Ret u, s)
                   /\ In u ["arch"; "ubuntu"; "unknown"])
                \/ (exists e,
                      (if Py.utf8_valid c
                       then (Ret (if Py.contains "arch linux" (Py.lower c) then "arch"
                                  else if Py.contains "ubuntu" (Py.lower c)
                                       then "ubuntu" else "unknown"), s)
                       else (Raise UnicodeDecodeError, s)) = (Raise e, s)
                      /\ "auto" = "auto" /\ e <> FileNotFoundError)) as Hsearch.
      { intros c. destruct (Py.utf8_valid c); [left|right; by eexists].
        destruct (Py.contains "arch linux" _);
          [|destruct (Py.contains "ubuntu" _)];
          eexists; (split; [reflexivity|]); simpl; tauto. }
      case_bool_decide; [right; by eexists|]. cbv zeta.
      destruct (st_fs s !! "/etc/os-release") as [[?|? c|[c|]]|].
      * right. by eexists.
      * apply Hsearch.
      * apply Hsearch.
      * right. by eexists.
      * left. eexists. split; [reflexivity|]. simpl. tauto.
    + left. exists "arch". split; [reflexivity|]. simpl. tauto.
    + left. exists "ubuntu". split; [reflexivity|]. simpl. tauto.
  - intros s' m c m' c' H H' Hv Hv' Hl. rewrite !detect_os_auto_run.
    case_bool_decide; [reflexivity|]. cbv zeta.
    by rewrite H, H', Hv, Hv', Hl.
Qed.

Lemma detect_os_range_witness :
  fst (detect_os Fixture.E "auto" Fixture.s)
  = fst (detect_os Fixture.E "auto"
           (mkState {[ "/etc/os-release" :=
                         File 384 "name=ARCH LINUX (AN UBUNTU LOOK-ALIKE)" ]} [] [])).
Proof.
  apply (proj2 (detect_os_range Fixture.E "auto" Fixture.s eq_refl) _
               420 "NAME=Arch Linux (an Ubuntu look-alike)"
               384 "name=ARCH LINUX (AN UBUNTU LOOK-ALIKE)");
    reflexivity.
Defined.

(** ** How the process ends *)

Lemma then_exit_outcome {A} (m : M A) (s : state) :
  no_exit m ->
  fst ((m ≫= λ _, @sys_exit unit 0) s) = Exit 0
  \/ exists e, fst ((m ≫= λ _, @sys_exit unit 0) s) = Raise e.
Proof.
  intros Hm. rewrite bind_unfold. destruct (m s) as [[x|c|e] s1] eqn:Hs.
  - by left.
  - by apply Hm in Hs.
  - right. by exists e.
Qed.

(** X14. How a run of the dispatcher ends.  Under a branch that outranks
    run (dependencies, configs, install-systemd-timer, one of the four
    intents) the process is ended by [sys.exit], with status 0 or, from
    [configs create] without run-arg only, status 1, unless an exception
    escapes; control never comes back from such a branch.  Under run,
    dry-run or no action at all [sys.exit] is not called: the dispatcher
    returns, unless an exception escapes. *)
Theorem dispatch_outcomes exec E (a : Args) (s : state) :
  choices_ok a ->
  (outranks_run (selected_branch a) = true ->
     fst (dispatch exec E a s) = Exit 0
     \/ (fst (dispatch exec E a s) = Exit 1
         /\ configs a = Some "create" /\ Py.truthy (run_arg a) = false)
     \/ exists e, fst (dispatch exec E a s) = Raise e) /\
  (outranks_run (selected_branch a) = false ->
     fst (dispatch exec E a s) = Ret tt
     \/ exists e, fst (dispatch exec E a s) = Raise e).
Proof.
  intros Hc. rewrite dispatch_priority by done. rewrite bind_unfold.
  destruct (detect_os_cases E (os a) s) as [[u ->]|[e ->]];
    [|split; intros _; [right; right|right]; by exists e].
  rewrite bind_unfold, when_print_run.
  match goal with |- context [run_branch exec E a _ ?s1] => generalize s1 end.
  intros s1. split; intros Hb.
  - destruct (selected_branch a); try discriminate Hb; cbn [run_branch].
    + destruct (then_exit_outcome
                  (if Py.opt_eq (dependencies a) "check"
                   then check_dependencies E (verbose a)
                   else suggest_install_script E (verbose a)) s1) as [H|H];
        [apply no_exit_if; auto with noexit | by left | by right; right].
    + rewrite bind_unfold.
      destruct (handle_configs exec E a s1) as [[x|c|e] s2] eqn:Hh.
      * by left.
      * apply handle_configs_exit in Hh as (-> & ? & ? & _). right; left. done.
      * right; right. by exists e.
    + destruct (then_exit_outcome (handle_systemd_install a) s1) as [H|H];
        [auto with noexit | by left | by right; right].
    + destruct (then_exit_outcome (handle_systemd_timer_actions exec a) s1) as [H|H];
        [auto with noexit | by left | by right; right].
  - assert (no_exit (run_branch exec E a (selected_branch a))) as Hn.
    { destruct (selected_branch a); try discriminate Hb; cbn [run_branch];
        auto with noexit. }
    destruct (run_branch exec E a (selected_branch a) s1) as [[[]|c|e] s2] eqn:Hr.
    + by left.
    + by apply Hn in Hr.
    + right. by exists e.
Qed.

Lemma dispatch_outcomes_witness :
  fst (dispatch Fixture.exec Fixture.E
         (Namespace.set_configs (Some "paths") Fixture.quiet) Fixture.s) = Exit 0
  \/ (fst (dispatch Fixture.exec Fixture.E
             (Namespace.set_configs (Some "paths") Fixture.quiet) Fixture.s) = Exit 1
      /\ configs (Namespace.set_configs (Some "paths") Fixture.quiet) = Some "create"
      /\ Py.truthy (run_arg (Namespace.set_configs (Some "paths") Fixture.quiet)) = false)
  \/ exists e,
       fst (dispatch Fixture.exec Fixture.E
              (Namespace.set_configs (Some "paths") Fixture.quiet) Fixture.s) = Raise e.
Proof.
  apply (proj1 (dispatch_outcomes Fixture.exec Fixture.E
                  (Namespace.set_configs (Some "paths") Fixture.quiet) Fixture.s
                  (or_introl eq_refl))).
  reflexivity.
Defined.

(** ** Where the unit files are *)

Lemma rstrip_sep_idempotent (s : string) :
  Py.rstrip_sep (Py.rstrip_sep s) = Py.rstrip_sep s.
Proof. apply rstrip_sep_fixed, rstrip_sep_endswith. Qed.

(** X15. The two unit files have fixed names in [.config/systemd/user] under
    the home directory, whatever the options.  The home directory is [$HOME]
    or, without it, the one of the password database, less the separators
    it ends in: a home without a trailing separator gives
    [<home>/.config/systemd/user/daily_by_hostname.service] and [.timer],
    so that an empty [$HOME] gives [/.config/systemd/user] in the root
    directory; a trailing separator is not doubled.  With neither [$HOME]
    nor an entry in the password database the tilde stays.  [configs paths]
    prints exactly the two paths and touches nothing. *)
Theorem unit_file_paths exec E (a : Args) (s : state) :
  (service_file E = systemd_user_dir E +:+ "/daily_by_hostname.service" /\
   timer_file E = systemd_user_dir E +:+ "/daily_by_hostname.timer") /\
  (forall h,
     env_environ E !! "HOME" = Some h
     \/ (env_environ E !! "HOME" = None /\ env_pw_dir E = Some h) ->
     systemd_user_dir E = Py.rstrip_sep h +:+ "/.config/systemd/user" /\
     (Py.endswith h Py.SEP = false ->
        systemd_user_dir E = h +:+ "/.config/systemd/user") /\
     (forall h0, h = h0 +:+ Py.SEP -> Py.endswith h0 Py.SEP = false ->
        systemd_user_dir E = h0 +:+ "/.config/systemd/user")) /\
  (env_environ E !! "HOME" = None -> env_pw_dir E = None ->
     systemd_user_dir E = "~/.config/systemd/user") /\
  (configs a = Some "paths" ->
     handle_configs exec E a s =
       (Ret tt, mkState (st_fs s) (st_out s ++ [service_file E; timer_file E])
                        (st_spawned s))).
Proof.
  destruct (unit_paths E) as (base & _ & _ & Hdir & Hsvc & Htim & Hbase).
  split; [|split; [|split]].
  - rewrite Hdir, Hsvc, Htim. by rewrite !app_assoc_str.
  - intros h Hh.
    assert (systemd_user_dir E = Py.rstrip_sep h +:+ "/.config/systemd/user") as Hr.
    { rewrite Hdir, Hbase, app_assoc_str. f_equal.
      assert (home E = if String.eqb (Py.rstrip_sep h) EmptyString
                       then "/" else Py.rstrip_sep h) as ->.
      { unfold home, os.path.expanduser_home.
        by destruct Hh as [-> | [-> ->]]. }
      destruct (String.eqb_spec (Py.rstrip_sep h) EmptyString) as [->|_];
        [reflexivity | apply rstrip_sep_idempotent]. }
    split; [exact Hr|]. split.
    + intros He. by rewrite Hr, rstrip_sep_fixed.
    + intros h0 -> He. by rewrite Hr, rstrip_sep_app_sep, rstrip_sep_fixed.
  - intros H1 H2. rewrite Hdir, Hbase. unfold home, os.path.expanduser_home.
    by rewrite H1, H2.
  - intros Hc. unfold handle_configs. rewrite Hc.
    change (Py.opt_eq (Some "paths") "paths") with true. cbv iota.
    rewrite print_run. unfold print. cbn [st_fs st_out st_spawned].
    by rewrite <- app_assoc.
Qed.

Lemma unit_file_paths_witness :
  systemd_user_dir Fixture.E = "/home/u/.config/systemd/user" /\
  handle_configs Fixture.exec Fixture.E
    (Namespace.set_configs (Some "paths") Fixture.quiet) Fixture.blank
  = (Ret tt,
     mkState ∅ ["/home/u/.config/systemd/user/daily_by_hostname.service";
                "/home/u/.config/systemd/user/daily_by_hostname.timer"] []).
Proof.
  destruct (unit_file_paths Fixture.exec Fixture.E
              (Namespace.set_configs (Some "paths") Fixture.quiet) Fixture.blank)
    as (_ & Hhome & _ & Hpaths).
  split.
  - apply (Hhome "/home/u"); [right; split; reflexivity | reflexivity].
  - apply Hpaths. reflexivity.
Defined.

(** ** The argument parser: repeated options and flags *)

Lemma parse_args_snoc (argv : list cli_option) (o : cli_option) :
  parse_args (argv ++ [o]) =
  match consume argv (mkParser Namespace.defaults false false) with
  | Parsed p => match take_action o p with Parsed p' => Some (ns p') | _ => None end
  | _ => None
  end.
Proof.
  unfold parse_args. rewrite consume_app.
  destruct (consume argv _) as [p| |]; [|done|done]. cbn [consume].
  by destruct (take_action o p).
Qed.

(** X16. An option may be repeated and the last value wins: appending
    [--run-arg], [--Persistent], [--OnCalendar] or [--Description] to a
    command line the parser accepts is always accepted, and changes the one
    value and nothing else.  For [--run-arg] the value replaced may be one
    that [--run] had given. *)
Theorem last_value_wins (argv : list cli_option) (b : Args) (v : string) :
  parse_args argv = Some b ->
  parse_args (argv ++ [Opt_run_arg v]) = Some (Namespace.set_run_arg (Some v) b) /\
  parse_args (argv ++ [Opt_Persistent v]) = Some (Namespace.set_Persistent (Some v) b) /\
  parse_args (argv ++ [Opt_OnCalendar v]) = Some (Namespace.set_OnCalendar (Some v) b) /\
  parse_args (argv ++ [Opt_Description v])
    = Some (Namespace.set_Description (Some v) b).
Proof.
  rewrite !parse_args_snoc. unfold parse_args.
  destruct (consume argv _) as [p| |]; [|done|done]. by intros [= <-].
Qed.

Lemma last_value_wins_witness :
  parse_args ([Opt_run "jobs"; Opt_verbose] ++ [Opt_run_arg "/tmp/x"])
  = Some (Namespace.set_run_arg (Some "/tmp/x")
            (Namespace.set_verbose true
               (Namespace.set_run_arg (Some "jobs") Namespace.defaults))).
Proof.
  apply (proj1 (last_value_wins [Opt_run "jobs"; Opt_verbose] _ "/tmp/x" eq_refl)).
Defined.

Lemma take_action_flags (o : cli_option) (p p' : parser_state) :
  take_action o p = Parsed p' ->
  (verbose (ns p') = true <-> verbose (ns p) = true \/ o = Opt_verbose) /\
  (status (ns p') = true <-> status (ns p) = true \/ o = Opt_status) /\
  (enable_and_start (ns p') = true
     <-> enable_and_start (ns p) = true \/ o = Opt_enable_and_start) /\
  (disable_and_stop (ns p') = true
     <-> disable_and_stop (ns p) = true \/ o = Opt_disable_and_stop) /\
  (logs (ns p') = true <-> logs (ns p) = true \/ o = Opt_logs).
Proof.
  intros H.
  destruct o; cbn [take_action] in H;
    repeat match type of H with
           | (if ?c then _ else _) = _ => destruct c eqn:?; [|try discriminate H]
           end;
    try discriminate H; injection H as <-;
    cbn [ns Namespace.set_os Namespace.set_run_arg Namespace.set_dry_run_arg
         Namespace.set_verbose Namespace.set_dependencies Namespace.set_configs
         Namespace.set_install_systemd_timer Namespace.set_Persistent
         Namespace.set_OnCalendar Namespace.set_Description Namespace.set_status
         Namespace.set_enable_and_start Namespace.set_disable_and_stop
         Namespace.set_logs verbose status enable_and_start disable_and_stop logs];
    repeat split; auto; intros [?|?]; done.
Qed.

Lemma consume_flags (argv : list cli_option) (p r : parser_state) :
  consume argv p = Parsed r ->
  (verbose (ns r) = true <-> verbose (ns p) = true \/ In Opt_verbose argv) /\
  (status (ns r) = true <-> status (ns p) = true \/ In Opt_status argv) /\
  (enable_and_start (ns r) = true
     <-> enable_and_start (ns p) = true \/ In Opt_enable_and_start argv) /\
  (disable_and_stop (ns r) = true
     <-> disable_and_stop (ns p) = true \/ In Opt_disable_and_stop argv) /\
  (logs (ns r) = true <-> logs (ns p) = true \/ In Opt_logs argv).
Proof.
  revert p. induction argv as [|o argv IH]; intros p H; cbn [consume] in H.
  - injection H as <-. cbn [In]. tauto.
  - destruct (take_action o p) as [p'| |] eqn:Ho; [|done|done].
    destruct (take_action_flags o p p' Ho) as (T1 & T2 & T3 & T4 & T5).
    destruct (IH p' H) as (I1 & I2 & I3 & I4 & I5).
    cbn [In]. rewrite I1, I2, I3, I4, I5, T1, T2, T3, T4, T5.
    repeat split; intuition congruence.
Qed.

(** X17. In the parsed options a flag is true exactly when it occurs on the
    command line: verbose, status, enable_and_start, disable_and_stop and
    logs are never set by another option and never cleared by a later one. *)
Theorem flags_reflect_the_command_line (argv : list cli_option) (a : Args) :
  parse_args argv = Some a ->
  (verbose a = true <-> In Opt_verbose argv) /\
  (status a = true <-> In Opt_status argv) /\
  (enable_and_start a = true <-> In Opt_enable_and_start argv) /\
  (disable_and_stop a = true <-> In Opt_disable_and_stop argv) /\
  (logs a = true <-> In Opt_logs argv).
Proof.
  intros (r & Hc & <-)%parse_args_parsed.
  destruct (consume_flags argv _ r Hc) as (I1 & I2 & I3 & I4 & I5).
  cbn [ns Namespace.defaults verbose status enable_and_start disable_and_stop logs]
    in *.
  rewrite I1, I2, I3, I4, I5. repeat split; intuition discriminate.
Qed.

Lemma flags_reflect_the_command_line_witness :
  logs (Namespace.set_logs true
          (Namespace.set_configs (Some "paths")
             (Namespace.set_verbose true Namespace.defaults))) = true.
Proof.
  apply (proj2 (proj2 (proj2 (proj2 (flags_reflect_the_command_line
                         [Opt_verbose; Opt_configs "paths"; Opt_logs] _ eq_refl))))).
  simpl. tauto.
Defined.
